(** * FAT32 driver of the operating-system repository: model and properties

    Shallow embedding of [src/fat32.c].  Integers of the C code are [Z]
    with their wrap-around written out, raw storage is a byte-addressed
    device, the driver's static state is a record that every operation
    threads explicitly. *)

From Stdlib Require Import ZArith List Bool Lia Sorted.
From Stdlib Require Import Init.Byte Strings.Byte.
From stdpp Require Import base list.

Open Scope Z_scope.

(** ** Constants of [header/filesystem/fat32.h] *)

(** Modelled from the spec: the header [header/filesystem/fat32.h] is not
    among the sources.  The spec fixes a 512-byte block, clusters of four
    blocks (a 255-block transfer caps a call at 63 clusters), the FAT at
    cluster 1 as one cluster of 32-bit values, the root directory at
    cluster 2 and the boot sector at block 0. *)
Definition BLOCK_SIZE : Z := 512.
Definition CLUSTER_BLOCK_COUNT : Z := 4.
Definition CLUSTER_SIZE : Z := BLOCK_SIZE * CLUSTER_BLOCK_COUNT.
Definition CLUSTER_MAP_SIZE : Z := 512.
Definition BOOT_SECTOR : Z := 0.
Definition FAT_CLUSTER_NUMBER : Z := 1.
Definition ROOT_CLUSTER_NUMBER : Z := 2.

(** Modelled from the spec: sentinel values of the missing header.  The
    spec names them [Reserved] (clusters 0 and 1), [Free] and [EndOfChain];
    the numbers are the FAT32 ones. *)
Definition CLUSTER_0_VALUE : Z := 0x0FFFFFF0.
Definition CLUSTER_1_VALUE : Z := 0x0FFFFFFF.
Definition FAT32_FAT_END_OF_FILE : Z := 0x0FFFFFFF.
Definition FAT32_FAT_EMPTY_ENTRY : Z := 0.

(** Modelled from the spec: the [SUBDIRECTORY] marker and the occupancy
    flag of the missing header. *)
Definition ATTR_SUBDIRECTORY : Z := 0x10.
Definition UATTR_NOT_EMPTY : Z := 0xAA.

(** ** Machine integers *)

Definition to_uint8 (z : Z) : Z := z mod 2 ^ 8.
Definition to_uint32 (z : Z) : Z := z mod 2 ^ 32.

(** Conversion of a 32-bit pattern to [int32_t] (two's complement). *)
Definition to_int32 (z : Z) : Z :=
  let u := to_uint32 z in if u <? 2 ^ 31 then u else u - 2 ^ 32.

(** ** Bytes *)

Definition byte_of_Z (z : Z) : byte :=
  match Byte.of_N (Z.to_N (to_uint8 z)) with
  | Some b => b
  | None => x00
  end.

Definition Z_of_byte (b : byte) : Z := Z.of_N (Byte.to_N b).

(** [n] bytes starting at [l], zero bytes where [l] ends early. *)
Definition bytes_n (n : nat) (l : list byte) : list byte :=
  firstn n (l ++ repeat x00 n).

(** [n] bytes at offset [off] of the memory [l]. *)
Definition bytes_at (off : Z) (n : nat) (l : list byte) : list byte :=
  bytes_n n (skipn (Z.to_nat off) l).

(** Little-endian layout of an [n]-byte unsigned integer. *)
Fixpoint le_bytes (n : nat) (z : Z) : list byte :=
  match n with
  | O => []
  | S n' => byte_of_Z z :: le_bytes n' (Z.shiftr z 8)
  end.

Fixpoint le_value (l : list byte) : Z :=
  match l with
  | [] => 0
  | b :: l' => Z_of_byte b + 2 ^ 8 * le_value l'
  end.

Fixpoint bytes_eqb (a b : list byte) : bool :=
  match a, b with
  | [], [] => true
  | x :: a', y :: b' => Byte.eqb x y && bytes_eqb a' b'
  | _, _ => false
  end.

(** [memcmp(a, b, n) == 0] *)
Definition memcmp_eq (a b : list byte) (n : nat) : bool :=
  bytes_eqb (bytes_n n a) (bytes_n n b).

(** The region that starts at a caller's pointer after [data] was copied to
    offset [off] of it. *)
Definition mem_store (region : list byte) (off : Z) (data : list byte)
  : list byte :=
  bytes_n (Z.to_nat off) region ++ data
    ++ skipn (Z.to_nat off + length data) region.

(** ** Block device *)

(** The device maps a byte address to the byte stored there; block [lba]
    covers addresses [lba * BLOCK_SIZE .. (lba + 1) * BLOCK_SIZE - 1]. *)
Definition Disk : Type := Z -> byte.

Definition blank_disk : Disk := fun _ => x00.

Definition read_blocks (d : Disk) (lba block_count : Z) : list byte :=
  map (fun k => d (lba * BLOCK_SIZE + Z.of_nat k))
      (seq 0 (Z.to_nat (block_count * BLOCK_SIZE))).

Definition write_blocks (src : list byte) (lba block_count : Z) (d : Disk)
  : Disk :=
  fun a =>
    let off := a - lba * BLOCK_SIZE in
    if (0 <=? off) && (off <? block_count * BLOCK_SIZE)
    then nth (Z.to_nat off) src x00
    else d a.

Definition cluster_to_lba (cluster : Z) : Z :=
  to_uint32 (cluster * CLUSTER_BLOCK_COUNT).

Definition write_clusters (src : list byte) (cluster_number cluster_count : Z)
    (d : Disk) : Disk :=
  write_blocks src (cluster_to_lba cluster_number)
               (to_uint8 (cluster_count * CLUSTER_BLOCK_COUNT)) d.

Definition read_clusters (d : Disk) (cluster_number cluster_count : Z)
  : list byte :=
  read_blocks d (cluster_to_lba cluster_number)
              (to_uint8 (cluster_count * CLUSTER_BLOCK_COUNT)).

(** ** Data structures of the missing header *)

(** Modelled from the spec: [struct FAT32DirectoryEntry] of the missing
    header, a packed 32-byte record.  The spec lists the 8-byte name, the
    3-byte extension, the directory/file attribute, the occupancy flag, the
    starting cluster number (kept as two 16-bit halves) and the file size;
    the remaining fields are the FAT32 time stamps, which the driver never
    writes. *)
Record FAT32DirectoryEntry : Type := mkEntry {
  name : list byte;
  ext : list byte;
  attribute : Z;
  user_attribute : Z;
  undelete : Z;
  create_time : Z;
  create_date : Z;
  access_date : Z;
  cluster_high : Z;
  modified_time : Z;
  modified_date : Z;
  cluster_low : Z;
  filesize : Z
}.

(** [sizeof(struct FAT32DirectoryEntry)] *)
Definition DIRECTORY_ENTRY_SIZE : Z := 32.

Definition zero_entry : FAT32DirectoryEntry :=
  mkEntry (repeat x00 8) (repeat x00 3) 0 0 0 0 0 0 0 0 0 0 0.

Definition encode_entry (e : FAT32DirectoryEntry) : list byte :=
  bytes_n 8 (name e) ++ bytes_n 3 (ext e)
    ++ le_bytes 1 (attribute e) ++ le_bytes 1 (user_attribute e)
    ++ le_bytes 1 (undelete e) ++ le_bytes 2 (create_time e)
    ++ le_bytes 2 (create_date e) ++ le_bytes 2 (access_date e)
    ++ le_bytes 2 (cluster_high e) ++ le_bytes 2 (modified_time e)
    ++ le_bytes 2 (modified_date e) ++ le_bytes 2 (cluster_low e)
    ++ le_bytes 4 (filesize e).

Definition decode_entry (b : list byte) : FAT32DirectoryEntry :=
  let f off n := le_value (bytes_at off n b) in
  mkEntry (bytes_at 0 8 b) (bytes_at 8 3 b) (f 11 1%nat) (f 12 1%nat)
          (f 13 1%nat) (f 14 2%nat) (f 16 2%nat) (f 18 2%nat) (f 20 2%nat)
          (f 22 2%nat) (f 24 2%nat) (f 26 2%nat) (f 28 4%nat).

(** [n] consecutive records of [size] bytes each. *)
Fixpoint chunks (n size : nat) (l : list byte) : list (list byte) :=
  match n with
  | O => []
  | S n' => bytes_n size l :: chunks n' size (skipn size l)
  end.

(** [sizeof(struct FAT32DirectoryTable) / sizeof(struct FAT32DirectoryEntry)]:
    a table is exactly the entries that fit in one cluster. *)
Definition directory_size : Z := CLUSTER_SIZE / DIRECTORY_ENTRY_SIZE.

Definition encode_table (t : list FAT32DirectoryEntry) : list byte :=
  flat_map encode_entry t.

Definition decode_table (b : list byte) : list FAT32DirectoryEntry :=
  map decode_entry
      (chunks (Z.to_nat directory_size) (Z.to_nat DIRECTORY_ENTRY_SIZE) b).

(** [struct FAT32DirectoryTable t = { 0 }] *)
Definition zero_table : list FAT32DirectoryEntry :=
  repeat zero_entry (Z.to_nat directory_size).

(** [table[i]] of a directory table. *)
Definition table_get (t : list FAT32DirectoryEntry) (i : Z)
  : FAT32DirectoryEntry :=
  nth (Z.to_nat i) t zero_entry.

(** The FAT is [CLUSTER_MAP_SIZE] little-endian 32-bit values. *)
Definition encode_fat (m : list Z) : list byte := flat_map (le_bytes 4) m.

Definition decode_fat (b : list byte) : list Z :=
  map le_value (chunks (Z.to_nat CLUSTER_MAP_SIZE) 4 b).

(** [cluster_map[i]] for an index the loops keep below [CLUSTER_MAP_SIZE]. *)
Definition cluster_map_at (m : list Z) (i : Z) : Z := nth (Z.to_nat i) m 0.

(** [cluster_map[c]] for a cluster number taken from storage: an index
    outside the array has no defined value. *)
Definition cluster_map_get (m : list Z) (c : Z) : option Z :=
  if (0 <=? c) && (c <? CLUSTER_MAP_SIZE) then m !! Z.to_nat c else None.

(** Modelled from the spec: [struct FAT32DriverState] of the missing header,
    the FAT cache followed by the directory scratch buffer and a cluster
    buffer, packed in this order. *)
Record FAT32DriverState : Type := mkState {
  fat_table : list Z;
  dir_table_buf : list FAT32DirectoryEntry;
  cluster_buf : list byte
}.

(** [static struct FAT32DriverState driver_state = { 0 }] *)
Definition driver_state : FAT32DriverState :=
  mkState (repeat 0 (Z.to_nat CLUSTER_MAP_SIZE)) zero_table
          (repeat x00 (Z.to_nat CLUSTER_SIZE)).

(** [driver_state.dir_table_buf.table[i] = e].  The array has
    [directory_size] slots; the bytes of an entry stored past the last slot
    land behind the table, in [cluster_buf], and no slot of the table
    changes. *)
Definition table_store (i : Z) (e : FAT32DirectoryEntry)
    (s : FAT32DriverState) : FAT32DriverState :=
  if i <? directory_size
  then mkState (fat_table s) (<[Z.to_nat i := e]> (dir_table_buf s))
               (cluster_buf s)
  else mkState (fat_table s) (dir_table_buf s)
               (mem_store (cluster_buf s)
                          ((i - directory_size) * DIRECTORY_ENTRY_SIZE)
                          (encode_entry e)).

(** Modelled from the spec: [struct FAT32DriverRequest] of the missing
    header: the caller's memory at [buf], the name and extension key, the
    parent directory's cluster number and the 32-bit size field. *)
Record FAT32DriverRequest : Type := mkRequest {
  buf : list byte;
  req_name : list byte;
  req_ext : list byte;
  parent_cluster_number : Z;
  buffer_size : Z
}.

(** The device together with the driver's static state. *)
Record World : Type := mkWorld {
  disk : Disk;
  state : FAT32DriverState
}.

(** ** Bootstrap *)

Definition ascii_bytes (l : list Z) : list byte := map byte_of_Z l.

(** [fs_signature]: five 16-byte rows of text, zero bytes, then ['O'] and
    ['k'] in the last two bytes of the block. *)
Definition fs_signature : list byte :=
  ascii_bytes
    [ 67; 111; 117; 114; 115; 101; 32; 32; 32; 32; 32; 32; 32; 32; 32; 32;
      68; 101; 115; 105; 103; 110; 101; 100; 32; 98; 121; 32; 32; 32; 32; 32;
      76; 97; 98; 32; 83; 105; 115; 116; 101; 114; 32; 73; 84; 66; 32; 32;
      77; 97; 100; 101; 32; 119; 105; 116; 104; 32; 60; 51; 32; 32; 32; 32;
      45; 45; 45; 45; 45; 45; 45; 45; 45; 45; 45; 50; 48; 50; 52; 10 ]
    ++ repeat x00 (Z.to_nat (BLOCK_SIZE - 2) - 80)
    ++ ascii_bytes [79; 107].

Definition init_directory_table (dir_table : list FAT32DirectoryEntry)
    (nm : list byte) (parent_dir_cluster : Z) : list FAT32DirectoryEntry :=
  let cluster_low' := Z.land parent_dir_cluster 0xFFFF in
  let cluster_high' := Z.land (Z.shiftr parent_dir_cluster 16) 0xFFFF in
  let e := table_get dir_table 0 in
  <[ 0%nat := mkEntry (bytes_n 8 nm) (ext e) ATTR_SUBDIRECTORY UATTR_NOT_EMPTY
                      (undelete e) (create_time e) (create_date e)
                      (access_date e) cluster_high' (modified_time e)
                      (modified_date e) cluster_low' (filesize e) ]> dir_table.

(** [memcmp] of the boot sector with the signature reports a difference. *)
Definition is_empty_storage (w : World) : bool :=
  let boot_sector := read_blocks (disk w) BOOT_SECTOR 1 in
  negb (memcmp_eq boot_sector fs_signature (Z.to_nat BLOCK_SIZE)).

(** [for (uint16_t i = from; i < CLUSTER_MAP_SIZE; i++) cluster_map[i] = v] *)
Definition fill_cluster_map (from : Z) (v : Z) (m : list Z) : list Z :=
  fold_left (fun m' i => <[i := v]> m')
            (seq (Z.to_nat from) (Z.to_nat (CLUSTER_MAP_SIZE - from))) m.

Definition create_fat32 (w : World) : World :=
  let d1 := write_blocks fs_signature BOOT_SECTOR 1 (disk w) in
  let m0 := <[0%nat := CLUSTER_0_VALUE]> (fat_table (state w)) in
  let m1 := <[1%nat := CLUSTER_1_VALUE]> m0 in
  let m2 := <[Z.to_nat ROOT_CLUSTER_NUMBER := FAT32_FAT_END_OF_FILE]> m1 in
  let m3 := fill_cluster_map 3 FAT32_FAT_EMPTY_ENTRY m2 in
  let d2 := write_clusters (encode_fat m3) FAT_CLUSTER_NUMBER 1 d1 in
  let root_dir_table :=
    init_directory_table zero_table (ascii_bytes [114; 111; 111; 116])
                         ROOT_CLUSTER_NUMBER in
  let d3 := write_clusters (encode_table root_dir_table)
                           ROOT_CLUSTER_NUMBER 1 d2 in
  mkWorld d3 (mkState m3 (dir_table_buf (state w)) (cluster_buf (state w))).

Definition initialize_filesystem_fat32 (w : World) : World :=
  if is_empty_storage w then create_fat32 w
  else mkWorld (disk w)
         (mkState (decode_fat (read_clusters (disk w) FAT_CLUSTER_NUMBER 1))
                  (dir_table_buf (state w)) (cluster_buf (state w))).

(** The spec's [is_formatted]. *)
Definition is_formatted (w : World) : bool := negb (is_empty_storage w).

Definition fresh_world : World := mkWorld blank_disk driver_state.

(** ** CRUD operations *)

(** The world whose directory scratch buffer holds [t]. *)
Definition with_dir_table (t : list FAT32DirectoryEntry) (w : World) : World :=
  mkWorld (disk w) (mkState (fat_table (state w)) t (cluster_buf (state w))).

(** [read_clusters(&driver_state.dir_table_buf, c, 1)] *)
Definition load_dir_table (c : Z) (w : World) : World :=
  with_dir_table (decode_table (read_clusters (disk w) c 1)) w.

(** [entry.cluster_low | (entry.cluster_high << 16)] *)
Definition entry_cluster (e : FAT32DirectoryEntry) : Z :=
  to_uint32 (Z.lor (cluster_low e) (Z.shiftl (cluster_high e) 16)).

(** Name and extension comparison of one slot, as each loop body does it. *)
Definition is_match (e : FAT32DirectoryEntry) (nm ex : list byte) : bool :=
  let is_name_match := memcmp_eq (name e) nm 8 in
  let is_ext_match := memcmp_eq (ext e) ex 3 in
  is_name_match && is_ext_match.

(** The loop [for (i = 0; i < directory_size; i++)] up to its first match;
    [i] is the index of the slot at the head of [t]. *)
Fixpoint scan_entries (nm ex : list byte) (i : Z)
    (t : list FAT32DirectoryEntry) : option (Z * FAT32DirectoryEntry) :=
  match t with
  | [] => None
  | e :: t' =>
      if is_match e nm ex then Some (i, e)
      else scan_entries nm ex (i + 1) t'
  end.

Definition find_entry (request : FAT32DriverRequest)
    (t : list FAT32DirectoryEntry) : option (Z * FAT32DirectoryEntry) :=
  scan_entries (req_name request) (req_ext request) 0
               (firstn (Z.to_nat directory_size) t).

Definition parent_is_folder (t : list FAT32DirectoryEntry) : bool :=
  attribute (table_get t 0) =? ATTR_SUBDIRECTORY.

(** Each operation first loads the parent's table into the scratch buffer;
    [read_directory_in], [read_in], [write_in] and [delete_in] are the
    function bodies after that first statement, run in the world [w1] it
    leaves. *)
Definition read_directory_in (request : FAT32DriverRequest) (w1 : World)
  : Z * World :=
  let t := dir_table_buf (state w1) in
  if negb (parent_is_folder t) then (-1, w1)
  else
    match find_entry request t with
    | Some (_, e) =>
        let is_directory := attribute e =? ATTR_SUBDIRECTORY in
        if negb is_directory then (1, w1)
        else (0, load_dir_table (entry_cluster e) w1)
    | None => (2, w1)
    end.

Definition read_directory (request : FAT32DriverRequest) (w : World)
  : Z * World :=
  read_directory_in request
                    (load_dir_table (parent_cluster_number request) w).

(** The [do ... while] of [read]: one cluster is copied to the caller's
    memory per link.  [None]: the walk indexes the FAT outside its array or
    does not end within [fuel] links. *)
Fixpoint read_chain (fuel : nat) (d : Disk) (m : list Z) (b : list byte)
    (cluster_number offset : Z) : option (list byte) :=
  match fuel with
  | O => None
  | S fuel' =>
      let b' := mem_store b (to_uint32 (offset * CLUSTER_SIZE))
                          (read_clusters d cluster_number 1) in
      match cluster_map_get m cluster_number with
      | None => None
      | Some next =>
          if next =? FAT32_FAT_END_OF_FILE then Some b'
          else read_chain fuel' d m b' next (to_uint32 (offset + 1))
      end
  end.

(** [read] returns the status, the caller's memory at [request.buf] and the
    new world. *)
Definition read_in (fuel : nat) (request : FAT32DriverRequest) (w1 : World)
  : option (Z * list byte * World) :=
  let t := dir_table_buf (state w1) in
  if negb (parent_is_folder t) then Some (-1, buf request, w1)
  else
    match find_entry request t with
    | Some (_, e) =>
        let is_file := negb (attribute e =? ATTR_SUBDIRECTORY) in
        if negb is_file then Some (1, buf request, w1)
        else
          let is_buffer_enough :=
            filesize e <=? to_uint32 (buffer_size request) in
          if negb is_buffer_enough then Some (2, buf request, w1)
          else
            match read_chain fuel (disk w1) (fat_table (state w1))
                             (buf request) (entry_cluster e) 0 with
            | Some b' => Some (0, b', w1)
            | None => None
            end
    | None => Some (3, buf request, w1)
    end.

Definition read (fuel : nat) (request : FAT32DriverRequest) (w : World)
  : option (Z * list byte * World) :=
  read_in fuel request (load_dir_table (parent_cluster_number request) w).

(** [int32_t ceil_div(int32_t a, int32_t b)]: C division truncates toward
    zero and the remainder has the sign of the dividend. *)
Definition ceil_div (a b : Z) : Z :=
  to_int32 (Z.quot a b + (if Z.rem a b =? 0 then 0 else 1)).

(** Cluster numbers [i] with [from <= i < CLUSTER_MAP_SIZE] whose FAT entry
    is empty, in ascending order. *)
Definition free_clusters (from : Z) (m : list Z) : list Z :=
  List.filter
    (fun i => cluster_map_at m i =? FAT32_FAT_EMPTY_ENTRY)
    (map Z.of_nat
         (seq (Z.to_nat from) (Z.to_nat (CLUSTER_MAP_SIZE - from)))).

(** The allocation loop of [write]: iteration [i] links the [i]-th free
    cluster and writes the [i]-th cluster-sized piece of the payload. *)
Fixpoint write_chain (n : nat) (i cluster_count : Z) (empty_clusters : list Z)
    (src : list byte) (md : list Z * Disk) : list Z * Disk :=
  match n with
  | O => md
  | S n' =>
      let cluster_number := nth (Z.to_nat i) empty_clusters 0 in
      let v := if i =? cluster_count - 1 then FAT32_FAT_END_OF_FILE
               else nth (Z.to_nat (i + 1)) empty_clusters 0 in
      let m' := <[Z.to_nat cluster_number := v]> (fst md) in
      let d' := write_clusters
                  (bytes_at (to_uint32 (i * CLUSTER_SIZE))
                            (Z.to_nat CLUSTER_SIZE) src)
                  cluster_number 1 (snd md) in
      write_chain n' (i + 1) cluster_count empty_clusters src (m', d')
  end.

(** [write]: the duplicate check, the space check over the clusters from 2
    on, the choice of [empty_cluster], then either the new directory table
    or the allocation loop, the store of the new entry at index
    [directory_size] and the two writes of the parent table and the FAT. *)
Definition write_in (request : FAT32DriverRequest) (w1 : World)
  : Z * World :=
  let t := dir_table_buf (state w1) in
  if negb (parent_is_folder t) then (-1, w1)
  else
    match find_entry request t with
    | Some _ => (1, w1)
    | None =>
        let size := to_uint32 (buffer_size request) in
        let cluster_count :=
          to_uint32 (ceil_div (to_int32 size) CLUSTER_SIZE) in
        let m := fat_table (state w1) in
        let cluster_available := Z.of_nat (length (free_clusters 2 m)) in
        if cluster_available <? cluster_count then (-1, w1)
        else
          let empty_cluster := hd 0 (free_clusters 2 m) in
          let new_entry (attr : Z) :=
            mkEntry (bytes_n 8 (req_name request))
                    (bytes_n 3 (req_ext request)) attr UATTR_NOT_EMPTY
                    0 0 0 0
                    (Z.land (Z.shiftr empty_cluster 16) 0xFFFF) 0 0
                    (Z.land empty_cluster 0xFFFF) size in
          let '(new_entry', (m', d')) :=
            if size =? 0 then
              let new_dir_table :=
                init_directory_table zero_table (req_name request)
                                     (parent_cluster_number request) in
              (new_entry ATTR_SUBDIRECTORY,
               (<[Z.to_nat empty_cluster := FAT32_FAT_END_OF_FILE]> m,
                write_clusters (encode_table new_dir_table) empty_cluster 1
                               (disk w1)))
            else
              (new_entry 0,
               write_chain (Z.to_nat cluster_count) 0 cluster_count
                           (free_clusters 0 m) (buf request) (m, disk w1))
          in
          let s2 :=
            table_store directory_size new_entry'
                        (mkState m' t (cluster_buf (state w1))) in
          let d2 := write_clusters (encode_table (dir_table_buf s2))
                                   (parent_cluster_number request) 1 d' in
          let d3 := write_clusters (encode_fat (fat_table s2))
                                   FAT_CLUSTER_NUMBER 1 d2 in
          (0, mkWorld d3 s2)
    end.

Definition write (request : FAT32DriverRequest) (w : World) : Z * World :=
  write_in request (load_dir_table (parent_cluster_number request) w).

(** The [do ... while] of [delete]: every visited FAT entry is emptied.
    [None] as for [read_chain]. *)
Fixpoint free_chain (fuel : nat) (m : list Z) (cluster_number : Z)
  : option (list Z) :=
  match fuel with
  | O => None
  | S fuel' =>
      match cluster_map_get m cluster_number with
      | None => None
      | Some next_cluster =>
          let m' := <[Z.to_nat cluster_number := FAT32_FAT_EMPTY_ENTRY]> m in
          if next_cluster =? FAT32_FAT_END_OF_FILE then Some m'
          else free_chain fuel' m' next_cluster
      end
  end.

(** The slot after [user_attribute = 0] and the two [memset]s. *)
Definition tombstone (e : FAT32DirectoryEntry) : FAT32DirectoryEntry :=
  mkEntry (repeat x00 8) (repeat x00 3) (attribute e) 0 (undelete e)
          (create_time e) (create_date e) (access_date e) (cluster_high e)
          (modified_time e) (modified_date e) (cluster_low e) (filesize e).

(** Some slot [1 .. directory_size - 1] of [t] is marked occupied. *)
Definition has_occupied_slot (t : list FAT32DirectoryEntry) : bool :=
  existsb (fun e => user_attribute e =? UATTR_NOT_EMPTY)
          (skipn 1 (firstn (Z.to_nat directory_size) t)).

(** [delete]: a matched directory is refused when its table has an occupied
    slot; otherwise the slot is tombstoned, the chain is emptied and the
    parent table and the FAT are written. *)
Definition delete_in (fuel : nat) (request : FAT32DriverRequest)
    (w1 : World) : option (Z * World) :=
  let t := dir_table_buf (state w1) in
  if negb (parent_is_folder t) then Some (-1, w1)
  else
    match find_entry request t with
    | Some (i, entry) =>
        let cluster_number := entry_cluster entry in
        if (attribute entry =? ATTR_SUBDIRECTORY)
           && has_occupied_slot
                (decode_table (read_clusters (disk w1) cluster_number 1))
        then Some (2, w1)
        else
          let t' := <[Z.to_nat i := tombstone (table_get t i)]> t in
          match free_chain fuel (fat_table (state w1)) cluster_number with
          | None => None
          | Some m' =>
              let d1 := write_clusters (encode_table t')
                          (parent_cluster_number request) 1 (disk w1) in
              let d2 := write_clusters (encode_fat m') FAT_CLUSTER_NUMBER 1
                                       d1 in
              Some (0, mkWorld d2 (mkState m' t' (cluster_buf (state w1))))
          end
    | None => Some (1, w1)
    end.

Definition delete (fuel : nat) (request : FAT32DriverRequest) (w : World)
  : option (Z * World) :=
  delete_in fuel request (load_dir_table (parent_cluster_number request) w).

(** ** Call surface *)

(** The four operations that the system-call layer invokes. *)
Inductive operation : Type :=
  | LookupDirectory
  | ReadFile
  | WriteEntry
  | DeleteEntry.

(** Status and resulting world of the body of one operation; [None] as for
    the chain walks. *)
Definition run_in (op : operation) (fuel : nat)
    (request : FAT32DriverRequest) (w1 : World) : option (Z * World) :=
  match op with
  | LookupDirectory => Some (read_directory_in request w1)
  | ReadFile =>
      option_map (fun x => (fst (fst x), snd x)) (read_in fuel request w1)
  | WriteEntry => Some (write_in request w1)
  | DeleteEntry => delete_in fuel request w1
  end.

(** One call of an operation: the parent's table is loaded, then the body
    runs. *)
Definition run (op : operation) (fuel : nat) (request : FAT32DriverRequest)
    (w : World) : option (Z * World) :=
  run_in op fuel request (load_dir_table (parent_cluster_number request) w).

(** Status and caller memory of a [read] outcome. *)
Definition read_outcome (r : option (Z * list byte * World))
  : option (Z * list byte) :=
  option_map (fun x => (fst (fst x), snd (fst x))) r.

Definition delete_status (r : option (Z * World)) : option Z :=
  option_map fst r.

(** The world that an outcome leaves; [w] when there is none. *)
Definition world_after (r : option (Z * World)) (w : World) : World :=
  match r with
  | Some (_, w') => w'
  | None => w
  end.

(** ** Notions of the statements *)

(** The mathematical ceiling of [a / b]. *)
Definition ceil_spec (a b : Z) : Z := (a + b - 1) / b.

(** [chain m c l]: followed in the FAT [m] from cluster [c], the chain
    visits the clusters [l] in this order, and the entry of the last one is
    the end-of-chain value. *)
Inductive chain (m : list Z) : Z -> list Z -> Prop :=
  | chain_last (c : Z) :
      cluster_map_get m c = Some FAT32_FAT_END_OF_FILE -> chain m c [c]
  | chain_link (c next : Z) (l : list Z) :
      cluster_map_get m c = Some next ->
      next <> FAT32_FAT_END_OF_FILE ->
      chain m next l -> chain m c (c :: l).

(** The contents of the clusters [l], one whole cluster after the other. *)
Definition clusters_content (d : Disk) (l : list Z) : list byte :=
  flat_map (fun c => read_clusters d c 1) l.

(** The FAT [m] with the entry of every cluster of [l] emptied. *)
Definition free_all (l : list Z) (m : list Z) : list Z :=
  fold_left (fun m' x => <[Z.to_nat x := FAT32_FAT_EMPTY_ENTRY]> m') l m.

(** The slot [e] with another occupancy flag. *)
Definition with_user_attribute (u : Z) (e : FAT32DirectoryEntry)
  : FAT32DirectoryEntry :=
  mkEntry (name e) (ext e) (attribute e) u (undelete e) (create_time e)
          (create_date e) (access_date e) (cluster_high e) (modified_time e)
          (modified_date e) (cluster_low e) (filesize e).

(** ** Sample devices and requests *)

(** The zero-filled device after [initialize_filesystem_fat32]. *)
Definition formatted_world : World := initialize_filesystem_fat32 fresh_world.

(** The key FILE1.TXT in the root directory. *)
Definition file1_request (payload : list byte) (size : Z)
  : FAT32DriverRequest :=
  mkRequest payload (ascii_bytes [70; 73; 76; 69; 49])
            (ascii_bytes [84; 88; 84]) ROOT_CLUSTER_NUMBER size.

(** The key [root], the name that [create_fat32] gives to slot 0 of the
    root directory. *)
Definition root_request : FAT32DriverRequest :=
  mkRequest [] (ascii_bytes [114; 111; 111; 116]) [] ROOT_CLUSTER_NUMBER 0.

(** A request whose key is all zero bytes. *)
Definition zero_key_request : FAT32DriverRequest :=
  mkRequest [] (repeat x00 8) (repeat x00 3) ROOT_CLUSTER_NUMBER 0.

(** A file of 509 clusters: every cluster that is free after formatting. *)
Definition big_request : FAT32DriverRequest :=
  mkRequest [] (ascii_bytes [66; 73; 71]) [] ROOT_CLUSTER_NUMBER
            (509 * CLUSTER_SIZE).

(** A directory creation: size 0. *)
Definition dir_request : FAT32DriverRequest :=
  mkRequest [] (ascii_bytes [68; 73; 82]) [] ROOT_CLUSTER_NUMBER 0.

(** A file whose size field is the largest 32-bit value. *)
Definition huge_request : FAT32DriverRequest :=
  mkRequest [] (ascii_bytes [72; 85; 71; 69]) [] ROOT_CLUSTER_NUMBER
            (2 ^ 32 - 1).

(** The formatted device after [big_request]: no cluster is free. *)
Definition full_result : Z * World := write big_request formatted_world.
Definition full_world : World := snd full_result.

(** The directory entry of a file of [size] bytes that starts at
    [cluster]. *)
Definition file_entry (nm ex : list byte) (cluster size : Z)
  : FAT32DirectoryEntry :=
  mkEntry (bytes_n 8 nm) (bytes_n 3 ex) 0 UATTR_NOT_EMPTY 0 0 0 0
          (Z.land (Z.shiftr cluster 16) 0xFFFF) 0 0 (Z.land cluster 0xFFFF)
          size.

Definition file1_entry : FAT32DirectoryEntry :=
  file_entry (ascii_bytes [70; 73; 76; 69; 49]) (ascii_bytes [84; 88; 84])
             3 3000.

(** A formatted device that holds FILE1.TXT, 3000 bytes in the clusters 3
    and 4, with its entry in slot 1 of the root table. *)
Definition sample_world : World :=
  let w := formatted_world in
  let t := <[1%nat := file1_entry]>
             (decode_table (read_clusters (disk w) ROOT_CLUSTER_NUMBER 1)) in
  let m := <[4%nat := FAT32_FAT_END_OF_FILE]>
             (<[3%nat := 4]> (fat_table (state w))) in
  let d1 := write_clusters (encode_table t) ROOT_CLUSTER_NUMBER 1 (disk w) in
  let d2 := write_clusters (encode_fat m) FAT_CLUSTER_NUMBER 1 d1 in
  let d3 := write_clusters (repeat x41 2048) 3 1 d2 in
  let d4 := write_clusters (repeat x42 2048) 4 1 d3 in
  mkWorld d4 (mkState m (dir_table_buf (state w)) (cluster_buf (state w))).

(** ** Well-formed values *)

(** A FAT as the C array has it: [CLUSTER_MAP_SIZE] entries, each a 32-bit
    value. *)
Definition wf_fat (m : list Z) : Prop :=
  length m = Z.to_nat CLUSTER_MAP_SIZE /\
  Forall (fun x => 0 <= x < 2 ^ 32) m.

(** A directory entry as the packed struct has it: 8 name bytes, 3 extension
    bytes, every number within the width of its field. *)
Definition wf_entry (e : FAT32DirectoryEntry) : Prop :=
  length (name e) = 8%nat /\ length (ext e) = 3%nat /\
  0 <= attribute e < 2 ^ 8 /\ 0 <= user_attribute e < 2 ^ 8 /\
  0 <= undelete e < 2 ^ 8 /\ 0 <= create_time e < 2 ^ 16 /\
  0 <= create_date e < 2 ^ 16 /\ 0 <= access_date e < 2 ^ 16 /\
  0 <= cluster_high e < 2 ^ 16 /\ 0 <= modified_time e < 2 ^ 16 /\
  0 <= modified_date e < 2 ^ 16 /\ 0 <= cluster_low e < 2 ^ 16 /\
  0 <= filesize e < 2 ^ 32.

(** A directory table as the struct has it: [directory_size] well-formed
    entries. *)
Definition wf_table (t : list FAT32DirectoryEntry) : Prop :=
  length t = Z.to_nat directory_size /\ Forall wf_entry t.

(** ** Machine integers in range *)

Lemma to_uint32_small (a : Z) : 0 <= a < 2 ^ 32 -> to_uint32 a = a.
Proof. intros H. unfold to_uint32. apply Z.mod_small. exact H. Qed.

Lemma to_int32_small (a : Z) : 0 <= a < 2 ^ 31 -> to_int32 a = a.
Proof.
  intros H. unfold to_int32. rewrite to_uint32_small by lia.
  destruct (a <? 2 ^ 31) eqn:E; [reflexivity | lia].
Qed.

(** ** Matching *)

Lemma byte_eqb_eq (x y : byte) : Byte.eqb x y = true <-> x = y.
Proof.
  split.
  - intros H. apply Byte.byte_dec_bl in H. exact H.
  - intros ->. apply Byte.byte_dec_lb. reflexivity.
Qed.

Lemma bytes_eqb_eq (a b : list byte) : bytes_eqb a b = true <-> a = b.
Proof.
  revert b. induction a as [|x a IH]; intros [|y b]; simpl;
    try (split; [discriminate | discriminate]); [tauto|].
  rewrite andb_true_iff, byte_eqb_eq, IH. split.
  - intros [-> ->]. reflexivity.
  - intros H. inversion H. auto.
Qed.

Lemma is_match_iff (e : FAT32DirectoryEntry) (nm ex : list byte) :
  is_match e nm ex = true
  <-> bytes_n 8 (name e) = bytes_n 8 nm /\ bytes_n 3 (ext e) = bytes_n 3 ex.
Proof.
  unfold is_match, memcmp_eq. rewrite andb_true_iff, !bytes_eqb_eq. tauto.
Qed.

(** What a successful scan returns: the first slot whose key matches. *)
Lemma scan_entries_first nm ex t : forall i j e,
  scan_entries nm ex i t = Some (j, e) ->
  i <= j < i + Z.of_nat (length t) /\
  t !! Z.to_nat (j - i) = Some e /\
  is_match e nm ex = true /\
  forall (k : nat) x, (k < Z.to_nat (j - i))%nat -> t !! k = Some x ->
                      is_match x nm ex = false.
Proof.
  induction t as [|x t IH]; intros i j e H; cbn [scan_entries] in H;
    [discriminate|].
  destruct (is_match x nm ex) eqn:Hm.
  - injection H as <- <-. rewrite Z.sub_diag. cbn [length].
    split; [lia|]. split; [reflexivity|]. split; [exact Hm|].
    intros k y Hk. change (Z.to_nat 0) with 0%nat in Hk. lia.
  - apply IH in H. destruct H as (Hr & Hl & He & Hfirst). cbn [length].
    replace (Z.to_nat (j - i)) with (S (Z.to_nat (j - (i + 1)))) by lia.
    split; [lia|]. split; [exact Hl|]. split; [exact He|].
    intros [|k] y Hk Hy.
    + injection Hy as <-. exact Hm.
    + apply (Hfirst k y); [lia | exact Hy].
Qed.

(** A scan fails only when no slot matches. *)
Lemma scan_entries_none nm ex t : forall i,
  scan_entries nm ex i t = None ->
  forall e, In e t -> is_match e nm ex = false.
Proof.
  induction t as [|x t IH]; intros i H e Hin; simpl in *; [tauto|].
  destruct (is_match x nm ex) eqn:Hm; [discriminate|].
  destruct Hin as [->|Hin]; [exact Hm | eauto].
Qed.

(** When slot [j] matches, the scan returns a matching slot at or before
    [j]. *)
Lemma find_entry_first request t j :
  0 <= j < directory_size ->
  j < Z.of_nat (length t) ->
  is_match (table_get t j) (req_name request) (req_ext request) = true ->
  exists i e,
    find_entry request t = Some (i, e) /\ 0 <= i <= j /\
    is_match e (req_name request) (req_ext request) = true.
Proof.
  intros Hj Hlen Hm. unfold find_entry.
  set (t1 := firstn (Z.to_nat directory_size) t).
  assert (Hslot : t1 !! Z.to_nat j = Some (table_get t j)).
  { unfold t1, table_get. rewrite lookup_take_lt by lia.
    rewrite nth_lookup. destruct (t !! Z.to_nat j) eqn:E; [reflexivity|].
    apply lookup_ge_None in E. lia. }
  destruct (scan_entries (req_name request) (req_ext request) 0 t1)
    as [[i e]|] eqn:Hscan.
  - apply scan_entries_first in Hscan.
    destruct Hscan as (Hr & _ & He & Hfirst). rewrite Z.sub_0_r in Hfirst.
    exists i, e. split; [reflexivity|]. split; [|exact He].
    split; [lia|]. destruct (Z.le_gt_cases i j) as [Hle|Hgt]; [exact Hle|].
    rewrite (Hfirst (Z.to_nat j) (table_get t j)) in Hm;
      [discriminate | lia | exact Hslot].
  - rewrite (scan_entries_none _ _ _ _ Hscan (table_get t j)) in Hm;
      [discriminate|].
    apply list_elem_of_In, list_elem_of_lookup. eauto.
Qed.

Lemma length_chunks n size l : length (chunks n size l) = n.
Proof. revert l. induction n; simpl; intros; [|rewrite IHn]; reflexivity. Qed.

Lemma length_decode_table b :
  length (decode_table b) = Z.to_nat directory_size.
Proof. unfold decode_table. rewrite length_map. apply length_chunks. Qed.

(** C10: a slot matches a request exactly when its 8 name bytes and 3
    extension bytes equal the request's, whatever its occupancy flag; hence
    for a request whose name and extension are all zero bytes and a parent
    table with a slot [j] whose name and extension bytes are zero, the scan
    returns a slot at or before [j] with zero name and extension, and no
    operation reports that nothing was found: lookup-directory does not
    return 2, [read] does not return 3, [delete] does not return 1, and
    [write] does not succeed. *)
Theorem match_ignores_occupancy (request : FAT32DriverRequest) (w : World)
    (j : Z) :
  let t := decode_table
             (read_clusters (disk w) (parent_cluster_number request) 1) in
  (forall e u,
     is_match (with_user_attribute u e) (req_name request) (req_ext request)
     = is_match e (req_name request) (req_ext request)) /\
  (forall e,
     is_match e (req_name request) (req_ext request) = true
     <-> bytes_n 8 (name e) = bytes_n 8 (req_name request) /\
         bytes_n 3 (ext e) = bytes_n 3 (req_ext request)) /\
  (bytes_n 8 (req_name request) = repeat x00 8 ->
   bytes_n 3 (req_ext request) = repeat x00 3 ->
   0 <= j < directory_size ->
   name (table_get t j) = repeat x00 8 ->
   ext (table_get t j) = repeat x00 3 ->
   (exists i e,
      find_entry request t = Some (i, e) /\ 0 <= i <= j /\
      bytes_n 8 (name e) = repeat x00 8 /\
      bytes_n 3 (ext e) = repeat x00 3) /\
   fst (read_directory request w) <> 2 /\
   fst (write request w) <> 0 /\
   forall fuel,
     option_map fst (run ReadFile fuel request w) <> Some 3 /\
     option_map fst (run DeleteEntry fuel request w) <> Some 1).
Proof.
  cbv zeta.
  unfold run, read_directory, write, load_dir_table. cbn [run_in].
  pose proof (length_decode_table
                (read_clusters (disk w) (parent_cluster_number request) 1))
    as Hlen.
  generalize dependent
    (decode_table (read_clusters (disk w) (parent_cluster_number request) 1)).
  intros t0 Hlen.
  split; [reflexivity|]. split; [intros e; apply is_match_iff|].
  intros Hn He Hj Hnj Hej.
  destruct (find_entry_first request t0 j) as (i & e & Hf & Hi & He');
    [exact Hj | rewrite Hlen; lia
     | apply is_match_iff; rewrite Hnj, Hej, Hn, He; split; reflexivity |].
  split.
  { exists i, e. apply is_match_iff in He'. rewrite Hn, He in He'.
    split; [exact Hf|]. split; [exact Hi | exact He']. }
  unfold read_directory_in, write_in, read_in, delete_in, with_dir_table.
  cbn [disk state dir_table_buf fat_table]. rewrite Hf.
  destruct (parent_is_folder t0); cbn [negb].
  - split; [destruct (attribute e =? ATTR_SUBDIRECTORY); cbn; discriminate|].
    split; [cbn; discriminate|]. intros fuel. split.
    + destruct (attribute e =? ATTR_SUBDIRECTORY); cbn [negb];
        [cbn; discriminate|].
      destruct (filesize e <=? _); cbn [negb]; [|cbn; discriminate].
      destruct (read_chain _ _ _ _ _ _); cbn; discriminate.
    + destruct (_ && _); [cbn; discriminate|].
      destruct (free_chain _ _ _); cbn; discriminate.
  - split; [cbn; discriminate|]. split; [cbn; discriminate|].
    intros fuel. split; cbn; discriminate.
Qed.

Lemma match_ignores_occupancy_witness :
  fst (read_directory zero_key_request formatted_world) <> 2 /\
  fst (write zero_key_request formatted_world) <> 0.
Proof.
  assert (H := match_ignores_occupancy zero_key_request formatted_world 1).
  destruct H as (_ & _ & H).
  destruct H as (_ & H1 & H2 & _);
    [reflexivity | reflexivity | vm_compute; split; [discriminate | reflexivity]
    | vm_compute; reflexivity | vm_compute; reflexivity |].
  split; assumption.
Defined.

(** ** Rejected calls *)

Lemma load_dir_table_unchanged c w :
  disk (load_dir_table c w) = disk w /\
  fat_table (state (load_dir_table c w)) = fat_table (state w).
Proof. split; reflexivity. Qed.

Lemma status_of_outcome {A : Type} (s s' : Z) (x y : A) :
  Some (s, x) = Some (s', y) -> s = s'.
Proof. intros H. injection H as H _. exact H. Qed.

(** In a goal [Some (s, w1) = Some (status, w') -> status <> 0 -> w' = w1]:
    a rejected path returns the world it was given, the accepted path
    contradicts [status <> 0]. *)
Ltac settle_path :=
  let H := fresh in
  let Hs := fresh in
  intros H Hs;
  first [ injection H as _ <-; reflexivity
        | exfalso; apply Hs; symmetry; exact (status_of_outcome _ _ _ _ H)
        | discriminate H ].

(** A rejected call returns the world in which its body started. *)
Lemma rejected_in_world (op : operation) (fuel : nat)
    (request : FAT32DriverRequest) (w1 : World) (status : Z) (w' : World) :
  run_in op fuel request w1 = Some (status, w') ->
  status <> 0 -> w' = w1.
Proof.
  destruct op; cbn [run_in].
  - unfold read_directory_in. cbv zeta.
    destruct (negb _); [settle_path|].
    destruct (find_entry _ _) as [[i e]|]; [|settle_path].
    destruct (negb _); settle_path.
  - unfold read_in. cbv zeta.
    destruct (negb _); [settle_path|].
    destruct (find_entry _ _) as [[i e]|]; [|settle_path].
    destruct (negb (negb _)); [settle_path|].
    destruct (negb _); [settle_path|].
    destruct (read_chain _ _ _ _ _ _); settle_path.
  - unfold write_in. cbv zeta.
    destruct (negb _); [settle_path|].
    destruct (find_entry _ _) as [[i e]|]; [settle_path|].
    destruct (_ <? _); [settle_path|].
    destruct (if _ =? 0 then _ else _) as [e [m' d']].
    settle_path.
  - unfold delete_in. cbv zeta.
    destruct (negb _); [settle_path|].
    destruct (find_entry _ _) as [[i e]|]; [|settle_path].
    destruct (_ && _); [settle_path|].
    destruct (free_chain _ _ _); settle_path.
Qed.

(** C7: whichever of the four operations is called and whatever the
    request, a call that returns a status other than 0 leaves the device and
    the cached FAT as they were: no write is issued and no FAT entry is
    assigned on a rejected path. *)
Theorem failure_leaves_state_unchanged (op : operation) (fuel : nat)
    (request : FAT32DriverRequest) (w : World) (status : Z) (w' : World) :
  run op fuel request w = Some (status, w') ->
  status <> 0 ->
  disk w' = disk w /\ fat_table (state w') = fat_table (state w).
Proof.
  unfold run. intros Hrun Hs.
  rewrite (rejected_in_world _ _ _ _ _ _ Hrun Hs).
  apply load_dir_table_unchanged.
Qed.

Lemma failure_leaves_state_unchanged_witness :
  let w' := world_after (run WriteEntry 0 root_request formatted_world)
                        formatted_world in
  disk w' = disk formatted_world /\
  fat_table (state w') = fat_table (state formatted_world).
Proof.
  intros w'.
  assert (Hs : option_map fst (run WriteEntry 0 root_request formatted_world)
               = Some 1) by (vm_compute; reflexivity).
  apply (failure_leaves_state_unchanged WriteEntry 0 root_request
           formatted_world 1); [|discriminate].
  unfold w'.
  destruct (run WriteEntry 0 root_request formatted_world) as [[s w1]|];
    [|discriminate Hs].
  injection Hs as ->. reflexivity.
Defined.

(** ** Formatting *)

Lemma fill_from_spec (v : Z) (n : nat) : forall (a : nat) (m : list Z),
  (a + n <= length m)%nat ->
  fold_left (fun m' i => <[i := v]> m') (seq a n) m
  = firstn a m ++ repeat v n ++ skipn (a + n) m.
Proof.
  induction n as [|n IH]; intros a m Hlen; cbn [seq fold_left repeat].
  - rewrite Nat.add_0_r. cbn [app]. symmetry. apply firstn_skipn.
  - rewrite IH by (rewrite length_insert; lia).
    assert (Hlt : (a < length m)%nat) by lia.
    rewrite (take_S_r _ a v) by (apply list_lookup_insert_eq; exact Hlt).
    rewrite take_insert_ge by lia.
    rewrite drop_insert_lt by lia.
    rewrite <- app_assoc. cbn [app].
    replace (S a + n)%nat with (a + S n)%nat by lia. reflexivity.
Qed.

Lemma create_fat32_cluster_map (w : World) :
  length (fat_table (state w)) = Z.to_nat CLUSTER_MAP_SIZE ->
  fat_table (state (create_fat32 w))
  = CLUSTER_0_VALUE :: CLUSTER_1_VALUE :: FAT32_FAT_END_OF_FILE
      :: repeat FAT32_FAT_EMPTY_ENTRY 509.
Proof.
  intros Hlen. unfold create_fat32. cbn [state fat_table].
  unfold fill_cluster_map.
  change (Z.to_nat 3) with 3%nat.
  change (Z.to_nat (CLUSTER_MAP_SIZE - 3)) with 509%nat.
  change (Z.to_nat CLUSTER_MAP_SIZE) with 512%nat in Hlen.
  change (Z.to_nat ROOT_CLUSTER_NUMBER) with 2%nat.
  rewrite fill_from_spec by (rewrite !length_insert; lia).
  rewrite skipn_all2 by (rewrite !length_insert; lia).
  rewrite app_nil_r.
  destruct (fat_table (state w)) as [|x0 [|x1 [|x2 m]]];
    cbn [length] in Hlen; try lia.
  reflexivity.
Qed.

Lemma length_read_blocks d lba n :
  length (read_blocks d lba n) = Z.to_nat (n * BLOCK_SIZE).
Proof. unfold read_blocks. rewrite length_map, length_seq. reflexivity. Qed.

Lemma bytes_n_exact (n : nat) (l : list byte) :
  length l = n -> bytes_n n l = l.
Proof.
  intros <-. unfold bytes_n. rewrite firstn_app, Nat.sub_diag, firstn_all.
  cbn [firstn]. apply app_nil_r.
Qed.

(** A device is unformatted exactly when its boot sector differs from the
    signature. *)
Lemma is_formatted_iff (w : World) :
  is_formatted w = true <-> read_blocks (disk w) BOOT_SECTOR 1 = fs_signature.
Proof.
  unfold is_formatted, is_empty_storage, memcmp_eq.
  rewrite negb_involutive, bytes_eqb_eq.
  rewrite !bytes_n_exact; [tauto | reflexivity | apply length_read_blocks].
Qed.

(** C9: a device whose boot sector does not hold the signature, such as the
    zero-filled one, is reported unformatted; after [create_fat32] it is
    reported formatted, the FAT, both cached and read back from cluster 1,
    holds the two reserved values for clusters 0 and 1, end-of-chain for the
    root cluster and the empty value for the 509 remaining clusters, and the
    table read back from the root cluster has in slot 0 a subdirectory
    entry whose cluster number is the root cluster. *)
Theorem create_fat32_formats (w : World) :
  length (fat_table (state w)) = Z.to_nat CLUSTER_MAP_SIZE ->
  read_blocks (disk w) BOOT_SECTOR 1 <> fs_signature ->
  let w' := create_fat32 w in
  let slot0 :=
    table_get (decode_table (read_clusters (disk w') ROOT_CLUSTER_NUMBER 1))
              0 in
  is_formatted fresh_world = false /\
  is_formatted w = false /\
  initialize_filesystem_fat32 w = w' /\
  is_formatted w' = true /\
  fat_table (state w')
  = CLUSTER_0_VALUE :: CLUSTER_1_VALUE :: FAT32_FAT_END_OF_FILE
      :: repeat FAT32_FAT_EMPTY_ENTRY 509 /\
  decode_fat (read_clusters (disk w') FAT_CLUSTER_NUMBER 1)
  = fat_table (state w') /\
  attribute slot0 = ATTR_SUBDIRECTORY /\
  entry_cluster slot0 = ROOT_CLUSTER_NUMBER.
Proof.
  intros Hlen Hboot w' slot0.
  assert (Hw : is_formatted w = false).
  { destruct (is_formatted w) eqn:E; [|reflexivity].
    apply is_formatted_iff in E. contradiction. }
  split; [vm_compute; reflexivity|]. split; [exact Hw|].
  split.
  { unfold initialize_filesystem_fat32. unfold is_formatted in Hw.
    apply negb_false_iff in Hw. rewrite Hw. reflexivity. }
  split.
  { apply is_formatted_iff. unfold w', create_fat32. cbn [disk].
    vm_compute. reflexivity. }
  pose proof (create_fat32_cluster_map w Hlen) as Hmap. fold w' in Hmap.
  split; [exact Hmap|]. split.
  - rewrite Hmap. unfold w', create_fat32 in *. cbn [disk state fat_table] in *.
    rewrite Hmap. vm_compute. reflexivity.
  - unfold slot0, w', create_fat32. cbn [disk]. 
    split; vm_compute; reflexivity.
Qed.

Lemma create_fat32_formats_witness :
  is_formatted (create_fat32 fresh_world) = true.
Proof.
  assert (Hboot : read_blocks (disk fresh_world) BOOT_SECTOR 1
                  <> fs_signature) by (vm_compute; discriminate).
  pose proof (create_fat32_formats fresh_world eq_refl Hboot) as H.
  cbv zeta in H. destruct H as (_ & _ & _ & H & _). exact H.
Defined.
(** ** Cluster chains *)

Lemma cluster_map_get_bounds m c v :
  cluster_map_get m c = Some v ->
  0 <= c < CLUSTER_MAP_SIZE /\ m !! Z.to_nat c = Some v.
Proof.
  unfold cluster_map_get.
  destruct (0 <=? c) eqn:E1; cbn [andb]; [|discriminate].
  destruct (c <? CLUSTER_MAP_SIZE) eqn:E2; [|discriminate].
  intros H. split; [lia | exact H].
Qed.

Lemma chain_functional m c l1 :
  chain m c l1 -> forall l2, chain m c l2 -> l1 = l2.
Proof.
  induction 1 as [c Hc | c next l Hc Hn Hl IH]; intros l2 H2;
    inversion H2; subst; try congruence.
  - assert (next = next0) by congruence. subst next0.
    f_equal. apply IH. assumption.
Qed.

Lemma chain_from_member m c l :
  chain m c l -> forall x, In x l ->
  exists l2, chain m x l2 /\ (length l2 <= length l)%nat.
Proof.
  induction 1 as [c Hc | c next l Hc Hn Hl IH]; intros x Hx.
  - destruct Hx as [<-|[]]. exists [c]. split; [constructor; exact Hc | lia].
  - destruct Hx as [<-|Hx].
    + exists (c :: l). split; [econstructor; eassumption | lia].
    + destruct (IH x Hx) as (l2 & H2 & Hlen). exists l2.
      split; [exact H2 | cbn [length]; lia].
Qed.

Lemma chain_NoDup m c l : chain m c l -> List.NoDup l.
Proof.
  induction 1 as [c Hc | c next l Hc Hn Hl IH].
  - apply List.NoDup_cons; [intros Hin; destruct Hin | apply List.NoDup_nil].
  - apply List.NoDup_cons; [|exact IH]. intros Hin.
    destruct (chain_from_member _ _ _ Hl c Hin) as (l2 & H2 & Hlen).
    assert (l2 = c :: l)
      by (eapply chain_functional; [exact H2 | econstructor; eassumption]).
    subst l2. cbn [length] in Hlen. lia.
Qed.

Lemma chain_bounds m c l :
  chain m c l -> forall x, In x l -> 0 <= x < CLUSTER_MAP_SIZE.
Proof.
  induction 1 as [c Hc | c next l Hc Hn Hl IH]; intros x Hx.
  - destruct Hx as [<-|[]]. eapply cluster_map_get_bounds; eassumption.
  - destruct Hx as [<-|Hx]; [|auto].
    eapply cluster_map_get_bounds; eassumption.
Qed.

(** A chain never revisits a cluster, so it has at most as many clusters as
    the FAT has entries. *)
Lemma chain_length m c l :
  chain m c l -> (length l <= Z.to_nat CLUSTER_MAP_SIZE)%nat.
Proof.
  intros H.
  assert (Hincl : incl (map Z.to_nat l) (seq 0 (Z.to_nat CLUSTER_MAP_SIZE))).
  { intros n Hn. apply in_map_iff in Hn. destruct Hn as (x & <- & Hx).
    apply in_seq. pose proof (chain_bounds _ _ _ H x Hx). lia. }
  apply List.NoDup_incl_length in Hincl.
  - rewrite length_map, length_seq in Hincl. exact Hincl.
  - apply Finite.Injective_map_NoDup_in; [|eapply chain_NoDup; eassumption].
    intros x y Hx Hy Hxy.
    pose proof (chain_bounds _ _ _ H x Hx).
    pose proof (chain_bounds _ _ _ H y Hy). lia.
Qed.
(** ** Reading along a chain *)

Lemma length_bytes_n (n : nat) (l : list byte) : length (bytes_n n l) = n.
Proof.
  unfold bytes_n. rewrite length_firstn, length_app, repeat_length. lia.
Qed.

Lemma length_read_clusters d c :
  length (read_clusters d c 1) = Z.to_nat CLUSTER_SIZE.
Proof. unfold read_clusters. rewrite length_read_blocks. reflexivity. Qed.

Lemma length_clusters_content d l :
  length (clusters_content d l) = (length l * Z.to_nat CLUSTER_SIZE)%nat.
Proof.
  unfold clusters_content.
  induction l as [|c l IH]; cbn [flat_map length]; [reflexivity|].
  rewrite length_app, length_read_clusters, IH. lia.
Qed.

(** Storing right behind the part [done] that was already copied. *)
Lemma mem_store_behind (done rest data : list byte) (off : Z) :
  Z.to_nat off = length done ->
  mem_store (done ++ rest) off data
  = (done ++ data) ++ skipn (length data) rest.
Proof.
  intros Hoff. unfold mem_store, bytes_n. rewrite Hoff.
  assert (H1 : firstn (length done)
                 ((done ++ rest) ++ repeat x00 (length done)) = done).
  { rewrite <- app_assoc, firstn_app, Nat.sub_diag, firstn_all.
    cbn [firstn]. apply app_nil_r. }
  assert (H2 : skipn (length done + length data) (done ++ rest)
               = skipn (length data) rest).
  { rewrite skipn_app, skipn_all2 by lia. cbn [app]. f_equal. lia. }
  rewrite H1, H2. apply app_assoc.
Qed.

(** Below [CLUSTER_MAP_SIZE] clusters the 32-bit offset arithmetic of the
    loop does not wrap. *)
Lemma offset_no_wrap (offset : Z) :
  0 <= offset < CLUSTER_MAP_SIZE ->
  Z.to_nat (to_uint32 (offset * CLUSTER_SIZE))
  = (Z.to_nat offset * Z.to_nat CLUSTER_SIZE)%nat /\
  to_uint32 (offset + 1) = offset + 1.
Proof.
  unfold CLUSTER_MAP_SIZE, CLUSTER_SIZE, BLOCK_SIZE, CLUSTER_BLOCK_COUNT.
  intros H. rewrite !to_uint32_small by lia. split; lia.
Qed.

(** Along a chain the loop of [read] copies the clusters of the chain, whole
    and in order, provided the fuel covers the chain; otherwise it does not
    finish. *)
Lemma read_chain_along d m c l :
  chain m c l ->
  forall fuel done rest offset,
  length done = (Z.to_nat offset * Z.to_nat CLUSTER_SIZE)%nat ->
  0 <= offset ->
  offset + Z.of_nat (length l) <= CLUSTER_MAP_SIZE ->
  read_chain fuel d m (done ++ rest) c offset
  = if (length l <=? fuel)%nat
    then Some ((done ++ clusters_content d l)
                 ++ skipn (length l * Z.to_nat CLUSTER_SIZE) rest)
    else None.
Proof.
  induction 1 as [c Hc | c next l Hc Hn Hl IH];
    intros fuel done rest offset Hdone Hoff Hbound;
    (destruct fuel as [|fuel]; [reflexivity|]);
    cbn [read_chain]; cbn [length] in *;
    destruct (offset_no_wrap offset) as [Hstore Hnext]; try lia;
    rewrite Hc, mem_store_behind by (rewrite Hstore, Hdone; reflexivity);
    rewrite length_read_clusters.
  - rewrite Z.eqb_refl. unfold clusters_content. cbn [flat_map Nat.leb].
    rewrite app_nil_r, Nat.mul_1_l. reflexivity.
  - destruct (next =? FAT32_FAT_END_OF_FILE) eqn:E; [lia|].
    rewrite Hnext, IH.
    + change (S (length l) <=? S fuel)%nat with (length l <=? fuel)%nat.
      destruct (length l <=? fuel)%nat; [|reflexivity].
      unfold clusters_content. cbn [flat_map].
      rewrite <- !app_assoc, skipn_skipn. do 5 f_equal. lia.
    + rewrite length_app, length_read_clusters, Hdone.
      replace (Z.to_nat (offset + 1)) with (S (Z.to_nat offset)) by lia.
      cbn [Nat.mul]. lia.
    + lia.
    + lia.
Qed.

(** C6: when [read] finds the file entry [e], the chain of [e] in the cached
    FAT is [l] and ends in end-of-chain after exactly
    [ceil (filesize e / CLUSTER_SIZE)] links, a [read] that returns 0 leaves
    in the caller's memory the clusters of [l], whole and in order at
    consecutive cluster-sized offsets: that many times [CLUSTER_SIZE] bytes,
    the bytes of the last cluster past [filesize e] included, followed by
    what the memory held behind them. *)
Theorem read_copies_whole_clusters (fuel : nat)
    (request : FAT32DriverRequest) (w : World) (i : Z)
    (e : FAT32DirectoryEntry) (l : list Z) (b' : list byte) :
  find_entry request
    (decode_table (read_clusters (disk w) (parent_cluster_number request) 1))
  = Some (i, e) ->
  chain (fat_table (state w)) (entry_cluster e) l ->
  Z.of_nat (length l) = ceil_spec (filesize e) CLUSTER_SIZE ->
  read_outcome (read fuel request w) = Some (0, b') ->
  b' = clusters_content (disk w) l
         ++ skipn (length l * Z.to_nat CLUSTER_SIZE) (buf request) /\
  Z.of_nat (length (clusters_content (disk w) l))
  = ceil_spec (filesize e) CLUSTER_SIZE * CLUSTER_SIZE /\
  filesize e <= Z.of_nat (length (clusters_content (disk w) l)).
Proof.
  unfold read, load_dir_table.
  generalize
    (decode_table (read_clusters (disk w) (parent_cluster_number request) 1)).
  intros t Hfind Hchain Hlen Hread.
  assert (Hcount : Z.of_nat (length (clusters_content (disk w) l))
                   = ceil_spec (filesize e) CLUSTER_SIZE * CLUSTER_SIZE).
  { rewrite length_clusters_content, <- Hlen.
    unfold CLUSTER_SIZE, BLOCK_SIZE, CLUSTER_BLOCK_COUNT. lia. }
  split; [|split; [exact Hcount|]].
  - unfold read_in, with_dir_table in Hread.
    cbn [disk state dir_table_buf fat_table] in Hread.
    rewrite Hfind in Hread.
    destruct (parent_is_folder t); cbn [negb] in Hread;
      [|discriminate Hread].
    destruct (attribute e =? ATTR_SUBDIRECTORY); cbn [negb] in Hread;
      [discriminate Hread|].
    destruct (filesize e <=? _); cbn [negb] in Hread; [|discriminate Hread].
    pose proof (chain_length _ _ _ Hchain) as Hmax.
    rewrite (read_chain_along _ _ _ _ Hchain fuel [] (buf request) 0)
      in Hread;
      [| reflexivity | lia | unfold CLUSTER_MAP_SIZE in *; lia].
    destruct (length l <=? fuel)%nat; [|discriminate Hread].
    cbn [read_outcome option_map fst snd app] in Hread.
    injection Hread as <-. reflexivity.
  - rewrite Hcount. unfold ceil_spec, CLUSTER_SIZE, BLOCK_SIZE,
      CLUSTER_BLOCK_COUNT.
    change (512 * 4) with 2048.
    pose proof (Z.div_mod (filesize e + 2048 - 1) 2048 ltac:(lia)).
    pose proof (Z.mod_pos_bound (filesize e + 2048 - 1) 2048 ltac:(lia)).
    lia.
Qed.

Lemma read_copies_whole_clusters_witness :
  repeat x41 2048 ++ repeat x42 2048
  = clusters_content (disk sample_world) [3; 4]
      ++ skipn (2 * Z.to_nat CLUSTER_SIZE) (buf (file1_request [] 4096)).
Proof.
  refine (proj1 (read_copies_whole_clusters 2 (file1_request [] 4096)
                   sample_world 1 file1_entry [3; 4] _ _ _ _ _)).
  - vm_compute. reflexivity.
  - apply (chain_link _ 3 4); [reflexivity | discriminate |].
    apply chain_last. reflexivity.
  - reflexivity.
  - vm_compute. reflexivity.
Defined.
(** ** Deleting along a chain *)

Lemma cluster_map_get_agree m1 m2 c :
  m2 !! Z.to_nat c = m1 !! Z.to_nat c ->
  cluster_map_get m2 c = cluster_map_get m1 c.
Proof.
  intros H. unfold cluster_map_get. rewrite H. reflexivity.
Qed.

Lemma free_all_lookup_outside l : forall m (j : nat),
  (forall x, In x l -> Z.to_nat x <> j) ->
  free_all l m !! j = m !! j.
Proof.
  unfold free_all.
  induction l as [|c l IH]; intros m j Hout; cbn [fold_left]; [reflexivity|].
  rewrite IH by (intros x Hx; apply Hout; right; exact Hx).
  apply list_lookup_insert_ne. apply Hout. left. reflexivity.
Qed.

Lemma length_free_all l : forall m, length (free_all l m) = length m.
Proof.
  unfold free_all.
  induction l as [|c l IH]; intros m; cbn [fold_left]; [reflexivity|].
  rewrite IH. apply length_insert.
Qed.

Lemma free_all_lookup_inside l : forall m x,
  In x l -> (Z.to_nat x < length m)%nat ->
  free_all l m !! Z.to_nat x = Some FAT32_FAT_EMPTY_ENTRY.
Proof.
  induction l as [|c l IH]; intros m x Hin Hlt; [destruct Hin|].
  change (free_all (c :: l) m)
    with (free_all l (<[Z.to_nat c := FAT32_FAT_EMPTY_ENTRY]> m)).
  destruct (in_dec Z.eq_dec x l) as [Hl|Hl].
  - apply IH; [exact Hl | rewrite length_insert; exact Hlt].
  - destruct Hin as [->|Hin]; [|contradiction].
    destruct (in_dec Nat.eq_dec (Z.to_nat x) (map Z.to_nat l)) as [Hm|Hm].
    + apply in_map_iff in Hm. destruct Hm as (y & Hy & Hyl).
      rewrite <- Hy. apply IH; [exact Hyl|].
      rewrite length_insert, Hy. exact Hlt.
    + rewrite free_all_lookup_outside.
      * apply list_lookup_insert_eq. exact Hlt.
      * intros y Hy Heq. apply Hm. apply in_map_iff. eauto.
Qed.

(** Along a chain the loop of [delete] empties the entries of the chain, in
    any FAT that agrees with [m] on the chain, provided the fuel covers the
    chain; otherwise it does not finish. *)
Lemma free_chain_along m c l :
  chain m c l ->
  forall fuel m2,
  (forall x, In x l -> m2 !! Z.to_nat x = m !! Z.to_nat x) ->
  free_chain fuel m2 c
  = if (length l <=? fuel)%nat then Some (free_all l m2) else None.
Proof.
  intros Hchain. pose proof (chain_NoDup _ _ _ Hchain) as Hnd.
  pose proof (chain_bounds _ _ _ Hchain) as Hb.
  induction Hchain as [c Hc | c next l Hc Hn Hl IH]; intros fuel m2 Hag;
    (destruct fuel as [|fuel]; [reflexivity|]); cbn [free_chain length];
    rewrite (cluster_map_get_agree m m2 c) by (apply Hag; left; reflexivity);
    rewrite Hc.
  - rewrite Z.eqb_refl. reflexivity.
  - destruct (next =? FAT32_FAT_END_OF_FILE) eqn:E; [lia|].
    inversion Hnd as [|? ? Hnotin Hnd']; subst.
    rewrite IH.
    + reflexivity.
    + exact Hnd'.
    + intros x Hx. apply Hb. right. exact Hx.
    + intros x Hx. rewrite list_lookup_insert_ne.
      * apply Hag. right. exact Hx.
      * intros Heq. apply Hnotin.
        assert (0 <= c < CLUSTER_MAP_SIZE) by (apply Hb; left; reflexivity).
        assert (0 <= x < CLUSTER_MAP_SIZE) by (apply Hb; right; exact Hx).
        replace c with x by lia. exact Hx.
Qed.

Lemma find_entry_slot request t i e :
  find_entry request t = Some (i, e) ->
  0 <= i < directory_size /\ t !! Z.to_nat i = Some e.
Proof.
  unfold find_entry. intros H. apply scan_entries_first in H.
  destruct H as (Hr & Hl & _). rewrite Z.sub_0_r in Hl.
  rewrite length_firstn in Hr. split; [lia|].
  rewrite lookup_take_Some in Hl. tauto.
Qed.

Lemma table_get_insert_eq t i e :
  (Z.to_nat i < length t)%nat -> table_get (<[Z.to_nat i := e]> t) i = e.
Proof.
  intros H. unfold table_get. rewrite nth_lookup.
  rewrite list_lookup_insert_eq by exact H. reflexivity.
Qed.

Lemma table_get_insert_ne t i j e :
  Z.to_nat i <> Z.to_nat j ->
  table_get (<[Z.to_nat i := e]> t) j = table_get t j.
Proof.
  intros H. unfold table_get. rewrite !nth_lookup.
  rewrite list_lookup_insert_ne by exact H. reflexivity.
Qed.

(** C8: when [delete] matches the entry [e] at slot [i], the chain of [e] in
    the cached FAT, followed from its starting cluster to the end-of-chain
    value, is [l], and the call returns 0, then slot [i] of the parent table
    is tombstoned (occupancy flag 0, name and extension zero bytes, the other
    fields and the other slots as before), the FAT entry of every cluster of
    [l] is the empty value, every FAT entry outside [l] is what it was, and
    the device is the old one after the write of the parent table to the
    parent cluster followed by the write of the FAT to the FAT cluster. *)
Theorem delete_frees_chain (fuel : nat) (request : FAT32DriverRequest)
    (w : World) (i : Z) (e : FAT32DirectoryEntry) (l : list Z)
    (w' : World) :
  let t := decode_table
             (read_clusters (disk w) (parent_cluster_number request) 1) in
  find_entry request t = Some (i, e) ->
  chain (fat_table (state w)) (entry_cluster e) l ->
  delete fuel request w = Some (0, w') ->
  let t' := dir_table_buf (state w') in
  let m' := fat_table (state w') in
  table_get t' i = tombstone e /\
  user_attribute (table_get t' i) = 0 /\
  name (table_get t' i) = repeat x00 8 /\
  ext (table_get t' i) = repeat x00 3 /\
  (forall j, 0 <= j -> j <> i -> table_get t' j = table_get t j) /\
  (forall x, In x l -> cluster_map_get m' x = Some FAT32_FAT_EMPTY_ENTRY) /\
  (forall x, ~ In x l ->
             cluster_map_get m' x = cluster_map_get (fat_table (state w)) x) /\
  disk w'
  = write_clusters (encode_fat m') FAT_CLUSTER_NUMBER 1
      (write_clusters (encode_table t') (parent_cluster_number request) 1
                      (disk w)).
Proof.
  cbv zeta. unfold delete, load_dir_table.
  generalize
    (decode_table (read_clusters (disk w) (parent_cluster_number request) 1)).
  intros t Hfind Hchain Hdel.
  unfold delete_in, with_dir_table in Hdel.
  cbn [disk state dir_table_buf fat_table cluster_buf] in Hdel.
  rewrite Hfind in Hdel.
  destruct (parent_is_folder t); cbn [negb] in Hdel; [|discriminate Hdel].
  destruct (_ && _); [discriminate Hdel|].
  rewrite (free_chain_along _ _ _ Hchain fuel (fat_table (state w)))
    in Hdel by reflexivity.
  destruct (length l <=? fuel)%nat; [|discriminate Hdel].
  injection Hdel as <-. cbn [disk state dir_table_buf fat_table].
  destruct (find_entry_slot _ _ _ _ Hfind) as (Hi & Hslot).
  assert (Hlt : (Z.to_nat i < length t)%nat)
    by (apply lookup_lt_is_Some; eauto).
  assert (He : table_get t i = e)
    by (unfold table_get; rewrite nth_lookup, Hslot; reflexivity).
  rewrite He, table_get_insert_eq by exact Hlt.
  split; [reflexivity|]. split; [reflexivity|]. split; [reflexivity|].
  split; [reflexivity|]. split.
  { intros j Hj Hne. apply table_get_insert_ne. lia. }
  split.
  { intros x Hx.
    pose proof (chain_bounds _ _ _ Hchain x Hx) as Hbx.
    destruct (chain_from_member _ _ _ Hchain x Hx) as (l2 & H2 & _).
    assert (Hsome : exists v, cluster_map_get (fat_table (state w)) x
                              = Some v)
      by (inversion H2; eauto).
    destruct Hsome as (v & Hv).
    apply cluster_map_get_bounds in Hv. destruct Hv as (_ & Hv).
    unfold cluster_map_get.
    replace ((0 <=? x) && (x <? CLUSTER_MAP_SIZE)) with true
      by (symmetry; apply andb_true_iff; split; lia).
    apply free_all_lookup_inside; [exact Hx|].
    apply lookup_lt_is_Some. eauto. }
  split; [|reflexivity].
  intros x Hx. unfold cluster_map_get.
  destruct ((0 <=? x) && (x <? CLUSTER_MAP_SIZE)) eqn:E; [|reflexivity].
  apply free_all_lookup_outside. intros y Hy Heq.
  pose proof (chain_bounds _ _ _ Hchain y Hy).
  apply andb_true_iff in E. apply Hx. replace x with y by lia. exact Hy.
Qed.

Lemma delete_frees_chain_witness :
  let w' := world_after (delete 2 (file1_request [] 0) sample_world)
                        sample_world in
  cluster_map_get (fat_table (state w')) 3 = Some FAT32_FAT_EMPTY_ENTRY /\
  cluster_map_get (fat_table (state w')) 4 = Some FAT32_FAT_EMPTY_ENTRY /\
  user_attribute (table_get (dir_table_buf (state w')) 1) = 0.
Proof.
  intros w'.
  assert (Hfind : find_entry (file1_request [] 0)
                    (decode_table
                       (read_clusters (disk sample_world)
                          (parent_cluster_number (file1_request [] 0)) 1))
                  = Some (1, file1_entry)) by (vm_compute; reflexivity).
  assert (Hchain : chain (fat_table (state sample_world))
                         (entry_cluster file1_entry) [3; 4]).
  { apply (chain_link _ 3 4); [reflexivity | discriminate |].
    apply chain_last. reflexivity. }
  assert (Hs : delete_status (delete 2 (file1_request [] 0) sample_world)
               = Some 0) by (vm_compute; reflexivity).
  assert (Hdel : delete 2 (file1_request [] 0) sample_world = Some (0, w')).
  { unfold w'.
    destruct (delete 2 (file1_request [] 0) sample_world) as [[s w1]|];
      [|discriminate Hs].
    injection Hs as ->. reflexivity. }
  pose proof (delete_frees_chain 2 (file1_request [] 0) sample_world 1
                file1_entry [3; 4] w' Hfind Hchain Hdel) as H.
  cbv zeta in H. destruct H as (_ & Hu & _ & _ & _ & Hin & _).
  split; [apply Hin; left; reflexivity|].
  split; [apply Hin; right; left; reflexivity | exact Hu].
Defined.
(** ** The walks finish *)

(** X17: with fuel for the chain, [read] of a file entry whose chain is
    [l] and whose size fits the buffer returns 0. *)
Lemma read_returns (fuel : nat) (request : FAT32DriverRequest) (w : World)
    (i : Z) (e : FAT32DirectoryEntry) (l : list Z) :
  let t := decode_table
             (read_clusters (disk w) (parent_cluster_number request) 1) in
  parent_is_folder t = true ->
  find_entry request t = Some (i, e) ->
  attribute e <> ATTR_SUBDIRECTORY ->
  filesize e <= to_uint32 (buffer_size request) ->
  chain (fat_table (state w)) (entry_cluster e) l ->
  (length l <= fuel)%nat ->
  read_outcome (read fuel request w)
  = Some (0, clusters_content (disk w) l
               ++ skipn (length l * Z.to_nat CLUSTER_SIZE) (buf request)).
Proof.
  cbv zeta. unfold read, load_dir_table.
  generalize
    (decode_table (read_clusters (disk w) (parent_cluster_number request) 1)).
  intros t Hparent Hfind Hfile Hsize Hchain Hfuel.
  unfold read_in, with_dir_table.
  cbn [disk state dir_table_buf fat_table].
  rewrite Hparent, Hfind. cbn [negb].
  apply Z.eqb_neq in Hfile. rewrite Hfile. cbn [negb].
  apply Z.leb_le in Hsize. rewrite Hsize. cbn [negb].
  pose proof (chain_length _ _ _ Hchain) as Hmax.
  rewrite (read_chain_along _ _ _ _ Hchain fuel [] (buf request) 0);
    [| reflexivity | lia | unfold CLUSTER_MAP_SIZE in *; lia].
  apply Nat.leb_le in Hfuel. rewrite Hfuel. reflexivity.
Qed.

Lemma read_returns_witness :
  read_outcome (read 2 (file1_request [] 4096) sample_world)
  = Some (0, clusters_content (disk sample_world) [3; 4]
               ++ skipn (2 * Z.to_nat CLUSTER_SIZE)
                        (buf (file1_request [] 4096))).
Proof.
  refine (read_returns 2 (file1_request [] 4096) sample_world 1 file1_entry
            [3; 4] _ _ _ _ _ _).
  - vm_compute. reflexivity.
  - vm_compute. reflexivity.
  - vm_compute. discriminate.
  - vm_compute. discriminate.
  - apply (chain_link _ 3 4); [reflexivity | discriminate |].
    apply chain_last. reflexivity.
  - cbn [length]. lia.
Defined.

(** X18: with fuel for the chain, [delete] of a file entry, or of a
    directory entry whose table has no occupied slot, returns 0. *)
Lemma delete_returns (fuel : nat) (request : FAT32DriverRequest) (w : World)
    (i : Z) (e : FAT32DirectoryEntry) (l : list Z) :
  let t := decode_table
             (read_clusters (disk w) (parent_cluster_number request) 1) in
  parent_is_folder t = true ->
  find_entry request t = Some (i, e) ->
  attribute e <> ATTR_SUBDIRECTORY \/
  has_occupied_slot
    (decode_table (read_clusters (disk w) (entry_cluster e) 1)) = false ->
  chain (fat_table (state w)) (entry_cluster e) l ->
  (length l <= fuel)%nat ->
  delete_status (delete fuel request w) = Some 0.
Proof.
  cbv zeta. unfold delete, load_dir_table.
  generalize
    (decode_table (read_clusters (disk w) (parent_cluster_number request) 1)).
  intros t Hparent Hfind Hkind Hchain Hfuel.
  unfold delete_in, with_dir_table.
  cbn [disk state dir_table_buf fat_table cluster_buf].
  rewrite Hparent, Hfind. cbn [negb].
  replace ((attribute e =? ATTR_SUBDIRECTORY)
           && has_occupied_slot
                (decode_table (read_clusters (disk w) (entry_cluster e) 1)))
    with false.
  - rewrite (free_chain_along _ _ _ Hchain fuel (fat_table (state w)))
      by reflexivity.
    apply Nat.leb_le in Hfuel. rewrite Hfuel. reflexivity.
  - symmetry. apply andb_false_iff.
    destruct Hkind as [Hk|Hk]; [left; apply Z.eqb_neq; exact Hk | right; exact Hk].
Qed.

Lemma delete_returns_witness :
  delete_status (delete 2 (file1_request [] 0) sample_world) = Some 0.
Proof.
  refine (delete_returns 2 (file1_request [] 0) sample_world 1 file1_entry
            [3; 4] _ _ _ _ _).
  - vm_compute. reflexivity.
  - vm_compute. reflexivity.
  - left. vm_compute. discriminate.
  - apply (chain_link _ 3 4); [reflexivity | discriminate |].
    apply chain_last. reflexivity.
  - cbn [length]. lia.
Defined.

(** ** First-fit allocation *)

(** Below [2 ^ 31] the cluster count that [write] computes is the ceiling
    of the size over the cluster size. *)
Lemma ceil_div_small (a : Z) :
  0 < a < 2 ^ 31 ->
  to_uint32 (ceil_div (to_int32 (to_uint32 a)) CLUSTER_SIZE)
  = ceil_spec a CLUSTER_SIZE.
Proof.
  intros Ha. rewrite (to_uint32_small a), (to_int32_small a) by lia.
  unfold ceil_spec, ceil_div, CLUSTER_SIZE, BLOCK_SIZE, CLUSTER_BLOCK_COUNT.
  change (512 * 4) with 2048.
  rewrite Z.quot_div_nonneg, Z.rem_mod_nonneg by lia.
  pose proof (Z.div_mod a 2048 ltac:(lia)) as Hdm.
  pose proof (Z.mod_pos_bound a 2048 ltac:(lia)) as Hr.
  assert (Hq : 0 <= a / 2048 < 2 ^ 20)
    by (split; [apply Z.div_pos; lia | apply Z.div_lt_upper_bound; lia]).
  set (q := a / 2048) in *. set (r := a mod 2048) in *.
  assert (Hv : 0 <= q + (if r =? 0 then 0 else 1) < 2 ^ 31)
    by (destruct (r =? 0); lia).
  rewrite to_int32_small, to_uint32_small by lia.
  destruct (r =? 0) eqn:E.
  - apply (Z.div_unique _ _ _ 2047); lia.
  - apply (Z.div_unique _ _ _ (r - 1)); lia.
Qed.

Lemma StronglySorted_filter {A : Type} (R : A -> A -> Prop)
    (f : A -> bool) (l : list A) :
  StronglySorted R l -> StronglySorted R (List.filter f l).
Proof.
  induction 1 as [|x l Hl IH Hx]; cbn [List.filter]; [constructor|].
  destruct (f x); [|exact IH]. constructor; [exact IH|].
  rewrite List.Forall_forall in *. intros y Hy.
  apply filter_In in Hy. apply Hx. tauto.
Qed.

Lemma StronglySorted_range (n : nat) : forall a,
  StronglySorted Z.lt (map Z.of_nat (seq a n)).
Proof.
  induction n as [|n IH]; intros a; cbn [seq map]; constructor; [apply IH|].
  rewrite List.Forall_forall. intros y Hy.
  apply in_map_iff in Hy. destruct Hy as (j & <- & Hj).
  apply in_seq in Hj. lia.
Qed.

Lemma free_clusters_sorted from m :
  StronglySorted Z.lt (free_clusters from m).
Proof. apply StronglySorted_filter, StronglySorted_range. Qed.

Lemma free_clusters_In from m x :
  0 <= from <= CLUSTER_MAP_SIZE ->
  In x (free_clusters from m)
  <-> from <= x < CLUSTER_MAP_SIZE
      /\ cluster_map_at m x = FAT32_FAT_EMPTY_ENTRY.
Proof.
  intros Hfrom. unfold free_clusters.
  rewrite filter_In, in_map_iff, Z.eqb_eq. split.
  - intros [(j & <- & Hj) Hx]. apply in_seq in Hj. split; [lia | exact Hx].
  - intros [Hr Hx]. split; [|exact Hx]. exists (Z.to_nat x).
    split; [lia|]. apply in_seq. lia.
Qed.

Lemma StronglySorted_lt_NoDup (l : list Z) :
  StronglySorted Z.lt l -> List.NoDup l.
Proof.
  induction 1 as [|x l Hl IH Hx]; constructor; [|exact IH].
  intros Hin. rewrite List.Forall_forall in Hx. specialize (Hx x Hin). lia.
Qed.

Lemma free_clusters_count m :
  (length (free_clusters 2 m) <= length (free_clusters 0 m))%nat.
Proof.
  unfold free_clusters.
  change (Z.to_nat (CLUSTER_MAP_SIZE - 0)) with (2 + 510)%nat.
  change (Z.to_nat (CLUSTER_MAP_SIZE - 2)) with 510%nat.
  change (Z.to_nat 0) with 0%nat. change (Z.to_nat 2) with 2%nat.
  rewrite List.seq_app, List.map_app, List.filter_app, List.length_app.
  cbn [Nat.add]. lia.
Qed.

(** The FAT after the allocation loop: iteration [j] assigns the entry of
    the [j]-th collected cluster, and only those entries change. *)
Lemma write_chain_links (E : list Z) (src : list byte) (k : nat) :
  List.NoDup E ->
  (forall x, In x E -> 0 <= x) ->
  forall (n i : nat) (md : list Z * Disk),
  (i + n = k)%nat ->
  (k <= length E)%nat ->
  (forall x, In x E -> (Z.to_nat x < length (fst md))%nat) ->
  let m' := fst (write_chain n (Z.of_nat i) (Z.of_nat k) E src md) in
  (forall j x, (i <= j < k)%nat -> E !! j = Some x ->
     m' !! Z.to_nat x
     = Some (if Z.of_nat j =? Z.of_nat k - 1 then FAT32_FAT_END_OF_FILE
             else nth (S j) E 0)) /\
  (forall y : nat,
     (forall j x, (i <= j < k)%nat -> E !! j = Some x -> Z.to_nat x <> y) ->
     m' !! y = fst md !! y).
Proof.
  intros Hnd Hpos. induction n as [|n IH]; intros i md Hik Hk Hlen m'.
  - split; [intros j x Hj; lia | reflexivity].
  - subst m'. cbn [write_chain].
    replace (Z.of_nat i + 1) with (Z.of_nat (S i)) by lia.
    rewrite Nat2Z.id.
    destruct (E !! i) as [c|] eqn:Hc;
      [|apply lookup_ge_None in Hc; lia].
    rewrite (nth_lookup_Some _ _ _ _ Hc).
    replace (Z.to_nat (Z.of_nat (S i))) with (S i) by lia.
    match goal with
    | |- context [write_chain n _ _ E src ?md1] =>
        destruct (IH (S i) md1) as (IHin & IHout);
          [lia | exact Hk
          | intros x Hx; cbn [fst]; rewrite length_insert; auto |]
    end.
    cbn [fst snd] in *.
    assert (Hc_in : In c E) by (apply list_elem_of_In, list_elem_of_lookup; eauto).
    split.
    + intros j x Hj Hx. destruct (Nat.eq_dec j i) as [->|Hne].
      * assert (x = c) by congruence. subst x.
        rewrite IHout.
        -- apply list_lookup_insert_eq. auto.
        -- intros j' x' Hj' Hx' Heq.
           assert (x' = c).
           { pose proof (Hpos _ Hc_in).
             assert (In x' E)
               by (apply list_elem_of_In, list_elem_of_lookup; eauto).
             pose proof (Hpos x' ltac:(assumption)). lia. }
           subst x'.
           apply NoDup_ListNoDup in Hnd.
           pose proof (NoDup_lookup _ _ _ _ Hnd Hx' Hc). lia.
      * apply IHin; [lia | exact Hx].
    + intros y Hy. rewrite IHout.
      * apply list_lookup_insert_ne. apply (Hy i c); [lia | exact Hc].
      * intros j x Hj Hx. apply (Hy j x); [lia | exact Hx].
Qed.

(** Entries that link the clusters of [L], one to the next and the last to
    end-of-chain, form a chain. *)
Lemma chain_of_links (m : list Z) (L : list Z) : forall c,
  hd_error L = Some c ->
  (forall x, In x L -> 0 <= x < CLUSTER_MAP_SIZE) ->
  (forall j x, L !! j = Some x ->
     m !! Z.to_nat x
     = Some (match L !! S j with
             | Some y => y
             | None => FAT32_FAT_END_OF_FILE
             end)) ->
  chain m c L.
Proof.
  induction L as [|x L IH]; intros c Hc Hb Hlinks; [discriminate|].
  injection Hc as <-.
  assert (Hbx : 0 <= x < CLUSTER_MAP_SIZE) by (apply Hb; left; reflexivity).
  assert (Hget : forall v, m !! Z.to_nat x = Some v ->
                           cluster_map_get m x = Some v).
  { intros v Hv. unfold cluster_map_get.
    replace ((0 <=? x) && (x <? CLUSTER_MAP_SIZE)) with true; [exact Hv|].
    symmetry. apply andb_true_iff. split; lia. }
  pose proof (Hlinks 0%nat x eq_refl) as H0. cbn [lookup list_lookup] in H0.
  destruct L as [|y L].
  - apply chain_last. apply Hget. exact H0.
  - assert (Hby : 0 <= y < CLUSTER_MAP_SIZE)
      by (apply Hb; right; left; reflexivity).
    apply (chain_link _ x y); [apply Hget; exact H0 | |].
    + unfold CLUSTER_MAP_SIZE, FAT32_FAT_END_OF_FILE in *. lia.
    + apply IH; [reflexivity | intros z Hz; apply Hb; right; exact Hz |].
      intros j z Hz. apply (Hlinks (S j) z). exact Hz.
Qed.

Lemma StronglySorted_app_lt (l1 l2 : list Z) :
  StronglySorted Z.lt (l1 ++ l2) ->
  StronglySorted Z.lt l1 /\
  forall x y, In x l1 -> In y l2 -> x < y.
Proof.
  induction l1 as [|a l1 IH]; cbn [app]; intros H.
  - split; [constructor | intros x y []].
  - apply StronglySorted_inv in H. destruct H as [Hs Ha].
    destruct (IH Hs) as [H1 H2]. rewrite List.Forall_forall in Ha. split.
    + constructor; [exact H1|]. rewrite List.Forall_forall.
      intros x Hx. apply Ha. apply in_or_app. left. exact Hx.
    + intros x y [<-|Hx] Hy; [|auto].
      apply Ha. apply in_or_app. right. exact Hy.
Qed.

Lemma In_take {A : Type} (n : nat) (l : list A) (x : A) :
  In x (firstn n l) -> In x l.
Proof.
  intros H. rewrite <- (firstn_skipn n l). apply in_or_app. left. exact H.
Qed.

(** The store [table[directory_size] = new_entry] never changes a slot of
    the table. *)
Lemma table_store_directory_size (e : FAT32DirectoryEntry)
    (s : FAT32DriverState) :
  dir_table_buf (table_store directory_size e s) = dir_table_buf s.
Proof. reflexivity. Qed.

Lemma table_store_fat (i : Z) (e : FAT32DirectoryEntry)
    (s : FAT32DriverState) :
  fat_table (table_store i e s) = fat_table s.
Proof. unfold table_store. destruct (i <? directory_size); reflexivity. Qed.

(** X19: first fit, for sizes below [2 ^ 31]: a successful file [write]
    claims the [ceil (size / CLUSTER_SIZE)] lowest-numbered clusters whose
    FAT entry is empty and links them in ascending order, the last one to
    end-of-chain; no other FAT entry changes. *)
Lemma write_file_first_fit (request : FAT32DriverRequest) (w w' : World) :
  length (fat_table (state w)) = Z.to_nat CLUSTER_MAP_SIZE ->
  0 < buffer_size request < 2 ^ 31 ->
  write request w = (0, w') ->
  let m := fat_table (state w) in
  let m' := fat_table (state w') in
  let k := ceil_spec (buffer_size request) CLUSTER_SIZE in
  exists claimed : list Z,
    Z.of_nat (length claimed) = k /\
    StronglySorted Z.lt claimed /\
    (forall x, In x claimed ->
       0 <= x < CLUSTER_MAP_SIZE /\
       cluster_map_at m x = FAT32_FAT_EMPTY_ENTRY) /\
    (forall x y, In x claimed -> 0 <= y < CLUSTER_MAP_SIZE ->
       cluster_map_at m y = FAT32_FAT_EMPTY_ENTRY -> ~ In y claimed ->
       x < y) /\
    chain m' (hd 0 claimed) claimed /\
    (forall y, ~ In y claimed ->
       cluster_map_get m' y = cluster_map_get m y).
Proof.
  cbv zeta. unfold write, load_dir_table.
  generalize
    (decode_table (read_clusters (disk w) (parent_cluster_number request) 1)).
  intros t Hlen Hsize. unfold write_in, with_dir_table.
  cbn [disk state dir_table_buf fat_table cluster_buf].
  destruct (negb _); [discriminate|].
  destruct (find_entry _ _); [discriminate|].
  rewrite ceil_div_small by exact Hsize.
  rewrite (to_uint32_small (buffer_size request)) by lia.
  set (kz := ceil_spec (buffer_size request) CLUSTER_SIZE).
  assert (Hk1 : 1 <= kz).
  { unfold kz, ceil_spec, CLUSTER_SIZE, BLOCK_SIZE, CLUSTER_BLOCK_COUNT.
    change (512 * 4) with 2048.
    apply Z.div_le_lower_bound; lia. }
  destruct (_ <? kz) eqn:Havail; [discriminate|].
  apply Z.ltb_ge in Havail.
  replace (buffer_size request =? 0) with false
    by (symmetry; apply Z.eqb_neq; lia).
  set (E := free_clusters 0 (fat_table (state w))).
  pose proof (free_clusters_count (fat_table (state w))) as Hcount.
  fold E in Hcount.
  assert (HkE : (Z.to_nat kz <= length E)%nat) by lia.
  pose proof (free_clusters_sorted 0 (fat_table (state w))) as Hsorted.
  fold E in Hsorted.
  assert (HE : forall x, In x E ->
             0 <= x < CLUSTER_MAP_SIZE /\
             cluster_map_at (fat_table (state w)) x = FAT32_FAT_EMPTY_ENTRY).
  { intros x Hx. apply free_clusters_In in Hx;
      [exact Hx | unfold CLUSTER_MAP_SIZE; lia]. }
  destruct (write_chain_links E (buf request) (Z.to_nat kz)
              (StronglySorted_lt_NoDup _ Hsorted)
              (fun x Hx => proj1 (proj1 (HE x Hx)))
              (Z.to_nat kz) 0%nat (fat_table (state w), disk w))
    as (Hin & Hout);
    [lia | exact HkE
     | intros x Hx; cbn [fst]; rewrite Hlen; pose proof (HE x Hx); lia |].
  change (Z.of_nat 0) with 0 in *.
  rewrite Z2Nat.id in * by lia.
  destruct (write_chain _ _ _ _ _ _) as [m' d'].
  cbn [fst] in *.
  intros Hw. injection Hw as <-.
  cbn [state]. rewrite table_store_fat. cbn [fat_table].
  rewrite <- (firstn_skipn (Z.to_nat kz) E) in Hsorted.
  apply StronglySorted_app_lt in Hsorted. destruct Hsorted as [Hs1 Hs2].
  exists (firstn (Z.to_nat kz) E).
  split; [rewrite length_firstn; lia|].
  split; [exact Hs1|].
  split; [intros x Hx; apply HE; apply (In_take _ _ _ Hx)|].
  split.
  { intros x y Hx Hy Hfree Hny. apply Hs2; [exact Hx|].
    assert (HyE : In y E)
      by (apply free_clusters_In; [unfold CLUSTER_MAP_SIZE; lia | split; [lia | exact Hfree]]).
    rewrite <- (firstn_skipn (Z.to_nat kz) E) in HyE.
    apply in_app_or in HyE. tauto. }
  split.
  - apply chain_of_links.
    + destruct E as [|x E']; [cbn [length] in HkE; lia|].
      destruct (Z.to_nat kz) as [|n] eqn:En; [lia | reflexivity].
    + intros x Hx. apply HE. apply (In_take _ _ _ Hx).
    + intros j x Hx. apply lookup_take_Some in Hx. destruct Hx as [Hx Hj].
      rewrite (Hin j x) by (try exact Hx; lia). f_equal.
      destruct (Z.of_nat j =? kz - 1) eqn:Ej.
      * rewrite lookup_take_ge by lia. reflexivity.
      * rewrite lookup_take_lt by lia. rewrite nth_lookup.
        destruct (E !! S j) eqn:Es; [reflexivity|].
        apply lookup_ge_None in Es. lia.
  - intros y Hy. unfold cluster_map_get.
    destruct ((0 <=? y) && (y <? CLUSTER_MAP_SIZE)) eqn:Eb; [|reflexivity].
    apply Hout. intros j x Hj Hx Heq.
    apply Hy. replace y with x.
    + apply list_elem_of_In, list_elem_of_lookup. exists j.
      apply lookup_take_Some. split; [exact Hx | lia].
    + assert (In x E) by (apply list_elem_of_In, list_elem_of_lookup; eauto).
      pose proof (HE x ltac:(assumption)). apply andb_true_iff in Eb. lia.
Qed.

Lemma write_file_first_fit_witness :
  let w' := snd (write (file1_request (repeat x41 3000) 3000)
                       formatted_world) in
  exists claimed : list Z,
    length claimed = 2%nat /\
    chain (fat_table (state w')) (hd 0 claimed) claimed.
Proof.
  intros w'.
  assert (Hs : fst (write (file1_request (repeat x41 3000) 3000)
                          formatted_world) = 0)
    by (vm_compute; reflexivity).
  assert (Hw : write (file1_request (repeat x41 3000) 3000) formatted_world
               = (0, w')).
  { unfold w'.
    destruct (write (file1_request (repeat x41 3000) 3000) formatted_world)
      as [s w1].
    cbn [fst snd] in *. rewrite Hs. reflexivity. }
  assert (Hlen : length (fat_table (state formatted_world))
                 = Z.to_nat CLUSTER_MAP_SIZE) by (vm_compute; reflexivity).
  pose proof (write_file_first_fit
                (file1_request (repeat x41 3000) 3000) formatted_world w'
                Hlen ltac:(cbn [buffer_size file1_request]; lia) Hw) as H.
  cbv zeta in H. destruct H as (claimed & Hk & _ & _ & _ & Hchain & _).
  exists claimed. split; [|exact Hchain].
  change (ceil_spec (buffer_size (file1_request (repeat x41 3000) 3000))
                    CLUSTER_SIZE) with 2 in Hk. lia.
Defined.

(** X20: a successful [write] leaves every slot of the scratch table as it
    was loaded from the parent cluster. *)
Lemma write_never_changes_table (request : FAT32DriverRequest) (w w' : World) :
  write request w = (0, w') ->
  dir_table_buf (state w')
  = decode_table (read_clusters (disk w) (parent_cluster_number request) 1).
Proof.
  unfold write, load_dir_table.
  generalize
    (decode_table (read_clusters (disk w) (parent_cluster_number request) 1)).
  intros t. unfold write_in, with_dir_table.
  cbn [disk state dir_table_buf fat_table cluster_buf].
  destruct (negb _); [discriminate|].
  destruct (find_entry _ _); [discriminate|].
  destruct (_ <? _); [discriminate|].
  destruct (if _ =? 0 then _ else _) as [e [m' d']].
  intros H. injection H as <-. reflexivity.
Qed.

Lemma write_never_changes_table_witness :
  let w' := snd (write dir_request formatted_world) in
  dir_table_buf (state w')
  = decode_table
      (read_clusters (disk formatted_world)
                     (parent_cluster_number dir_request) 1).
Proof.
  intros w'.
  assert (Hs : fst (write dir_request formatted_world) = 0)
    by (vm_compute; reflexivity).
  assert (Hw : write dir_request formatted_world = (0, w')).
  { unfold w'. destruct (write dir_request formatted_world) as [s w1].
    cbn [fst snd] in *. rewrite Hs. reflexivity. }
  exact (write_never_changes_table dir_request formatted_world w' Hw).
Defined.

(** ** Directory creation *)

(** The two 16-bit halves of a cluster number give the number back. *)
Lemma cluster_halves (p : Z) :
  0 <= p < 2 ^ 32 ->
  to_uint32 (Z.lor (Z.land p 0xFFFF)
                   (Z.shiftl (Z.land (Z.shiftr p 16) 0xFFFF) 16)) = p.
Proof.
  intros Hp. change 0xFFFF with (Z.ones 16).
  rewrite !Z.land_ones, Z.shiftr_div_pow2, Z.shiftl_mul_pow2 by lia.
  assert (Hq : 0 <= p / 2 ^ 16 < 2 ^ 16)
    by (split; [apply Z.div_pos; lia | apply Z.div_lt_upper_bound; lia]).
  rewrite (Z.mod_small (p / 2 ^ 16)) by exact Hq.
  assert (Hland : Z.land (p mod 2 ^ 16) (p / 2 ^ 16 * 2 ^ 16) = 0).
  { apply Z.bits_inj'. intros n Hn. rewrite Z.land_spec, Z.bits_0.
    destruct (Z.lt_ge_cases n 16) as [Hlt|Hge].
    - rewrite Z.mul_pow2_bits_low by lia. apply andb_false_r.
    - rewrite Z.mod_pow2_bits_high by lia. reflexivity. }
  pose proof (Z.add_lor_land (p mod 2 ^ 16) (p / 2 ^ 16 * 2 ^ 16)) as Hadd.
  rewrite Hland, Z.add_0_r in Hadd. rewrite Hadd.
  pose proof (Z.div_mod p (2 ^ 16) ltac:(lia)).
  rewrite to_uint32_small by lia. lia.
Qed.

Lemma hd_free_clusters (from : Z) (m : list Z) (c : Z) (rest : list Z) :
  0 <= from <= CLUSTER_MAP_SIZE ->
  free_clusters from m = c :: rest ->
  from <= c < CLUSTER_MAP_SIZE /\
  cluster_map_at m c = FAT32_FAT_EMPTY_ENTRY /\
  forall y, from <= y < c -> cluster_map_at m y <> FAT32_FAT_EMPTY_ENTRY.
Proof.
  intros Hfrom Hfc.
  pose proof (free_clusters_In from m c Hfrom) as Hc.
  rewrite Hfc in Hc. destruct (proj1 Hc (or_introl eq_refl)) as [Hr Hfree].
  split; [exact Hr|]. split; [exact Hfree|]. intros y Hy Hyfree.
  assert (Hin : In y (free_clusters from m))
    by (apply free_clusters_In; [exact Hfrom | split; [lia | exact Hyfree]]).
  pose proof (free_clusters_sorted from m) as Hs. rewrite Hfc in Hs, Hin.
  apply StronglySorted_inv in Hs. destruct Hs as [_ Hall].
  rewrite List.Forall_forall in Hall.
  destruct Hin as [->|Hin]; [lia|]. specialize (Hall y Hin). lia.
Qed.

(** X21: directory creation when some cluster from 2 on is free: a
    successful [write] with size 0 claims the lowest such cluster [c], marks
    it end-of-chain and changes no other FAT entry; it writes to [c] a table
    whose slot 0 is a subdirectory entry that refers to the parent cluster,
    then the parent table, then the FAT. *)
Lemma mkdir_claims_first_free (request : FAT32DriverRequest) (w w' : World)
    (c : Z) (rest : list Z) :
  buffer_size request = 0 ->
  0 <= parent_cluster_number request < 2 ^ 32 ->
  free_clusters 2 (fat_table (state w)) = c :: rest ->
  write request w = (0, w') ->
  let new_dir_table :=
    init_directory_table zero_table (req_name request)
                         (parent_cluster_number request) in
  (2 <= c < CLUSTER_MAP_SIZE /\
   cluster_map_at (fat_table (state w)) c = FAT32_FAT_EMPTY_ENTRY /\
   forall y, 2 <= y < c ->
             cluster_map_at (fat_table (state w)) y
             <> FAT32_FAT_EMPTY_ENTRY) /\
  fat_table (state w')
  = <[Z.to_nat c := FAT32_FAT_END_OF_FILE]> (fat_table (state w)) /\
  attribute (table_get new_dir_table 0) = ATTR_SUBDIRECTORY /\
  entry_cluster (table_get new_dir_table 0) = parent_cluster_number request /\
  disk w'
  = write_clusters (encode_fat (fat_table (state w'))) FAT_CLUSTER_NUMBER 1
      (write_clusters (encode_table (dir_table_buf (state w')))
         (parent_cluster_number request) 1
         (write_clusters (encode_table new_dir_table) c 1 (disk w))).
Proof.
  cbv zeta. unfold write, load_dir_table.
  generalize
    (decode_table (read_clusters (disk w) (parent_cluster_number request) 1)).
  intros t Hsize Hparent Hfree. unfold write_in, with_dir_table.
  cbn [disk state dir_table_buf fat_table cluster_buf].
  destruct (negb _); [discriminate|].
  destruct (find_entry _ _); [discriminate|].
  rewrite Hsize, Hfree. change (to_uint32 0 =? 0) with true.
  cbv iota. destruct (_ <? _); [discriminate|].
  cbn [hd]. intros Hw. injection Hw as <-.
  cbn [disk state]. rewrite table_store_fat. cbn [fat_table].
  split; [apply (hd_free_clusters 2 _ c rest);
          [unfold CLUSTER_MAP_SIZE; lia | exact Hfree]|].
  split; [reflexivity|]. split; [reflexivity|]. split; [|reflexivity].
  unfold init_directory_table, zero_table, table_get.
  change (Z.to_nat directory_size) with 64%nat. cbn [repeat].
  change (Z.to_nat 0) with 0%nat.
  cbn [list_insert insert nth cluster_low cluster_high].
  unfold entry_cluster. cbn [cluster_low cluster_high].
  apply cluster_halves. exact Hparent.
Qed.

Lemma mkdir_claims_first_free_witness :
  let w' := snd (write dir_request formatted_world) in
  fat_table (state w')
  = <[3%nat := FAT32_FAT_END_OF_FILE]> (fat_table (state formatted_world)).
Proof.
  intros w'.
  assert (Hs : fst (write dir_request formatted_world) = 0)
    by (vm_compute; reflexivity).
  assert (Hw : write dir_request formatted_world = (0, w')).
  { unfold w'. destruct (write dir_request formatted_world) as [s w1].
    cbn [fst snd] in *. rewrite Hs. reflexivity. }
  assert (Hfree : free_clusters 2 (fat_table (state formatted_world))
                  = 3 :: tl (free_clusters 2
                               (fat_table (state formatted_world))))
    by (vm_compute; reflexivity).
  assert (Hp : 0 <= parent_cluster_number dir_request < 2 ^ 32)
    by (vm_compute; split; [discriminate | reflexivity]).
  pose proof (mkdir_claims_first_free dir_request formatted_world w' 3 _
                eq_refl Hp Hfree Hw) as H.
  cbv zeta in H. destruct H as (_ & H & _). exact H.
Defined.

(** ** Evaluations on the formatted device *)

(** C1: on the freshly formatted file system, [write] of the one-byte file
    FILE1.TXT returns 0, yet the following [read] with the same key, the
    same parent cluster and a buffer of a whole cluster returns status 3
    (not found) and leaves the caller's buffer as it was: the round trip
    does not hold. *)
Theorem write_then_read_not_found :
  let w1 := write (file1_request [x41] 1) formatted_world in
  fst w1 = 0 /\
  read_outcome
    (read 512 (file1_request (repeat x00 2048) 2048) (snd w1))
  = Some (3, repeat x00 2048).
Proof. vm_compute. split; reflexivity. Qed.

(** C2: on the freshly formatted file system the successful [write] of
    FILE1.TXT stores the new entry at index [directory_size], which is not
    an index of the table; the table of [directory_size] slots that is
    persisted at the parent cluster is, byte for byte, the one found there
    before the call, and the entry's bytes lie behind the table, at the
    start of [cluster_buf]. *)
Theorem write_stores_entry_outside_table :
  let w1 := write (file1_request [x41] 1) formatted_world in
  fst w1 = 0 /\
  Z.of_nat (length (dir_table_buf (state (snd w1)))) = directory_size /\
  read_clusters (disk (snd w1)) ROOT_CLUSTER_NUMBER 1
    = read_clusters (disk formatted_world) ROOT_CLUSTER_NUMBER 1 /\
  map name (firstn 2 (decode_table
              (read_clusters (disk (snd w1)) ROOT_CLUSTER_NUMBER 1)))
    = [ascii_bytes [114; 111; 111; 116; 0; 0; 0; 0]; repeat x00 8] /\
  name (decode_entry (bytes_at 0 32 (cluster_buf (state (snd w1)))))
    = ascii_bytes [70; 73; 76; 69; 49; 0; 0; 0].
Proof. vm_compute. repeat split; reflexivity. Qed.

(** C3: in the root directory of the freshly formatted file system the
    request key [root] is matched by the scan at slot 0, the directory
    descriptor: lookup-directory returns 0, [write] reports that the name
    exists, [read] reports a directory, and [delete] returns 0 after
    tombstoning slot 0 and emptying the FAT entry of the root cluster. *)
Theorem scan_matches_slot_zero :
  let t := decode_table
             (read_clusters (disk formatted_world) ROOT_CLUSTER_NUMBER 1) in
  option_map fst (find_entry root_request t) = Some 0 /\
  fst (read_directory root_request formatted_world) = 0 /\
  read_outcome (read 512 root_request formatted_world) = Some (1, []) /\
  fst (write root_request formatted_world) = 1 /\
  option_map
    (fun r =>
       (fst r,
        cluster_map_at (fat_table (state (snd r))) ROOT_CLUSTER_NUMBER,
        let slot0 := table_get
                       (decode_table
                          (read_clusters (disk (snd r)) ROOT_CLUSTER_NUMBER 1))
                       0 in
        (name slot0, user_attribute slot0)))
    (delete 512 root_request formatted_world)
  = Some (0, FAT32_FAT_EMPTY_ENTRY, (repeat x00 8, 0)).
Proof. vm_compute. repeat split; reflexivity. Qed.

(** C4: after formatting and one file of 509 clusters no FAT entry is
    empty; [write] with size 0 still returns 0.  It claims cluster 0, whose
    FAT entry was the reserved value and becomes end-of-chain, and writes
    the new directory table over cluster 0, so that the boot sector no
    longer carries the signature. *)
Theorem mkdir_on_full_device_claims_cluster_zero :
  let r := write dir_request full_world in
  fst full_result = 0 /\
  free_clusters 0 (fat_table (state full_world)) = [] /\
  fst r = 0 /\
  cluster_map_at (fat_table (state full_world)) 0 = CLUSTER_0_VALUE /\
  cluster_map_at (fat_table (state (snd r))) 0 = FAT32_FAT_END_OF_FILE /\
  skipn 1 (fat_table (state (snd r)))
    = skipn 1 (fat_table (state full_world)) /\
  is_formatted full_world = true /\
  is_formatted (snd r) = false /\
  name (table_get (decode_table (read_clusters (disk (snd r)) 0 1)) 0)
    = ascii_bytes [68; 73; 82; 0; 0; 0; 0; 0].
Proof. vm_compute. repeat split; reflexivity. Qed.

(** C5: on the freshly formatted file system a file [write] whose size field
    is [2 ^ 32 - 1] returns 0.  The ceiling of the size over the cluster
    size is 2097152, but [ceil_div] receives the size as the [int32_t] -1
    and yields 1: one cluster, cluster 3, is claimed and marked
    end-of-chain, and no other FAT entry changes. *)
Theorem huge_write_claims_one_cluster :
  let r := write huge_request formatted_world in
  fst r = 0 /\
  ceil_spec (buffer_size huge_request) CLUSTER_SIZE = 2097152 /\
  ceil_div (to_int32 (buffer_size huge_request)) CLUSTER_SIZE = 1 /\
  Z.of_nat (length (free_clusters 0 (fat_table (state formatted_world))))
    = 509 /\
  fat_table (state (snd r))
    = <[3%nat := FAT32_FAT_END_OF_FILE]> (fat_table (state formatted_world)).
Proof. vm_compute. repeat split; reflexivity. Qed.

(** ** Layout round trips *)

Lemma Z_of_byte_range (b : byte) : 0 <= Z_of_byte b < 2 ^ 8.
Proof.
  unfold Z_of_byte. pose proof (Byte.to_N_bounded b). lia.
Qed.

Lemma Z_of_byte_of_Z (z : Z) : Z_of_byte (byte_of_Z z) = z mod 2 ^ 8.
Proof.
  unfold byte_of_Z, Z_of_byte, to_uint8.
  pose proof (Z.mod_pos_bound z (2 ^ 8) ltac:(lia)) as Hr.
  destruct (Byte.of_N (Z.to_N (z mod 2 ^ 8))) as [b|] eqn:E.
  - apply Byte.to_of_N in E. rewrite E. lia.
  - apply Byte.of_N_None_iff in E. lia.
Qed.

Lemma byte_of_Z_of_byte (b : byte) : byte_of_Z (Z_of_byte b) = b.
Proof.
  unfold byte_of_Z, Z_of_byte, to_uint8.
  pose proof (Byte.to_N_bounded b).
  rewrite Z.mod_small by lia. rewrite N2Z.id, Byte.of_to_N. reflexivity.
Qed.

Lemma le_value_range (l : list byte) :
  0 <= le_value l < 2 ^ (8 * Z.of_nat (length l)).
Proof.
  induction l as [|b l IH]; cbn [le_value length]; [cbn; lia|].
  pose proof (Z_of_byte_range b).
  replace (8 * Z.of_nat (S (length l))) with (8 + 8 * Z.of_nat (length l))
    by lia.
  rewrite Z.pow_add_r by lia. nia.
Qed.

Lemma le_value_le_bytes (n : nat) : forall z,
  le_value (le_bytes n z) = z mod 2 ^ (8 * Z.of_nat n).
Proof.
  induction n as [|n IH]; intros z; cbn [le_bytes le_value].
  - cbn. symmetry. apply Z.mod_1_r.
  - rewrite IH, Z_of_byte_of_Z, Z.shiftr_div_pow2 by lia.
    replace (8 * Z.of_nat (S n)) with (8 + 8 * Z.of_nat n) by lia.
    rewrite Z.pow_add_r by lia.
    rewrite Z.rem_mul_r by lia. reflexivity.
Qed.

Lemma length_le_bytes (n : nat) : forall z, length (le_bytes n z) = n.
Proof.
  induction n as [|n IH]; intros z; cbn [le_bytes length];
    [|rewrite IH]; reflexivity.
Qed.

Lemma le_bytes_le_value (l : list byte) :
  le_bytes (length l) (le_value l) = l.
Proof.
  induction l as [|b l IH]; cbn [le_bytes le_value length]; [reflexivity|].
  pose proof (Z_of_byte_range b).
  assert (Hb : byte_of_Z (Z_of_byte b + 2 ^ 8 * le_value l) = b).
  { rewrite <- (byte_of_Z_of_byte b) at 2. unfold byte_of_Z, to_uint8.
    replace ((Z_of_byte b + 2 ^ 8 * le_value l) mod 2 ^ 8)
      with (Z_of_byte b mod 2 ^ 8); [reflexivity|].
    rewrite (Z.mul_comm (2 ^ 8)), Z.mod_add by lia. reflexivity. }
  rewrite Hb. f_equal.
  replace (Z.shiftr (Z_of_byte b + 2 ^ 8 * le_value l) 8)
    with (le_value l);
    [exact IH|].
  rewrite Z.shiftr_div_pow2 by lia.
  rewrite (Z.mul_comm (2 ^ 8)), Z.div_add by lia.
  rewrite Z.div_small by lia. lia.
Qed.

(** Cutting the concatenation of fixed-size records gives the records
    back. *)
Lemma chunks_flat_map {A : Type} (f : A -> list byte) (size : nat) :
  (forall x, length (f x) = size) ->
  forall (l : list A) (rest : list byte),
  chunks (length l) size (flat_map f l ++ rest) = map f l.
Proof.
  intros Hsize. induction l as [|x l IH]; intros rest;
    cbn [length chunks flat_map map]; [reflexivity|].
  rewrite <- app_assoc.
  assert (Htake : forall k, firstn size (f x ++ k) = f x)
    by (intros k; rewrite <- (Hsize x); apply take_app_length).
  assert (Hdrop : forall k, skipn size (f x ++ k) = k)
    by (intros k; rewrite <- (Hsize x); apply drop_app_length).
  unfold bytes_n at 1. rewrite <- app_assoc, Htake, Hdrop, IH. reflexivity.
Qed.

Lemma bytes_n_app (n : nat) (l rest : list byte) :
  length l = n -> bytes_n n (l ++ rest) = l.
Proof.
  intros <-. unfold bytes_n. rewrite <- app_assoc. apply take_app_length.
Qed.

Lemma decode_fat_encode_fat (m : list Z) :
  wf_fat m -> decode_fat (bytes_n (Z.to_nat CLUSTER_SIZE) (encode_fat m)) = m.
Proof.
  intros [Hlen Hrange]. unfold decode_fat, encode_fat.
  assert (Hl : length (flat_map (le_bytes 4) m) = Z.to_nat CLUSTER_SIZE).
  { rewrite (flat_map_constant_length (c := 4))
      by (intros; apply length_le_bytes).
    rewrite Hlen. reflexivity. }
  rewrite bytes_n_exact by exact Hl.
  rewrite <- Hlen, <- (app_nil_r (flat_map _ m)).
  rewrite chunks_flat_map by (intros; apply length_le_bytes).
  rewrite List.map_map. rewrite <- (List.map_id m) at 2.
  apply List.map_ext_in. intros x Hx. rewrite le_value_le_bytes.
  rewrite List.Forall_forall in Hrange. apply Z.mod_small.
  apply Hrange. exact Hx.
Qed.

Lemma length_encode_entry (e : FAT32DirectoryEntry) :
  length (encode_entry e) = Z.to_nat DIRECTORY_ENTRY_SIZE.
Proof.
  unfold encode_entry.
  rewrite !length_app, !length_bytes_n, !length_le_bytes. reflexivity.
Qed.

Lemma le_value_le_bytes_small (n : nat) (z : Z) :
  0 <= z < 2 ^ (8 * Z.of_nat n) -> le_value (le_bytes n z) = z.
Proof. intros H. rewrite le_value_le_bytes. apply Z.mod_small. exact H. Qed.

(** A well-formed entry survives its 32-byte layout. *)
Lemma decode_entry_encode_entry (e : FAT32DirectoryEntry) :
  wf_entry e -> decode_entry (encode_entry e) = e.
Proof.
  destruct e as [nm ex a ua ud ct cd ad ch mt md cl fs].
  unfold wf_entry. cbn [name ext attribute user_attribute undelete
    create_time create_date access_date cluster_high modified_time
    modified_date cluster_low filesize].
  intros (Hn & Hx & Ha & Hua & Hud & Hct & Hcd & Had & Hch & Hmt & Hmd & Hcl
          & Hfs).
  do 9 (destruct nm as [|? nm]; try discriminate Hn).
  do 4 (destruct ex as [|? ex]; try discriminate Hx).
  unfold decode_entry, encode_entry.
  cbn [name ext attribute user_attribute undelete create_time create_date
       access_date cluster_high modified_time modified_date cluster_low
       filesize].
  f_equal;
    first [ reflexivity
          | apply (le_value_le_bytes_small 1); assumption
          | apply (le_value_le_bytes_small 2); assumption
          | apply (le_value_le_bytes_small 4); assumption ].
Qed.

Lemma le_value_bytes_at (off : Z) (n : nat) (b : list byte) :
  0 <= le_value (bytes_at off n b) < 2 ^ (8 * Z.of_nat n).
Proof.
  pose proof (le_value_range (bytes_at off n b)) as H.
  unfold bytes_at in *. rewrite length_bytes_n in H. exact H.
Qed.

(** Whatever bytes a cluster holds, the entries read from it are
    well-formed. *)
Lemma wf_decode_entry (b : list byte) : wf_entry (decode_entry b).
Proof.
  unfold wf_entry, decode_entry, bytes_at.
  cbn [name ext attribute user_attribute undelete create_time create_date
       access_date cluster_high modified_time modified_date cluster_low
       filesize].
  rewrite !length_bytes_n.
  repeat split; try reflexivity;
    first [ apply (le_value_bytes_at _ 1) | apply (le_value_bytes_at _ 2)
          | apply (le_value_bytes_at _ 4) ].
Qed.

Lemma wf_decode_table (b : list byte) : wf_table (decode_table b).
Proof.
  split; [apply length_decode_table|].
  unfold decode_table. apply List.Forall_forall. intros e He.
  apply in_map_iff in He. destruct He as (c & <- & _). apply wf_decode_entry.
Qed.

Lemma wf_tombstone (e : FAT32DirectoryEntry) :
  wf_entry e -> wf_entry (tombstone e).
Proof.
  unfold wf_entry, tombstone.
  cbn [name ext attribute user_attribute undelete create_time create_date
       access_date cluster_high modified_time modified_date cluster_low
       filesize].
  intros (_ & _ & H). repeat split; try reflexivity; try lia; tauto.
Qed.

Lemma length_encode_table (t : list FAT32DirectoryEntry) :
  length t = Z.to_nat directory_size ->
  length (encode_table t) = Z.to_nat CLUSTER_SIZE.
Proof.
  intros Hlen. unfold encode_table.
  rewrite (flat_map_constant_length (c := 32))
    by (intros; apply length_encode_entry).
  rewrite Hlen. reflexivity.
Qed.

(** A well-formed table survives its layout in one cluster. *)
Lemma decode_table_encode_table (t : list FAT32DirectoryEntry) :
  wf_table t ->
  decode_table (bytes_n (Z.to_nat CLUSTER_SIZE) (encode_table t)) = t.
Proof.
  intros [Hlen Hwf]. rewrite bytes_n_exact by (apply length_encode_table, Hlen).
  unfold decode_table, encode_table.
  rewrite <- Hlen, <- (app_nil_r (flat_map _ t)).
  rewrite chunks_flat_map by (intros; apply length_encode_entry).
  rewrite List.map_map. rewrite <- (List.map_id t) at 2.
  apply List.map_ext_in. intros e He. apply decode_entry_encode_entry.
  rewrite List.Forall_forall in Hwf. apply Hwf. exact He.
Qed.

(** ** Block addressing *)

Lemma map_nth_seq (l : list byte) (n : nat) :
  map (fun k => nth k l x00) (seq 0 n) = bytes_n n l.
Proof.
  apply (nth_ext _ _ x00 x00).
  - rewrite length_map, length_seq, length_bytes_n. reflexivity.
  - intros i Hi. rewrite length_map, length_seq in Hi.
    rewrite (nth_indep _ x00 (nth 0 l x00))
      by (rewrite length_map, length_seq; exact Hi).
    rewrite (map_nth (fun k => nth k l x00)), seq_nth by exact Hi.
    unfold bytes_n. rewrite nth_firstn.
    replace (i <? n)%nat with true by (symmetry; apply Nat.ltb_lt; exact Hi).
    cbn [Nat.add].
    destruct (Nat.lt_ge_cases i (length l)) as [Hlt|Hge].
    + rewrite app_nth1 by exact Hlt. reflexivity.
    + rewrite app_nth2 by exact Hge. rewrite nth_overflow by exact Hge.
      symmetry. apply nth_repeat.
Qed.

Lemma read_write_blocks (src : list byte) (lba n : Z) (d : Disk) :
  read_blocks (write_blocks src lba n d) lba n
  = bytes_n (Z.to_nat (n * BLOCK_SIZE)) src.
Proof.
  unfold read_blocks, write_blocks. rewrite <- map_nth_seq.
  apply List.map_ext_in. intros k Hk. apply in_seq in Hk.
  replace (lba * BLOCK_SIZE + Z.of_nat k - lba * BLOCK_SIZE)
    with (Z.of_nat k) by lia.
  rewrite Nat2Z.id.
  replace ((0 <=? Z.of_nat k) && (Z.of_nat k <? n * BLOCK_SIZE)) with true;
    [reflexivity|].
  symmetry. apply andb_true_iff. split; [apply Z.leb_le | apply Z.ltb_lt]; lia.
Qed.

Lemma read_other_blocks (src : list byte) (lba lba' n n' : Z) (d : Disk) :
  lba + n <= lba' \/ lba' + n' <= lba ->
  read_blocks (write_blocks src lba' n' d) lba n = read_blocks d lba n.
Proof.
  intros Hdisj. unfold read_blocks, write_blocks.
  apply List.map_ext_in. intros k Hk. apply in_seq in Hk.
  assert (Hb : 0 < BLOCK_SIZE) by reflexivity.
  destruct (Z.le_gt_cases n 0) as [Hn|Hn].
  { assert (Z.to_nat (n * BLOCK_SIZE) = 0%nat) by nia. lia. }
  replace ((0 <=? lba * BLOCK_SIZE + Z.of_nat k - lba' * BLOCK_SIZE)
           && (lba * BLOCK_SIZE + Z.of_nat k - lba' * BLOCK_SIZE
               <? n' * BLOCK_SIZE)) with false; [reflexivity|].
  symmetry. apply andb_false_iff.
  destruct Hdisj as [H|H]; [left; apply Z.leb_gt | right; apply Z.ltb_ge]; nia.
Qed.

(** The block address of a cluster: four times the cluster number, the
    number taken modulo [2 ^ 30]. *)
Lemma cluster_to_lba_eq (c : Z) :
  cluster_to_lba c = CLUSTER_BLOCK_COUNT * (c mod 2 ^ 30).
Proof.
  unfold cluster_to_lba, to_uint32, CLUSTER_BLOCK_COUNT.
  change (2 ^ 32) with (4 * 2 ^ 30). rewrite (Z.mul_comm c 4).
  rewrite Z.mul_mod_distr_l by lia. reflexivity.
Qed.

(** ** The shape of a successful mutation *)

Lemma read_write_clusters (src : list byte) (c : Z) (d : Disk) :
  read_clusters (write_clusters src c 1 d) c 1
  = bytes_n (Z.to_nat CLUSTER_SIZE) src.
Proof. unfold read_clusters, write_clusters. apply read_write_blocks. Qed.

Lemma read_other_clusters (src : list byte) (c c' : Z) (d : Disk) :
  cluster_to_lba c <> cluster_to_lba c' ->
  read_clusters (write_clusters src c' 1 d) c 1 = read_clusters d c 1.
Proof.
  intros Hne. unfold read_clusters, write_clusters.
  apply read_other_blocks. rewrite !cluster_to_lba_eq in *.
  change (to_uint8 (1 * CLUSTER_BLOCK_COUNT)) with 4.
  unfold CLUSTER_BLOCK_COUNT in *. lia.
Qed.

Lemma wf_fat_insert (m : list Z) (i : nat) (v : Z) :
  wf_fat m -> 0 <= v < 2 ^ 32 -> wf_fat (<[i := v]> m).
Proof.
  intros [Hlen Hr] Hv. split; [rewrite length_insert; exact Hlen|].
  apply Forall_insert; assumption.
Qed.

Lemma wf_write_chain (E : list Z) (src : list byte) (k : Z) :
  (forall x, In x E -> 0 <= x < 2 ^ 32) ->
  forall (n : nat) (i : Z) (md : list Z * Disk),
  wf_fat (fst md) -> wf_fat (fst (write_chain n i k E src md)).
Proof.
  intros HE. induction n as [|n IH]; intros i md Hwf; cbn [write_chain];
    [exact Hwf|].
  apply IH. cbn [fst]. apply wf_fat_insert; [exact Hwf|].
  destruct (i =? k - 1); [unfold FAT32_FAT_END_OF_FILE; lia|].
  destruct (nth_in_or_default (Z.to_nat (i + 1)) E 0) as [Hin | Hd];
    [apply HE; exact Hin | rewrite Hd; lia].
Qed.

Lemma wf_free_chain (fuel : nat) : forall (m : list Z) (c : Z) (m' : list Z),
  free_chain fuel m c = Some m' -> wf_fat m -> wf_fat m'.
Proof.
  induction fuel as [|fuel IH]; intros m c m' H Hwf; cbn [free_chain] in H;
    [discriminate|].
  destruct (cluster_map_get m c) as [next|]; [|discriminate].
  assert (Hwf1 : wf_fat (<[Z.to_nat c := FAT32_FAT_EMPTY_ENTRY]> m))
    by (apply wf_fat_insert; [exact Hwf | unfold FAT32_FAT_EMPTY_ENTRY; lia]).
  destruct (next =? FAT32_FAT_END_OF_FILE).
  - injection H as <-. exact Hwf1.
  - eapply IH; eassumption.
Qed.

(** What a [write] that returns 0 has done: the parent was a folder without
    a slot for the key; the scratch buffer received the new entry at index
    [directory_size]; the device received the parent table as loaded, then
    the new FAT. *)
Lemma write_in_success (request : FAT32DriverRequest) (w1 w' : World) :
  write_in request w1 = (0, w') ->
  parent_is_folder (dir_table_buf (state w1)) = true /\
  find_entry request (dir_table_buf (state w1)) = None /\
  exists e m' d',
    state w' = table_store directory_size e
                 (mkState m' (dir_table_buf (state w1))
                          (cluster_buf (state w1))) /\
    disk w' = write_clusters (encode_fat m') FAT_CLUSTER_NUMBER 1
                (write_clusters (encode_table (dir_table_buf (state w1)))
                                (parent_cluster_number request) 1 d') /\
    (wf_fat (fat_table (state w1)) -> wf_fat m').
Proof.
  unfold write_in. cbv zeta.
  destruct (parent_is_folder _); cbn [negb]; [|discriminate].
  destruct (find_entry _ _); [discriminate|].
  destruct (_ <? _); [discriminate|].
  destruct (if _ =? 0 then _ else _) as [e [m' d']] eqn:E.
  intros H. injection H as <-. split; [reflexivity|]. split; [reflexivity|].
  exists e, m', d'. cbn [state disk].
  split; [reflexivity|]. split; [reflexivity|]. intros Hwf.
  destruct (to_uint32 (buffer_size request) =? 0).
  - injection E as _ <- _. apply wf_fat_insert;
      [exact Hwf | unfold FAT32_FAT_END_OF_FILE; lia].
  - injection E as _ E.
    rewrite (surjective_pairing (write_chain _ _ _ _ _ _)) in E.
    injection E as <- _. apply wf_write_chain; [|exact Hwf].
    intros x Hx. apply free_clusters_In in Hx;
      [unfold CLUSTER_MAP_SIZE in Hx; lia | unfold CLUSTER_MAP_SIZE; lia].
Qed.

(** What a [delete] that returns 0 has done. *)
Lemma delete_in_success (fuel : nat) (request : FAT32DriverRequest)
    (w1 w' : World) :
  delete_in fuel request w1 = Some (0, w') ->
  parent_is_folder (dir_table_buf (state w1)) = true /\
  exists i e m',
    find_entry request (dir_table_buf (state w1)) = Some (i, e) /\
    free_chain fuel (fat_table (state w1)) (entry_cluster e) = Some m' /\
    state w' = mkState m'
                 (<[Z.to_nat i := tombstone e]> (dir_table_buf (state w1)))
                 (cluster_buf (state w1)) /\
    disk w' = write_clusters (encode_fat m') FAT_CLUSTER_NUMBER 1
                (write_clusters
                   (encode_table
                      (<[Z.to_nat i := tombstone e]>
                         (dir_table_buf (state w1))))
                   (parent_cluster_number request) 1 (disk w1)).
Proof.
  unfold delete_in. cbv zeta.
  destruct (parent_is_folder _); cbn [negb]; [|discriminate].
  destruct (find_entry _ _) as [[i e]|] eqn:Hfind; [|discriminate].
  destruct (_ && _); [discriminate|].
  destruct (free_chain _ _ _) as [m'|] eqn:Hfree; [|discriminate].
  intros H. injection H as <-. split; [reflexivity|].
  exists i, e, m'. destruct (find_entry_slot _ _ _ _ Hfind) as (_ & Hslot).
  assert (He : table_get (dir_table_buf (state w1)) i = e)
    by (unfold table_get; rewrite nth_lookup, Hslot; reflexivity).
  rewrite He. cbn [state disk].
  split; [first [exact Hfind | reflexivity]|].
  split; [first [exact Hfree | reflexivity]|]. split; reflexivity.
Qed.

(** ** Checks by evaluation *)

Lemma wf_fat_check (m : list Z) :
  (length m =? Z.to_nat CLUSTER_MAP_SIZE)%nat
  && forallb (fun x => (0 <=? x) && (x <? 2 ^ 32)) m = true ->
  wf_fat m.
Proof.
  intros H. apply andb_true_iff in H. destruct H as [Hlen Hall].
  split; [apply Nat.eqb_eq; exact Hlen|].
  apply List.Forall_forall. intros x Hx.
  rewrite forallb_forall in Hall. specialize (Hall x Hx).
  apply andb_true_iff in Hall. destruct Hall as [H0 H1].
  apply Z.leb_le in H0. apply Z.ltb_lt in H1. lia.
Qed.


Lemma sample_world_fat : wf_fat (fat_table (state sample_world)).
Proof. apply wf_fat_check. vm_compute. reflexivity. Qed.

(** X1: a cluster read back right after it was written holds the first
    [CLUSTER_SIZE] bytes of the source, with zero bytes where the source is
    shorter.  A write to a cluster whose number differs modulo [2 ^ 30]
    leaves what is read unchanged, and a write to a number that agrees
    modulo [2 ^ 30] replaces it: [cluster_to_lba] wraps at 32 bits. *)
Theorem write_then_read_clusters (src : list byte) (c c' : Z) (d : Disk) :
  read_clusters (write_clusters src c 1 d) c 1
  = bytes_n (Z.to_nat CLUSTER_SIZE) src /\
  (c mod 2 ^ 30 <> c' mod 2 ^ 30 ->
   read_clusters (write_clusters src c' 1 d) c 1 = read_clusters d c 1) /\
  (c mod 2 ^ 30 = c' mod 2 ^ 30 ->
   read_clusters (write_clusters src c' 1 d) c 1
   = bytes_n (Z.to_nat CLUSTER_SIZE) src).
Proof.
  split; [apply read_write_clusters|]. split.
  - intros Hne. apply read_other_clusters. rewrite !cluster_to_lba_eq.
    unfold CLUSTER_BLOCK_COUNT. lia.
  - intros Heq. unfold read_clusters, write_clusters.
    rewrite (cluster_to_lba_eq c), (cluster_to_lba_eq c'), Heq.
    apply read_write_blocks.
Qed.

Lemma write_then_read_clusters_witness :
  read_clusters (write_clusters [x41] 4 1 blank_disk) 3 1
  = read_clusters blank_disk 3 1 /\
  read_clusters (write_clusters [x41] (3 + 2 ^ 30) 1 blank_disk) 3 1
  = bytes_n (Z.to_nat CLUSTER_SIZE) [x41].
Proof.
  destruct (write_then_read_clusters [x41] 3 4 blank_disk) as (_ & H1 & _).
  destruct (write_then_read_clusters [x41] 3 (3 + 2 ^ 30) blank_disk)
    as (_ & _ & H2).
  split; [apply H1; vm_compute; discriminate | apply H2; reflexivity].
Defined.

Lemma is_empty_storage_disk (w w' : World) :
  disk w = disk w' -> is_empty_storage w = is_empty_storage w'.
Proof. unfold is_empty_storage. intros ->. reflexivity. Qed.

Lemma create_fat32_signed (w : World) :
  is_empty_storage (create_fat32 w) = false.
Proof.
  apply negb_true_iff. change (is_formatted (create_fat32 w) = true).
  apply is_formatted_iff. unfold create_fat32. cbn [disk].
  vm_compute. reflexivity.
Qed.

Lemma wf_fat_formatted :
  wf_fat (CLUSTER_0_VALUE :: CLUSTER_1_VALUE :: FAT32_FAT_END_OF_FILE
            :: repeat FAT32_FAT_EMPTY_ENTRY 509).
Proof.
  split; [reflexivity|].
  do 3 (apply List.Forall_cons;
        [vm_compute; split; [discriminate | reflexivity]|]).
  apply List.Forall_forall. intros x Hx. apply repeat_spec in Hx. subst x.
  unfold FAT32_FAT_EMPTY_ENTRY. lia.
Qed.

Lemma create_fat32_persists (w : World) :
  length (fat_table (state w)) = Z.to_nat CLUSTER_MAP_SIZE ->
  decode_fat (read_clusters (disk (create_fat32 w)) FAT_CLUSTER_NUMBER 1)
  = fat_table (state (create_fat32 w)).
Proof.
  intros Hlen. pose proof (create_fat32_cluster_map w Hlen) as Hmap.
  unfold create_fat32 in *. cbn [disk state fat_table] in *.
  rewrite read_other_clusters by (vm_compute; discriminate).
  rewrite read_write_clusters, Hmap.
  apply decode_fat_encode_fat, wf_fat_formatted.
Qed.

(** X2: [initialize_filesystem_fat32] does not touch a formatted device,
    and calling it a second time changes nothing: the device that the first
    call leaves is formatted and its FAT is loaded again unchanged. *)
Theorem initialize_twice (w : World) :
  length (fat_table (state w)) = Z.to_nat CLUSTER_MAP_SIZE ->
  (is_formatted w = true ->
   disk (initialize_filesystem_fat32 w) = disk w) /\
  is_formatted (initialize_filesystem_fat32 w) = true /\
  initialize_filesystem_fat32 (initialize_filesystem_fat32 w)
  = initialize_filesystem_fat32 w.
Proof.
  intros Hlen. destruct (is_empty_storage w) eqn:Hw.
  - assert (E : initialize_filesystem_fat32 w = create_fat32 w)
      by (unfold initialize_filesystem_fat32; rewrite Hw; reflexivity).
    rewrite E. unfold is_formatted. rewrite Hw, create_fat32_signed.
    split; [discriminate|]. split; [reflexivity|].
    unfold initialize_filesystem_fat32. rewrite create_fat32_signed.
    rewrite create_fat32_persists by exact Hlen.
    unfold create_fat32. reflexivity.
  - set (w1 := mkWorld (disk w)
                 (mkState
                    (decode_fat (read_clusters (disk w) FAT_CLUSTER_NUMBER 1))
                    (dir_table_buf (state w)) (cluster_buf (state w)))).
    assert (E : initialize_filesystem_fat32 w = w1)
      by (unfold initialize_filesystem_fat32; rewrite Hw; reflexivity).
    assert (Hw1 : is_empty_storage w1 = false)
      by (rewrite <- Hw; apply is_empty_storage_disk; reflexivity).
    rewrite E. unfold is_formatted. rewrite Hw1.
    split; [reflexivity|]. split; [reflexivity|].
    unfold initialize_filesystem_fat32. rewrite Hw1. reflexivity.
Qed.

Lemma initialize_twice_witness :
  initialize_filesystem_fat32 formatted_world = formatted_world.
Proof.
  destruct (initialize_twice fresh_world eq_refl) as (_ & _ & H).
  unfold formatted_world. exact H.
Defined.

(** ** Lookups *)

(** X3: [read] issues no write and assigns no FAT entry, whatever it
    returns: the device, the cached FAT and the cluster buffer are as
    before and the scratch table holds the parent's table; a call that
    returns a status other than 0 leaves the caller's buffer as it was, and
    a slot whose size exceeds the request's 32-bit [buffer_size] is
    answered with 2 before any cluster is copied. *)
Theorem read_never_writes (fuel : nat) (request : FAT32DriverRequest)
    (w : World) (status : Z) (b : list byte) (w' : World) :
  read fuel request w = Some (status, b, w') ->
  let t := decode_table
             (read_clusters (disk w) (parent_cluster_number request) 1) in
  disk w' = disk w /\
  fat_table (state w') = fat_table (state w) /\
  cluster_buf (state w') = cluster_buf (state w) /\
  dir_table_buf (state w') = t /\
  (status <> 0 -> b = buf request) /\
  (forall i e, parent_is_folder t = true ->
     find_entry request t = Some (i, e) ->
     attribute e <> ATTR_SUBDIRECTORY ->
     to_uint32 (buffer_size request) < filesize e -> status = 2).
Proof.
  cbv zeta. unfold read, load_dir_table.
  generalize
    (decode_table (read_clusters (disk w) (parent_cluster_number request) 1)).
  intros t. unfold read_in, with_dir_table.
  cbn [disk state dir_table_buf fat_table cluster_buf].
  intros H.
  assert (Hw : w' = mkWorld (disk w)
                      (mkState (fat_table (state w)) t
                               (cluster_buf (state w))) /\
               (status <> 0 -> b = buf request)).
  { destruct (negb (parent_is_folder t));
      [injection H as <- <- <-; split; [reflexivity | tauto]|].
    destruct (find_entry request t) as [[i e]|];
      [|injection H as <- <- <-; split; [reflexivity | tauto]].
    destruct (negb (negb _));
      [injection H as <- <- <-; split; [reflexivity | tauto]|].
    destruct (negb _);
      [injection H as <- <- <-; split; [reflexivity | tauto]|].
    destruct (read_chain _ _ _ _ _ _); [|discriminate].
    injection H as <- <- <-. split; [reflexivity | intros Hs; lia]. }
  destruct Hw as [-> Hb]. cbn [disk state dir_table_buf fat_table cluster_buf].
  do 4 (split; [reflexivity|]). split; [exact Hb|].
  intros i e Hparent Hfind Hfile Hsize.
  rewrite Hparent, Hfind in H. cbn [negb] in H.
  apply Z.eqb_neq in Hfile. rewrite Hfile in H. cbn [negb] in H.
  replace (filesize e <=? to_uint32 (buffer_size request)) with false in H
    by (symmetry; apply Z.leb_gt; exact Hsize).
  cbn [negb] in H. injection H as <- _. reflexivity.
Qed.

Lemma read_never_writes_witness :
  exists b w',
    read 2 (file1_request [] 100) sample_world = Some (2, b, w') /\
    disk w' = disk sample_world /\ b = [].
Proof.
  assert (Hs : read_outcome (read 2 (file1_request [] 100) sample_world)
               <> None) by (vm_compute; discriminate).
  destruct (read 2 (file1_request [] 100) sample_world)
    as [[[s b] w']|] eqn:E; [|exfalso; apply Hs; reflexivity].
  pose proof (read_never_writes 2 (file1_request [] 100) sample_world
                s b w' E) as H.
  cbv zeta in H. destruct H as (Hd & _ & _ & _ & Hb & Hsmall).
  assert (Hstatus : s = 2).
  { apply (Hsmall 1 file1_entry).
    - vm_compute. reflexivity.
    - vm_compute. reflexivity.
    - vm_compute. discriminate.
    - vm_compute. reflexivity. }
  subst s. exists b, w'. split; [reflexivity|]. split; [exact Hd|].
  apply Hb. discriminate.
Defined.

(** X4: [read_directory] issues no write either.  It returns 0 exactly
    when the parent's slot 0 is a subdirectory and the first slot that
    matches the key is a subdirectory too, and then the scratch table holds
    the cluster that this slot names; on every other status the scratch
    table holds the parent's table. *)
Theorem read_directory_loads_child (request : FAT32DriverRequest)
    (w : World) (status : Z) (w' : World) :
  read_directory request w = (status, w') ->
  let t := decode_table
             (read_clusters (disk w) (parent_cluster_number request) 1) in
  disk w' = disk w /\
  fat_table (state w') = fat_table (state w) /\
  cluster_buf (state w') = cluster_buf (state w) /\
  (status <> 0 -> dir_table_buf (state w') = t) /\
  (status = 0 <->
   parent_is_folder t = true /\
   exists i e, find_entry request t = Some (i, e) /\
               attribute e = ATTR_SUBDIRECTORY) /\
  (forall i e, find_entry request t = Some (i, e) -> status = 0 ->
     dir_table_buf (state w')
     = decode_table (read_clusters (disk w) (entry_cluster e) 1)).
Proof.
  cbv zeta. unfold read_directory, load_dir_table.
  generalize
    (decode_table (read_clusters (disk w) (parent_cluster_number request) 1)).
  intros t. unfold read_directory_in, with_dir_table, load_dir_table,
    with_dir_table.
  cbn [disk state dir_table_buf fat_table cluster_buf].
  destruct (parent_is_folder t); cbn [negb].
  2:{ intros H. injection H as <- <-.
      cbn [disk state dir_table_buf fat_table cluster_buf].
      do 3 (split; [reflexivity|]). split; [reflexivity|].
      split; [|intros; lia].
      split; [intros; lia | intros [? _]; discriminate]. }
  destruct (find_entry request t) as [[i e]|].
  2:{ intros H. injection H as <- <-.
      cbn [disk state dir_table_buf fat_table cluster_buf].
      do 3 (split; [reflexivity|]). split; [reflexivity|].
      split; [|intros; discriminate].
      split; [intros; lia | intros [_ (? & ? & ? & _)]; discriminate]. }
  destruct (attribute e =? ATTR_SUBDIRECTORY) eqn:Edir; cbn [negb].
  - intros H. injection H as <- <-.
    cbn [disk state dir_table_buf fat_table cluster_buf].
    do 3 (split; [reflexivity|]). split; [intros; lia|].
    split.
    + split; [|reflexivity]. intros _. split; [reflexivity|].
      exists i, e. split; [reflexivity | apply Z.eqb_eq, Edir].
    + intros i' e' Heq _. injection Heq as _ <-. reflexivity.
  - intros H. injection H as <- <-.
    cbn [disk state dir_table_buf fat_table cluster_buf].
    do 3 (split; [reflexivity|]). split; [reflexivity|].
    split; [|intros; lia].
    split; [intros; lia|]. intros [_ (i' & e' & Heq & Hattr)].
    injection Heq as _ <-. apply Z.eqb_neq in Edir. contradiction.
Qed.

Lemma read_directory_loads_child_witness :
  disk (snd (read_directory root_request formatted_world))
  = disk formatted_world.
Proof.
  destruct (read_directory root_request formatted_world) as [s w'] eqn:E.
  pose proof (read_directory_loads_child root_request formatted_world
                s w' E) as H.
  cbv zeta in H. destruct H as (Hd & _). exact Hd.
Defined.

(** ** What the device holds after an update *)

Lemma persisted_fat (m : list Z) (d : Disk) :
  wf_fat m ->
  decode_fat
    (read_clusters (write_clusters (encode_fat m) FAT_CLUSTER_NUMBER 1 d)
                   FAT_CLUSTER_NUMBER 1) = m.
Proof.
  intros Hwf. rewrite read_write_clusters. apply decode_fat_encode_fat, Hwf.
Qed.

Lemma persisted_table (t : list FAT32DirectoryEntry) (c : Z) (m : list Z)
    (d : Disk) :
  wf_table t ->
  cluster_to_lba c <> cluster_to_lba FAT_CLUSTER_NUMBER ->
  decode_table
    (read_clusters
       (write_clusters (encode_fat m) FAT_CLUSTER_NUMBER 1
          (write_clusters (encode_table t) c 1 d)) c 1) = t.
Proof.
  intros Hwf Hne. rewrite read_other_clusters by exact Hne.
  rewrite read_write_clusters. apply decode_table_encode_table, Hwf.
Qed.

Lemma wf_table_insert (t : list FAT32DirectoryEntry) (i : nat)
    (e : FAT32DirectoryEntry) :
  wf_table t -> wf_entry e -> wf_table (<[i := e]> t).
Proof.
  intros [Hlen Hall] He. split; [rewrite length_insert; exact Hlen|].
  apply Forall_insert; assumption.
Qed.

Lemma wf_table_lookup (t : list FAT32DirectoryEntry) (i : nat)
    (e : FAT32DirectoryEntry) :
  wf_table t -> t !! i = Some e -> wf_entry e.
Proof.
  intros [_ Hall] He. rewrite List.Forall_forall in Hall. apply Hall.
  apply list_elem_of_In, list_elem_of_lookup. eauto.
Qed.

(** A scan over slots none of which matches finds nothing. *)
Lemma scan_entries_all_false nm ex t : forall i,
  (forall e, In e t -> is_match e nm ex = false) ->
  scan_entries nm ex i t = None.
Proof.
  induction t as [|x t IH]; intros i H; cbn [scan_entries]; [reflexivity|].
  rewrite (H x (or_introl eq_refl)). apply IH. intros e He. apply H.
  right. exact He.
Qed.

(** The statuses of the four operations on a folder without a slot for
    the key. *)
Lemma not_found_statuses (fuel : nat) (request : FAT32DriverRequest)
    (w1 : World) :
  parent_is_folder (dir_table_buf (state w1)) = true ->
  find_entry request (dir_table_buf (state w1)) = None ->
  fst (read_directory_in request w1) = 2 /\
  read_outcome (read_in fuel request w1) = Some (3, buf request) /\
  delete_status (delete_in fuel request w1) = Some 1 /\
  fst (write_in request w1) <> 1.
Proof.
  intros Hparent Hfind.
  unfold read_directory_in, read_in, delete_in, write_in. cbv zeta.
  rewrite Hparent, Hfind. cbn [negb].
  split; [reflexivity|]. split; [reflexivity|]. split; [reflexivity|].
  destruct (_ <? _); [cbn [fst]; lia|].
  destruct (if _ =? 0 then _ else _) as [e [m' d']]. cbn [fst]. lia.
Qed.

(** X5: a [write] or [delete] that returns 0 has written its FAT through:
    the FAT read back from the FAT cluster is the cached one, and, when the
    parent cluster is not mapped to the blocks of the FAT cluster, the
    table read back from the parent cluster is the scratch table. *)
Theorem update_is_written_through (op : operation) (fuel : nat)
    (request : FAT32DriverRequest) (w w' : World) :
  op = WriteEntry \/ op = DeleteEntry ->
  wf_fat (fat_table (state w)) ->
  run op fuel request w = Some (0, w') ->
  decode_fat (read_clusters (disk w') FAT_CLUSTER_NUMBER 1)
  = fat_table (state w') /\
  (cluster_to_lba (parent_cluster_number request)
   <> cluster_to_lba FAT_CLUSTER_NUMBER ->
   decode_table
     (read_clusters (disk w') (parent_cluster_number request) 1)
   = dir_table_buf (state w')).
Proof.
  intros Hop Hwf. unfold run, load_dir_table.
  pose proof (wf_decode_table
                (read_clusters (disk w) (parent_cluster_number request) 1))
    as Ht. revert Ht.
  generalize
    (decode_table (read_clusters (disk w) (parent_cluster_number request) 1)).
  intros t Ht. destruct Hop as [-> | ->]; cbn [run_in]; intros H.
  - injection H as H. apply write_in_success in H.
    destruct H as (_ & _ & e & m' & d' & Hstate & Hdisk & Hwf').
    unfold with_dir_table in *.
    cbn [disk state dir_table_buf fat_table cluster_buf] in *.
    rewrite Hstate, Hdisk, table_store_fat, table_store_directory_size.
    cbn [fat_table dir_table_buf].
    split; [apply persisted_fat, Hwf', Hwf|].
    intros Hne. apply persisted_table; assumption.
  - apply delete_in_success in H.
    destruct H as (_ & i & e & m' & Hfind & Hfree & Hstate & Hdisk).
    unfold with_dir_table in *.
    cbn [disk state dir_table_buf fat_table cluster_buf] in *.
    rewrite Hstate, Hdisk. cbn [fat_table dir_table_buf].
    split; [apply persisted_fat; exact (wf_free_chain _ _ _ _ Hfree Hwf)|].
    intros Hne. apply persisted_table; [|exact Hne].
    apply wf_table_insert; [exact Ht|]. apply wf_tombstone.
    destruct (find_entry_slot _ _ _ _ Hfind) as [_ Hslot].
    exact (wf_table_lookup _ _ _ Ht Hslot).
Qed.

Lemma update_is_written_through_witness :
  let w' := world_after (run DeleteEntry 2 (file1_request [] 0) sample_world)
                        sample_world in
  decode_fat (read_clusters (disk w') FAT_CLUSTER_NUMBER 1)
  = fat_table (state w').
Proof.
  intros w'.
  assert (Hs : option_map fst
                 (run DeleteEntry 2 (file1_request [] 0) sample_world)
               = Some 0) by (vm_compute; reflexivity).
  assert (Hrun : run DeleteEntry 2 (file1_request [] 0) sample_world
                 = Some (0, w')).
  { unfold w'.
    destruct (run DeleteEntry 2 (file1_request [] 0) sample_world)
      as [[s w1]|]; [|discriminate Hs].
    injection Hs as ->. reflexivity. }
  exact (proj1 (update_is_written_through DeleteEntry 2 (file1_request [] 0)
                  sample_world w' (or_intror eq_refl) sample_world_fat
                  Hrun)).
Defined.

(** X6: the entry that a successful [write] creates is in no slot of the
    parent's table.  When the parent cluster is not mapped to the blocks of
    the FAT cluster, the table on the device is the one from before the
    call, so that a following lookup with the same key in the same parent
    reports that nothing is found: [read_directory] returns 2, [read]
    returns 3 and leaves the buffer alone, [delete] returns 1 and [write]
    does not report a duplicate. *)
Theorem written_entry_is_not_found (fuel : nat)
    (request request' : FAT32DriverRequest) (w w' : World) :
  write request w = (0, w') ->
  cluster_to_lba (parent_cluster_number request)
  <> cluster_to_lba FAT_CLUSTER_NUMBER ->
  req_name request' = req_name request ->
  req_ext request' = req_ext request ->
  parent_cluster_number request' = parent_cluster_number request ->
  decode_table (read_clusters (disk w') (parent_cluster_number request) 1)
  = decode_table (read_clusters (disk w) (parent_cluster_number request) 1) /\
  fst (read_directory request' w') = 2 /\
  read_outcome (read fuel request' w') = Some (3, buf request') /\
  delete_status (delete fuel request' w') = Some 1 /\
  fst (write request' w') <> 1.
Proof.
  intros H Hne Hname Hext Hparent'.
  unfold read_directory, read, delete, write, load_dir_table.
  rewrite Hparent'.
  assert (Hsame : decode_table
                    (read_clusters (disk w')
                                   (parent_cluster_number request) 1)
                  = decode_table
                      (read_clusters (disk w)
                                     (parent_cluster_number request) 1) /\
                  parent_is_folder
                    (decode_table
                       (read_clusters (disk w)
                                      (parent_cluster_number request) 1))
                  = true /\
                  find_entry request
                    (decode_table
                       (read_clusters (disk w)
                                      (parent_cluster_number request) 1))
                  = None).
  { revert H. unfold write, load_dir_table.
    pose proof (wf_decode_table
                  (read_clusters (disk w) (parent_cluster_number request) 1))
      as Ht. revert Ht.
    generalize
      (decode_table
         (read_clusters (disk w) (parent_cluster_number request) 1)).
    intros t Ht H. apply write_in_success in H.
    destruct H as (Hparent & Hfind & e & m' & d' & _ & Hdisk & _).
    unfold with_dir_table in *.
    cbn [disk state dir_table_buf fat_table cluster_buf] in *.
    rewrite Hdisk. split; [apply persisted_table; assumption|].
    split; assumption. }
  destruct Hsame as (Hsame & Hparent & Hfind). rewrite Hsame.
  split; [reflexivity|].
  revert Hparent Hfind.
  generalize
    (decode_table (read_clusters (disk w) (parent_cluster_number request) 1)).
  intros t Hparent Hfind.
  apply not_found_statuses.
  - exact Hparent.
  - unfold find_entry in *. rewrite Hname, Hext. exact Hfind.
Qed.

Lemma written_entry_is_not_found_witness :
  let w' := snd (write (file1_request [x41] 1) formatted_world) in
  read_outcome (read 1 (file1_request [] 1) w') = Some (3, []).
Proof.
  intros w'.
  assert (Hs : fst (write (file1_request [x41] 1) formatted_world) = 0)
    by (vm_compute; reflexivity).
  assert (Hw : write (file1_request [x41] 1) formatted_world = (0, w')).
  { unfold w'.
    destruct (write (file1_request [x41] 1) formatted_world) as [s w1].
    cbn [fst snd] in *. rewrite Hs. reflexivity. }
  assert (Hne : cluster_to_lba
                  (parent_cluster_number (file1_request [x41] 1))
                <> cluster_to_lba FAT_CLUSTER_NUMBER)
    by (vm_compute; discriminate).
  destruct (written_entry_is_not_found 1 (file1_request [x41] 1)
              (file1_request [] 1) formatted_world w' Hw Hne
              eq_refl eq_refl eq_refl) as (_ & _ & H & _).
  exact H.
Defined.






Lemma to_int32_small_signed (a : Z) :
  - 2 ^ 31 <= a < 2 ^ 31 -> to_int32 a = a.
Proof.
  intros Ha. unfold to_int32, to_uint32. cbv zeta.
  destruct (Z.lt_ge_cases a 0) as [Hneg|Hpos].
  - replace (a mod 2 ^ 32) with (a + 2 ^ 32)
      by (apply (Z.mod_unique _ _ (-1)); lia).
    destruct (_ <? _) eqn:E; [apply Z.ltb_lt in E; lia | lia].
  - rewrite Z.mod_small by lia.
    destruct (_ <? _) eqn:E; [reflexivity | apply Z.ltb_ge in E; lia].
Qed.

(** ** The ceiling division *)

(** X8: for a 32-bit signed dividend [a] and a positive divisor [b],
    [ceil_div a b] is the ceiling of [a / b] when [a] is not negative, and
    also when [b] divides [a]; for a negative [a] that [b] does not divide
    it is one more than the ceiling, since C division already rounds
    toward zero. *)
Theorem ceil_div_is_ceiling (a b : Z) :
  - 2 ^ 31 <= a < 2 ^ 31 ->
  0 < b < 2 ^ 31 ->
  ceil_div a b
  = ceil_spec a b + (if (a <? 0) && negb (a mod b =? 0) then 1 else 0).
Proof.
  intros Ha Hb. unfold ceil_div, ceil_spec.
  pose proof (Z.div_mod a b ltac:(lia)) as Hdm.
  pose proof (Z.mod_pos_bound a b ltac:(lia)) as Hr.
  set (q := a / b) in *. set (r := a mod b) in *.
  assert (Hceil : (a + b - 1) / b = q + (if r =? 0 then 0 else 1)).
  { destruct (r =? 0) eqn:E.
    - apply Z.eqb_eq in E. symmetry. apply (Z.div_unique _ _ _ (b - 1)); lia.
    - apply Z.eqb_neq in E. symmetry. apply (Z.div_unique _ _ _ (r - 1)); lia. }
  rewrite Hceil.
  assert (Hqlo : - 2 ^ 31 <= q)
    by (apply Z.div_le_lower_bound; nia).
  assert (Hqhi : q <= a \/ q <= 0)
    by (destruct (Z.lt_ge_cases a 0);
        [right; apply Z.lt_succ_r, Z.div_lt_upper_bound; lia
        | left; apply Z.div_le_upper_bound; nia]).
  destruct (a <? 0) eqn:Eneg; cbn [andb].
  - apply Z.ltb_lt in Eneg.
    replace a with (- - a) at 1 2 by lia.
    rewrite Z.quot_opp_l, Z.rem_opp_l by lia.
    rewrite Z.quot_div_nonneg, Z.rem_mod_nonneg by lia.
    destruct (r =? 0) eqn:E; cbn [negb].
    + apply Z.eqb_eq in E.
      assert (Hq : - a / b = - q)
        by (symmetry; apply (Z.div_unique _ _ _ 0); lia).
      assert (Hrem : (- a) mod b = 0)
        by (symmetry; apply (Z.mod_unique _ _ (- q)); lia).
      rewrite Hq, Hrem. change (- 0 =? 0) with true. cbv iota.
      rewrite to_int32_small_signed; lia.
    + apply Z.eqb_neq in E.
      assert (Hq : - a / b = - q - 1)
        by (symmetry; apply (Z.div_unique _ _ _ (b - r)); lia).
      assert (Hrem : (- a) mod b = b - r)
        by (symmetry; apply (Z.mod_unique _ _ (- q - 1)); lia).
      rewrite Hq, Hrem.
      replace (- (b - r) =? 0) with false by (symmetry; apply Z.eqb_neq; lia).
      rewrite to_int32_small_signed; lia.
  - apply Z.ltb_ge in Eneg.
    rewrite Z.quot_div_nonneg, Z.rem_mod_nonneg by lia.
    fold q r. rewrite Z.add_0_r.
    assert (0 <= q) by (apply Z.div_pos; lia).
    rewrite to_int32_small_signed; [reflexivity|].
    destruct (r =? 0) eqn:E; [lia|]. apply Z.eqb_neq in E.
    assert (2 <= b) by lia. assert (q < 2 ^ 30); [|lia].
    apply Z.div_lt_upper_bound; lia.
Qed.

Lemma ceil_div_is_ceiling_witness :
  ceil_div 3000 2048 = 2 /\ ceil_div (-1) 2048 = 1.
Proof.
  split.
  - rewrite (ceil_div_is_ceiling 3000 2048) by lia. reflexivity.
  - rewrite (ceil_div_is_ceiling (-1) 2048) by lia. reflexivity.
Defined.

(** ** Directory tables *)

Lemma land_ones16_range (p : Z) : 0 <= Z.land p 0xFFFF < 2 ^ 16.
Proof.
  change 0xFFFF with (Z.ones 16). rewrite Z.land_ones by lia.
  apply Z.mod_pos_bound. lia.
Qed.

Lemma wf_zero_entry : wf_entry zero_entry.
Proof. unfold wf_entry, zero_entry. cbn. lia. Qed.

Lemma wf_zero_table : wf_table zero_table.
Proof.
  split; [apply repeat_length|]. apply List.Forall_forall. intros e He.
  apply repeat_spec in He. subst e. apply wf_zero_entry.
Qed.

Lemma wf_table_get (t : list FAT32DirectoryEntry) (i : Z) :
  wf_table t -> wf_entry (table_get t i).
Proof.
  intros Ht. unfold table_get. rewrite nth_lookup.
  destruct (t !! Z.to_nat i) as [e|] eqn:E;
    [exact (wf_table_lookup _ _ _ Ht E) | apply wf_zero_entry].
Qed.

Lemma wf_init_directory_table (t : list FAT32DirectoryEntry)
    (nm : list byte) (p : Z) :
  wf_table t -> wf_table (init_directory_table t nm p).
Proof.
  intros Ht. unfold init_directory_table. cbv zeta.
  apply wf_table_insert; [exact Ht|].
  pose proof (wf_table_get t 0 Ht) as He. unfold wf_entry in *.
  cbn [name ext attribute user_attribute undelete create_time create_date
       access_date cluster_high modified_time modified_date cluster_low
       filesize].
  rewrite length_bytes_n.
  pose proof (land_ones16_range p).
  pose proof (land_ones16_range (Z.shiftr p 16)).
  unfold ATTR_SUBDIRECTORY, UATTR_NOT_EMPTY. intuition lia.
Qed.




(** ** Statuses of [write] *)

(** Some slot of the table carries the key. *)
Lemma find_entry_present (request : FAT32DriverRequest)
    (t : list FAT32DirectoryEntry) :
  length t = Z.to_nat directory_size ->
  (exists i e, find_entry request t = Some (i, e))
  <-> exists j, 0 <= j < directory_size /\
                is_match (table_get t j) (req_name request)
                         (req_ext request) = true.
Proof.
  intros Hlen. split.
  - intros (i & e & Hfind).
    destruct (find_entry_slot _ _ _ _ Hfind) as [Hi Hslot].
    exists i. split; [exact Hi|].
    unfold find_entry in Hfind. apply scan_entries_first in Hfind.
    destruct Hfind as (_ & _ & Hm & _).
    unfold table_get. rewrite nth_lookup, Hslot. exact Hm.
  - intros (j & Hj & Hm).
    destruct (find_entry_first request t j Hj) as (i & e & Hfind & _);
      [rewrite Hlen; lia | exact Hm |].
    exists i, e. exact Hfind.
Qed.

Lemma write_in_status (request : FAT32DriverRequest) (w1 : World) :
  let t := dir_table_buf (state w1) in
  let cluster_count :=
    to_uint32
      (ceil_div (to_int32 (to_uint32 (buffer_size request))) CLUSTER_SIZE) in
  let cluster_available :=
    Z.of_nat (length (free_clusters 2 (fat_table (state w1)))) in
  fst (write_in request w1)
  = if negb (parent_is_folder t) then -1
    else match find_entry request t with
         | Some _ => 1
         | None => if cluster_available <? cluster_count then -1 else 0
         end.
Proof.
  cbv zeta. unfold write_in. cbv zeta.
  destruct (negb _); [reflexivity|].
  destruct (find_entry _ _); [reflexivity|].
  destruct (_ <? _); [reflexivity|].
  destruct (if _ =? 0 then _ else _) as [e [m' d']]. reflexivity.
Qed.

(** X10: the status of [write].  It is 1 exactly when the parent's slot 0
    is a subdirectory and some slot of the parent's table carries the key;
    0 exactly when the parent is such a folder, no slot carries the key and
    the cluster count computed from the 32-bit size does not exceed the
    number of empty FAT entries from cluster 2 on; -1 in the remaining
    cases.  For size 0, a directory, the computed count is 0, so that a
    directory is never refused for lack of space. *)
Theorem write_status (request : FAT32DriverRequest) (w : World) :
  let t := decode_table
             (read_clusters (disk w) (parent_cluster_number request) 1) in
  let cluster_count :=
    to_uint32
      (ceil_div (to_int32 (to_uint32 (buffer_size request))) CLUSTER_SIZE) in
  let cluster_available :=
    Z.of_nat (length (free_clusters 2 (fat_table (state w)))) in
  let present :=
    exists j, 0 <= j < directory_size /\
              is_match (table_get t j) (req_name request) (req_ext request)
              = true in
  (fst (write request w) = 1 <-> parent_is_folder t = true /\ present) /\
  (fst (write request w) = 0 <->
   parent_is_folder t = true /\ ~ present /\
   cluster_count <= cluster_available) /\
  (fst (write request w) = -1 <->
   parent_is_folder t = false \/
   ~ present /\ cluster_available < cluster_count) /\
  (to_uint32 (buffer_size request) = 0 -> cluster_count = 0).
Proof.
  cbv zeta. unfold write, load_dir_table.
  pose proof (length_decode_table
                (read_clusters (disk w) (parent_cluster_number request) 1))
    as Hlen. revert Hlen.
  generalize
    (decode_table (read_clusters (disk w) (parent_cluster_number request) 1)).
  intros t Hlen. rewrite write_in_status. unfold with_dir_table.
  cbn [disk state dir_table_buf fat_table cluster_buf].
  pose proof (find_entry_present request t Hlen) as Hp.
  split; [|split; [|split]].
  - destruct (parent_is_folder t); cbn [negb];
      [|split; [lia | intros [? _]; discriminate]].
    destruct (find_entry request t) as [[i e]|].
    + split; [|reflexivity]. intros _. split; [reflexivity|].
      apply Hp. eauto.
    + split; [destruct (_ <? _); lia|]. intros [_ Hpres].
      apply Hp in Hpres. destruct Hpres as (i & e & ?). discriminate.
  - destruct (parent_is_folder t); cbn [negb];
      [|split; [lia | intros [? _]; discriminate]].
    destruct (find_entry request t) as [[i e]|].
    + split; [lia|]. intros (_ & Hn & _). exfalso. apply Hn, Hp. eauto.
    + destruct (_ <? _) eqn:E.
      * apply Z.ltb_lt in E. split; [lia | intros (_ & _ & ?); lia].
      * apply Z.ltb_ge in E. split; [|reflexivity]. intros _.
        split; [reflexivity|]. split; [|exact E].
        intros Hpres. apply Hp in Hpres. destruct Hpres as (i & e & ?).
        discriminate.
  - destruct (parent_is_folder t); cbn [negb];
      [|split; [intros _; left; reflexivity | reflexivity]].
    destruct (find_entry request t) as [[i e]|].
    + split; [lia|]. intros [?|[Hn _]]; [discriminate|].
      exfalso. apply Hn, Hp. eauto.
    + destruct (_ <? _) eqn:E.
      * apply Z.ltb_lt in E. split; [|reflexivity]. intros _. right.
        split; [|exact E]. intros Hpres. apply Hp in Hpres.
        destruct Hpres as (i & e & ?). discriminate.
      * apply Z.ltb_ge in E. split; [lia|].
        intros [?|[_ ?]]; [discriminate | lia].
  - intros ->. reflexivity.
Qed.

Lemma write_status_witness :
  to_uint32
    (ceil_div (to_int32 (to_uint32 (buffer_size dir_request))) CLUSTER_SIZE)
  = 0.
Proof.
  pose proof (write_status dir_request formatted_world) as H.
  cbv zeta in H. destruct H as (_ & _ & _ & H). apply H. reflexivity.
Defined.

(** ** The root directory of a new file system *)

Lemma create_fat32_root_table (w : World) :
  decode_table
    (read_clusters (disk (create_fat32 w)) ROOT_CLUSTER_NUMBER 1)
  = init_directory_table zero_table (ascii_bytes [114; 111; 111; 116])
                         ROOT_CLUSTER_NUMBER.
Proof.
  unfold create_fat32. cbn [disk]. rewrite read_write_clusters.
  apply decode_table_encode_table, wf_init_directory_table, wf_zero_table.
Qed.

(** A key whose name is neither the root's nor all zero bytes is in no slot
    of a new root table. *)
Lemma find_entry_new_root (request : FAT32DriverRequest) :
  bytes_n 8 (req_name request)
  <> bytes_n 8 (ascii_bytes [114; 111; 111; 116]) ->
  bytes_n 8 (req_name request) <> repeat x00 8 ->
  find_entry request
    (init_directory_table zero_table (ascii_bytes [114; 111; 111; 116])
                          ROOT_CLUSTER_NUMBER) = None.
Proof.
  intros Hroot Hzero. unfold find_entry. apply scan_entries_all_false.
  intros e He.
  assert (Hname : name e = bytes_n 8 (ascii_bytes [114; 111; 111; 116]) \/
                  name e = repeat x00 8).
  { revert He.
    change (firstn (Z.to_nat directory_size)
              (init_directory_table zero_table
                 (ascii_bytes [114; 111; 111; 116]) ROOT_CLUSTER_NUMBER))
      with (table_get
              (init_directory_table zero_table
                 (ascii_bytes [114; 111; 111; 116]) ROOT_CLUSTER_NUMBER) 0
            :: repeat zero_entry 63).
    intros [<-|He]; [left; reflexivity|].
    apply repeat_spec in He. subst e. right. reflexivity. }
  destruct (is_match e (req_name request) (req_ext request)) eqn:Hm;
    [|reflexivity].
  apply is_match_iff in Hm. destruct Hm as [Hm _].
  exfalso. destruct Hname as [Hn|Hn]; rewrite Hn in Hm.
  - apply Hroot. rewrite <- Hm. reflexivity.
  - apply Hzero. rewrite <- Hm. reflexivity.
Qed.

(** X11: right after [create_fat32] the root directory is an empty folder
    and 509 clusters are free.  Whatever the device held before, a lookup
    in the root with a name other than the root's own and other than eight
    zero bytes finds nothing: [read_directory] returns 2, [read] returns 3
    and [delete] returns 1; a [write] of such a name is accepted when its
    size is at most 509 clusters. *)
Theorem new_root_is_empty (fuel : nat) (request : FAT32DriverRequest)
    (w : World) :
  length (fat_table (state w)) = Z.to_nat CLUSTER_MAP_SIZE ->
  parent_cluster_number request = ROOT_CLUSTER_NUMBER ->
  bytes_n 8 (req_name request)
  <> bytes_n 8 (ascii_bytes [114; 111; 111; 116]) ->
  bytes_n 8 (req_name request) <> repeat x00 8 ->
  let w' := create_fat32 w in
  fst (read_directory request w') = 2 /\
  read_outcome (read fuel request w') = Some (3, buf request) /\
  delete_status (delete fuel request w') = Some 1 /\
  length (free_clusters 2 (fat_table (state w'))) = 509%nat /\
  (0 <= buffer_size request <= 509 * CLUSTER_SIZE ->
   fst (write request w') = 0).
Proof.
  intros Hlen Hparent Hroot Hzero. cbv zeta.
  pose proof (create_fat32_cluster_map w Hlen) as Hmap.
  assert (Hfree : length (free_clusters 2 (fat_table (state (create_fat32 w))))
                  = 509%nat) by (rewrite Hmap; vm_compute; reflexivity).
  unfold read_directory, read, delete, write, load_dir_table.
  rewrite Hparent, create_fat32_root_table.
  pose proof (find_entry_new_root request Hroot Hzero) as Hfind.
  assert (Hfolder : parent_is_folder
                      (init_directory_table zero_table
                         (ascii_bytes [114; 111; 111; 116])
                         ROOT_CLUSTER_NUMBER) = true) by reflexivity.
  revert Hfind Hfolder.
  generalize (init_directory_table zero_table
                (ascii_bytes [114; 111; 111; 116]) ROOT_CLUSTER_NUMBER).
  intros t Hfind Hfolder.
  destruct (not_found_statuses fuel request (with_dir_table t (create_fat32 w))
              Hfolder Hfind) as (H1 & H2 & H3 & _).
  split; [exact H1|]. split; [exact H2|]. split; [exact H3|].
  split; [exact Hfree|]. intros Hsize.
  rewrite write_in_status. unfold with_dir_table.
  cbn [state dir_table_buf fat_table]. rewrite Hfolder, Hfind. cbn [negb].
  assert (Hcount : to_uint32
                     (ceil_div (to_int32 (to_uint32 (buffer_size request)))
                               CLUSTER_SIZE) <= 509).
  { destruct (Z.eq_dec (buffer_size request) 0) as [->|Hne];
      [vm_compute; discriminate|].
    unfold CLUSTER_SIZE, BLOCK_SIZE, CLUSTER_BLOCK_COUNT in Hsize.
    rewrite ceil_div_small by lia.
    unfold ceil_spec, CLUSTER_SIZE, BLOCK_SIZE, CLUSTER_BLOCK_COUNT.
    change (512 * 4) with 2048.
    apply Z.lt_succ_r, Z.div_lt_upper_bound; lia. }
  match goal with
  | |- (if ?c then _ else _) = _ =>
      replace c with false; [reflexivity|]
  end.
  symmetry. apply Z.ltb_ge.
  match goal with
  | |- _ <= Z.of_nat (length (free_clusters 2 ?m)) =>
      change m with (fat_table (state (create_fat32 w)))
  end.
  rewrite Hfree. lia.
Qed.

Lemma new_root_is_empty_witness :
  read_outcome (read 0 (file1_request [] 0) (create_fat32 fresh_world))
  = Some (3, []).
Proof.
  assert (H1 : bytes_n 8 (req_name (file1_request [] 0))
               <> bytes_n 8 (ascii_bytes [114; 111; 111; 116]))
    by (vm_compute; discriminate).
  assert (H2 : bytes_n 8 (req_name (file1_request [] 0)) <> repeat x00 8)
    by (vm_compute; discriminate).
  pose proof (new_root_is_empty 0 (file1_request [] 0) fresh_world
                eq_refl eq_refl H1 H2) as H.
  cbv zeta in H. destruct H as (_ & H & _). exact H.
Defined.

(** ** The payload of a file *)

Lemma cluster_to_lba_inj (c c' : Z) :
  0 <= c < 2 ^ 30 -> 0 <= c' < 2 ^ 30 ->
  cluster_to_lba c = cluster_to_lba c' -> c = c'.
Proof.
  intros Hc Hc'. rewrite !cluster_to_lba_eq, !Z.mod_small by lia.
  unfold CLUSTER_BLOCK_COUNT. lia.
Qed.

(** The device after the allocation loop: iteration [j] writes the [j]-th
    cluster-sized piece of the payload to the [j]-th collected cluster, and
    no other cluster changes. *)
Lemma write_chain_disk (E : list Z) (src : list byte) (k : nat) :
  List.NoDup E ->
  (forall x, In x E -> 0 <= x < 2 ^ 30) ->
  forall (n i : nat) (md : list Z * Disk),
  (i + n = k)%nat ->
  (k <= length E)%nat ->
  let d' := snd (write_chain n (Z.of_nat i) (Z.of_nat k) E src md) in
  (forall j x, (i <= j < k)%nat -> E !! j = Some x ->
     read_clusters d' x 1
     = bytes_at (to_uint32 (Z.of_nat j * CLUSTER_SIZE))
                (Z.to_nat CLUSTER_SIZE) src) /\
  (forall c : Z,
     (forall j x, (i <= j < k)%nat -> E !! j = Some x ->
                  cluster_to_lba c <> cluster_to_lba x) ->
     read_clusters d' c 1 = read_clusters (snd md) c 1).
Proof.
  intros Hnd Hrange. induction n as [|n IH]; intros i md Hik Hk d'.
  - split; [intros j x Hj; lia | reflexivity].
  - subst d'. cbn [write_chain].
    replace (Z.of_nat i + 1) with (Z.of_nat (S i)) by lia.
    rewrite Nat2Z.id.
    destruct (E !! i) as [c|] eqn:Hc;
      [|apply lookup_ge_None in Hc; lia].
    rewrite (nth_lookup_Some _ _ _ _ Hc).
    match goal with
    | |- context [write_chain n _ _ E src ?md1] =>
        destruct (IH (S i) md1) as (IHin & IHout); [lia | exact Hk |]
    end.
    cbn [fst snd] in *.
    assert (Hc_in : In c E)
      by (apply list_elem_of_In, list_elem_of_lookup; eauto).
    split.
    + intros j x Hj Hx. destruct (Nat.eq_dec j i) as [->|Hne].
      * assert (x = c) by congruence. subst x.
        rewrite IHout.
        -- rewrite read_write_clusters. unfold bytes_at.
           apply bytes_n_exact, length_bytes_n.
        -- intros j' x' Hj' Hx' Heq.
           assert (Hx'_in : In x' E)
             by (apply list_elem_of_In, list_elem_of_lookup; eauto).
           apply cluster_to_lba_inj in Heq; [|auto|auto]. subst x'.
           apply NoDup_ListNoDup in Hnd.
           pose proof (NoDup_lookup _ _ _ _ Hnd Hx' Hc). lia.
      * apply IHin; [lia | exact Hx].
    + intros y Hy. rewrite IHout.
      * apply read_other_clusters. apply (Hy i c); [lia | exact Hc].
      * intros j x Hj Hx. apply (Hy j x); [lia | exact Hx].
Qed.

(** Consecutive cluster-sized pieces of a memory region are a prefix of it,
    zero bytes where the region ends early. *)
Lemma bytes_n_pieces (size : nat) (l : list byte) : forall (k : nat),
  flat_map (fun j => bytes_n size (skipn (j * size) l)) (seq 0 k)
  = bytes_n (k * size) l.
Proof.
  induction k as [|k IH]; [reflexivity|].
  rewrite seq_S, flat_map_app, IH. cbn [flat_map Nat.add].
  rewrite app_nil_r. unfold bytes_n.
  apply (nth_ext _ _ x00 x00).
  - rewrite length_app, !length_firstn, !length_app, !repeat_length,
      length_skipn. lia.
  - intros n Hn.
    rewrite length_app, !length_firstn, !length_app, !repeat_length,
      length_skipn in Hn.
    assert (Hnth : forall (m a : nat) (l0 : list byte),
              (a < m)%nat ->
              nth a (firstn m (l0 ++ repeat x00 m)) x00 = nth a l0 x00).
    { intros m a l0 Ha. rewrite nth_firstn.
      replace (a <? m)%nat with true by (symmetry; apply Nat.ltb_lt; lia).
      destruct (Nat.lt_ge_cases a (length l0)).
      - rewrite app_nth1 by lia. reflexivity.
      - rewrite app_nth2, nth_repeat by lia.
        rewrite nth_overflow by lia. reflexivity. }
    destruct (Nat.lt_ge_cases n (k * size)) as [Hlt|Hge].
    + rewrite app_nth1 by (rewrite length_firstn, length_app, repeat_length;
                           lia).
      rewrite !Hnth by lia. reflexivity.
    + rewrite app_nth2 by (rewrite length_firstn, length_app, repeat_length;
                           lia).
      rewrite length_firstn, length_app, repeat_length.
      replace (Init.Nat.min (k * size) (length l + k * size))
        with (k * size)%nat by lia.
      rewrite !Hnth by lia. rewrite nth_skipn. f_equal. lia.
Qed.

Lemma flat_map_take_pieces (f : Z -> list byte) (g : nat -> list byte)
    (E : list Z) : forall (k : nat),
  (k <= length E)%nat ->
  (forall j x, (j < k)%nat -> E !! j = Some x -> f x = g j) ->
  flat_map f (firstn k E) = flat_map g (seq 0 k).
Proof.
  induction k as [|k IH]; intros Hk H; [reflexivity|].
  destruct (E !! k) as [x|] eqn:Hx; [|apply lookup_ge_None in Hx; lia].
  change (firstn (S k) E) with (take (S k) E).
  rewrite (take_S_r _ _ _ Hx), seq_S, !flat_map_app. cbn [flat_map Nat.add].
  rewrite !app_nil_r. f_equal.
  - apply IH; [lia|]. intros j y Hj. apply H. lia.
  - apply (H k x); [lia | exact Hx].
Qed.

(** X12: the payload of a file is on the device after a successful
    [write], for sizes below [2 ^ 31]: the clusters that the allocation
    loop collects, the first [ceil (size / CLUSTER_SIZE)] clusters from 0 on
    whose FAT entry is empty, hold one after the other the first
    [ceil (size / CLUSTER_SIZE)] whole clusters of the caller's memory at
    [buf], provided the FAT cluster is not among them and none of them is
    mapped to the blocks of the parent cluster, whose table is written
    after the payload. *)
Theorem written_payload_is_on_disk (request : FAT32DriverRequest)
    (w w' : World) :
  0 < buffer_size request < 2 ^ 31 ->
  write request w = (0, w') ->
  let k := ceil_spec (buffer_size request) CLUSTER_SIZE in
  let claimed :=
    firstn (Z.to_nat k) (free_clusters 0 (fat_table (state w))) in
  ~ In FAT_CLUSTER_NUMBER claimed ->
  (forall c, In c claimed ->
     cluster_to_lba c
     <> cluster_to_lba (parent_cluster_number request)) ->
  Z.of_nat (length claimed) = k /\
  clusters_content (disk w') claimed
  = bytes_n (Z.to_nat (k * CLUSTER_SIZE)) (buf request).
Proof.
  cbv zeta. unfold write, load_dir_table.
  generalize
    (decode_table (read_clusters (disk w) (parent_cluster_number request) 1)).
  intros t Hsize. unfold write_in, with_dir_table.
  cbn [disk state dir_table_buf fat_table cluster_buf].
  destruct (negb _); [discriminate|].
  destruct (find_entry _ _); [discriminate|].
  rewrite ceil_div_small by exact Hsize.
  rewrite (to_uint32_small (buffer_size request)) by lia.
  set (kz := ceil_spec (buffer_size request) CLUSTER_SIZE).
  assert (Hk1 : 1 <= kz).
  { unfold kz, ceil_spec, CLUSTER_SIZE, BLOCK_SIZE, CLUSTER_BLOCK_COUNT.
    change (512 * 4) with 2048.
    apply Z.div_le_lower_bound; lia. }
  destruct (_ <? kz) eqn:Havail; [discriminate|].
  apply Z.ltb_ge in Havail.
  replace (buffer_size request =? 0) with false
    by (symmetry; apply Z.eqb_neq; lia).
  set (E := free_clusters 0 (fat_table (state w))).
  pose proof (free_clusters_count (fat_table (state w))) as Hcount.
  fold E in Hcount.
  assert (HkE : (Z.to_nat kz <= length E)%nat) by lia.
  pose proof (free_clusters_sorted 0 (fat_table (state w))) as Hsorted.
  fold E in Hsorted.
  assert (HE : forall x, In x E -> 0 <= x < CLUSTER_MAP_SIZE).
  { intros x Hx. apply free_clusters_In in Hx;
      [apply Hx | unfold CLUSTER_MAP_SIZE; lia]. }
  assert (HEnd : List.NoDup E) by exact (StronglySorted_lt_NoDup _ Hsorted).
  assert (HElen : (length E <= 512)%nat).
  { apply NoDup_ListNoDup in HEnd.
    assert (Hincl : incl E (map Z.of_nat (seq 0 512))).
    { intros x Hx. apply HE in Hx. unfold CLUSTER_MAP_SIZE in Hx.
      apply in_map_iff. exists (Z.to_nat x). split; [lia|].
      apply in_seq. lia. }
    apply NoDup_ListNoDup in HEnd.
    pose proof (List.NoDup_incl_length HEnd Hincl) as Hl.
    rewrite length_map, length_seq in Hl. exact Hl. }
  destruct (write_chain_disk E (buf request) (Z.to_nat kz) HEnd
              (fun x Hx => ltac:(pose proof (HE x Hx);
                                 unfold CLUSTER_MAP_SIZE in *; lia))
              (Z.to_nat kz) 0%nat (fat_table (state w), disk w))
    as (Hin & _); [lia | exact HkE |].
  change (Z.of_nat 0) with 0 in *.
  rewrite Z2Nat.id in * by lia.
  destruct (write_chain _ _ _ _ _ _) as [m' d'].
  cbn [fst snd] in *.
  intros Hw Hfat Hparent. injection Hw as <-. cbn [disk].
  split; [rewrite length_firstn; lia|].
  unfold clusters_content.
  rewrite (flat_map_take_pieces _
             (fun j => bytes_n (Z.to_nat CLUSTER_SIZE)
                               (skipn (j * Z.to_nat CLUSTER_SIZE)
                                      (buf request)))).
  - rewrite bytes_n_pieces. f_equal.
    unfold CLUSTER_SIZE, BLOCK_SIZE, CLUSTER_BLOCK_COUNT. lia.
  - exact HkE.
  - intros j x Hj Hx.
    assert (Hx_in : In x (firstn (Z.to_nat kz) E)).
    { apply list_elem_of_In, list_elem_of_lookup. exists j.
      apply lookup_take_Some. split; [exact Hx | exact Hj]. }
    assert (Hx_E : In x E)
      by (apply list_elem_of_In, list_elem_of_lookup; eauto).
    rewrite read_other_clusters.
    2:{ intros Heq. apply cluster_to_lba_inj in Heq.
        - apply Hfat. rewrite <- Heq. exact Hx_in.
        - pose proof (HE x Hx_E). unfold CLUSTER_MAP_SIZE in *. lia.
        - unfold FAT_CLUSTER_NUMBER. lia. }
    rewrite read_other_clusters by (apply Hparent; exact Hx_in).
    rewrite (Hin j x) by (try exact Hx; lia).
    unfold bytes_at. do 2 f_equal.
    destruct (offset_no_wrap (Z.of_nat j)) as [Hoff _];
      [unfold CLUSTER_MAP_SIZE; lia|].
    rewrite Hoff, Nat2Z.id. reflexivity.
Qed.

Lemma written_payload_is_on_disk_witness :
  let w' := snd (write (file1_request (repeat x41 3000) 3000)
                       formatted_world) in
  clusters_content (disk w') [3; 4]
  = bytes_n 4096 (repeat x41 3000).
Proof.
  intros w'.
  assert (Hs : fst (write (file1_request (repeat x41 3000) 3000)
                          formatted_world) = 0)
    by (vm_compute; reflexivity).
  assert (Hw : write (file1_request (repeat x41 3000) 3000) formatted_world
               = (0, w')).
  { unfold w'.
    destruct (write (file1_request (repeat x41 3000) 3000) formatted_world)
      as [s w1].
    cbn [fst snd] in *. rewrite Hs. reflexivity. }
  assert (Hclaimed :
            firstn
              (Z.to_nat
                 (ceil_spec
                    (buffer_size (file1_request (repeat x41 3000) 3000))
                    CLUSTER_SIZE))
              (free_clusters 0 (fat_table (state formatted_world)))
            = [3; 4]) by (vm_compute; reflexivity).
  pose proof (written_payload_is_on_disk
                (file1_request (repeat x41 3000) 3000) formatted_world w'
                ltac:(cbn [buffer_size file1_request]; lia) Hw) as H.
  cbv zeta in H. rewrite Hclaimed in H.
  refine (proj2 (H _ _)).
  - intros [E|[E|[]]]; discriminate E.
  - intros c [<-|[<-|[]]]; vm_compute; discriminate.
Defined.

(** ** The shape of the driver state *)

Lemma wf_decode_fat (b : list byte) : wf_fat (decode_fat b).
Proof.
  unfold wf_fat, decode_fat. split; [rewrite length_map; apply length_chunks|].
  apply List.Forall_forall. intros x Hx. apply in_map_iff in Hx.
  destruct Hx as (c & <- & Hc).
  assert (Hlen : length c = 4%nat).
  { revert b Hc. generalize (Z.to_nat CLUSTER_MAP_SIZE). intros n.
    induction n as [|n IH]; intros b Hc; cbn [chunks] in Hc;
      [destruct Hc|].
    destruct Hc as [<-|Hc]; [apply length_bytes_n | eauto]. }
  pose proof (le_value_range c) as H. rewrite Hlen in H. exact H.
Qed.

(** X13: the driver state keeps its shape.  After
    [initialize_filesystem_fat32] the cached FAT has [CLUSTER_MAP_SIZE]
    entries, each a 32-bit value; every call of the four operations that
    starts from such a FAT, whatever its status, ends with such a FAT and
    leaves in the scratch buffer a table of exactly [directory_size]
    entries whose fields are within their widths. *)
Theorem state_shape_is_kept (op : operation) (fuel : nat)
    (request : FAT32DriverRequest) (w : World) (status : Z) (w' : World) :
  (length (fat_table (state w)) = Z.to_nat CLUSTER_MAP_SIZE ->
   wf_fat (fat_table (state (initialize_filesystem_fat32 w)))) /\
  (wf_fat (fat_table (state w)) ->
   run op fuel request w = Some (status, w') ->
   wf_fat (fat_table (state w')) /\
   wf_table (dir_table_buf (state w'))).
Proof.
  split.
  { intros Hlen. unfold initialize_filesystem_fat32.
    destruct (is_empty_storage w); cbn [state fat_table];
      [|apply wf_decode_fat].
    rewrite (create_fat32_cluster_map w Hlen).
    apply wf_fat_formatted. }
  intros Hwf Hrun.
  revert Hrun. unfold run, load_dir_table.
  pose proof (wf_decode_table
                (read_clusters (disk w) (parent_cluster_number request) 1))
    as Ht. revert Ht.
  generalize
    (decode_table (read_clusters (disk w) (parent_cluster_number request) 1)).
  intros t Ht Hrun.
  destruct (Z.eq_dec status 0) as [->|Hs].
  2:{ rewrite (rejected_in_world _ _ _ _ _ _ Hrun Hs).
      unfold with_dir_table. cbn [state fat_table dir_table_buf].
      split; assumption. }
  destruct op; cbn [run_in] in Hrun.
  - injection Hrun as Hrun. revert Hrun. unfold read_directory_in. cbv zeta.
    destruct (negb _); [discriminate|].
    destruct (find_entry _ _) as [[i e]|]; [|discriminate].
    destruct (negb _); [discriminate|].
    intros H. injection H as <-. unfold load_dir_table, with_dir_table.
    cbn [state fat_table dir_table_buf disk].
    split; [exact Hwf | apply wf_decode_table].
  - revert Hrun. unfold read_in. cbv zeta.
    destruct (negb _); [discriminate|].
    destruct (find_entry _ _) as [[i e]|]; [|discriminate].
    destruct (negb (negb _)); [discriminate|].
    destruct (negb _); [discriminate|].
    destruct (read_chain _ _ _ _ _ _); [|discriminate].
    cbn [option_map fst snd]. intros H. injection H as <-.
    unfold with_dir_table. cbn [state fat_table dir_table_buf].
    split; assumption.
  - injection Hrun as Hrun. apply write_in_success in Hrun.
    destruct Hrun as (_ & _ & e & m' & d' & Hstate & _ & Hwf').
    unfold with_dir_table in *.
    cbn [disk state dir_table_buf fat_table cluster_buf] in *.
    rewrite Hstate, table_store_fat, table_store_directory_size.
    cbn [fat_table dir_table_buf]. split; [apply Hwf', Hwf | exact Ht].
  - apply delete_in_success in Hrun.
    destruct Hrun as (_ & i & e & m' & Hfind & Hfree & Hstate & _).
    unfold with_dir_table in *.
    cbn [disk state dir_table_buf fat_table cluster_buf] in *.
    rewrite Hstate. cbn [fat_table dir_table_buf].
    split; [exact (wf_free_chain _ _ _ _ Hfree Hwf)|].
    apply wf_table_insert; [exact Ht|]. apply wf_tombstone.
    destruct (find_entry_slot _ _ _ _ Hfind) as [_ Hslot].
    exact (wf_table_lookup _ _ _ Ht Hslot).
Qed.

Lemma state_shape_is_kept_witness :
  let w' := world_after (run DeleteEntry 2 (file1_request [] 0) sample_world)
                        sample_world in
  wf_fat (fat_table (state w')) /\ wf_table (dir_table_buf (state w')).
Proof.
  intros w'.
  assert (Hs : option_map fst
                 (run DeleteEntry 2 (file1_request [] 0) sample_world)
               = Some 0) by (vm_compute; reflexivity).
  assert (Hrun : run DeleteEntry 2 (file1_request [] 0) sample_world
                 = Some (0, w')).
  { unfold w'.
    destruct (run DeleteEntry 2 (file1_request [] 0) sample_world)
      as [[s w1]|]; [|discriminate Hs].
    injection Hs as ->. reflexivity. }
  exact (proj2 (state_shape_is_kept DeleteEntry 2 (file1_request [] 0)
                  sample_world 0 w') sample_world_fat Hrun).
Defined.

(** ** Statuses of [delete] *)

Lemma has_occupied_slot_iff (t : list FAT32DirectoryEntry) :
  length t = Z.to_nat directory_size ->
  has_occupied_slot t = true
  <-> exists j, 1 <= j < directory_size /\
                user_attribute (table_get t j) = UATTR_NOT_EMPTY.
Proof.
  intros Hlen. unfold has_occupied_slot. rewrite existsb_exists. split.
  - intros (e & He & Hu). apply Z.eqb_eq in Hu.
    apply list_elem_of_In, list_elem_of_lookup in He. destruct He as [k Hk].
    change (skipn 1 (firstn (Z.to_nat directory_size) t))
      with (drop 1 (take (Z.to_nat directory_size) t)) in Hk.
    rewrite lookup_drop in Hk. apply lookup_take_Some in Hk.
    destruct Hk as [Hk Hlt]. exists (Z.of_nat (1 + k)).
    split; [lia|]. unfold table_get. rewrite Nat2Z.id, nth_lookup, Hk.
    exact Hu.
  - intros (j & Hj & Hu). exists (table_get t j).
    split; [|apply Z.eqb_eq; exact Hu].
    apply list_elem_of_In, list_elem_of_lookup. exists (Z.to_nat j - 1)%nat.
    change (skipn 1 (firstn (Z.to_nat directory_size) t))
      with (drop 1 (take (Z.to_nat directory_size) t)).
    rewrite lookup_drop.
    replace (1 + (Z.to_nat j - 1))%nat with (Z.to_nat j) by lia.
    rewrite lookup_take_lt by lia. unfold table_get. rewrite nth_lookup.
    destruct (t !! Z.to_nat j) eqn:E; [reflexivity|].
    apply lookup_ge_None in E. lia.
Qed.

(** X14: the refusals of [delete].  It returns -1 exactly when the
    parent's slot 0 is not a subdirectory, 1 exactly when the parent is a
    folder none of whose slots carries the key, and 2 exactly when the
    first slot that carries the key is a subdirectory and, in the table
    read from the cluster that this slot names, some slot from 1 on is
    marked occupied; slot 0 of that table is not looked at.  None of this
    depends on how far the chain walk would get. *)
Theorem delete_refusals (fuel : nat) (request : FAT32DriverRequest)
    (w : World) :
  let t := decode_table
             (read_clusters (disk w) (parent_cluster_number request) 1) in
  let present :=
    exists j, 0 <= j < directory_size /\
              is_match (table_get t j) (req_name request) (req_ext request)
              = true in
  let r := delete_status (delete fuel request w) in
  (r = Some (-1) <-> parent_is_folder t = false) /\
  (r = Some 1 <-> parent_is_folder t = true /\ ~ present) /\
  (r = Some 2 <->
   parent_is_folder t = true /\
   exists i e,
     find_entry request t = Some (i, e) /\
     attribute e = ATTR_SUBDIRECTORY /\
     exists j, 1 <= j < directory_size /\
               user_attribute
                 (table_get
                    (decode_table
                       (read_clusters (disk w) (entry_cluster e) 1)) j)
               = UATTR_NOT_EMPTY).
Proof.
  cbv zeta. unfold delete, load_dir_table.
  pose proof (length_decode_table
                (read_clusters (disk w) (parent_cluster_number request) 1))
    as Hlen. revert Hlen.
  generalize
    (decode_table (read_clusters (disk w) (parent_cluster_number request) 1)).
  intros t Hlen. unfold delete_in, with_dir_table.
  cbn [disk state dir_table_buf fat_table cluster_buf].
  pose proof (find_entry_present request t Hlen) as Hp.
  destruct (parent_is_folder t); cbn [negb delete_status option_map fst].
  2:{ split; [split; reflexivity|].
      split; (split; [discriminate | intros [? _]; discriminate]). }
  destruct (find_entry request t) as [[i e]|] eqn:Hfind.
  2:{ cbn [delete_status option_map fst].
      split; [split; discriminate|].
      split.
      - split; [|reflexivity]. intros _. split; [reflexivity|].
        intros Hpres. apply Hp in Hpres. destruct Hpres as (? & ? & ?).
        discriminate.
      - split; [discriminate|]. intros [_ (? & ? & ? & _)]. discriminate. }
  pose proof (has_occupied_slot_iff
                (decode_table (read_clusters (disk w) (entry_cluster e) 1))
                (length_decode_table _)) as Hocc.
  destruct (attribute e =? ATTR_SUBDIRECTORY) eqn:Edir; cbn [andb].
  - apply Z.eqb_eq in Edir.
    destruct (has_occupied_slot _) eqn:Eocc.
    + cbn [delete_status option_map fst].
      split; [split; discriminate|].
      split; [split; [discriminate | intros [_ Hn]; exfalso; apply Hn, Hp;
                                      eauto]|].
      split; [|reflexivity]. intros _. split; [reflexivity|].
      exists i, e. split; [reflexivity|]. split; [exact Edir|].
      apply Hocc. reflexivity.
    + destruct (free_chain _ _ _); cbn [delete_status option_map fst].
      * split; [split; discriminate|].
        split; [split; [discriminate | intros [_ Hn]; exfalso; apply Hn, Hp;
                                        eauto]|].
        split; [discriminate|]. intros [_ (i' & e' & Heq & _ & Hj)].
        injection Heq as _ <-. apply Hocc in Hj. discriminate.
      * split; [split; discriminate|].
        split; [split; [discriminate | intros [_ Hn]; exfalso; apply Hn, Hp;
                                        eauto]|].
        split; [discriminate|]. intros [_ (i' & e' & Heq & _ & Hj)].
        injection Heq as _ <-. apply Hocc in Hj. discriminate.
  - apply Z.eqb_neq in Edir.
    destruct (free_chain _ _ _); cbn [delete_status option_map fst].
    + split; [split; discriminate|].
      split; [split; [discriminate | intros [_ Hn]; exfalso; apply Hn, Hp;
                                      eauto]|].
      split; [discriminate|]. intros [_ (i' & e' & Heq & Hattr & _)].
      injection Heq as _ <-. contradiction.
    + split; [split; discriminate|].
      split; [split; [discriminate | intros [_ Hn]; exfalso; apply Hn, Hp;
                                      eauto]|].
      split; [discriminate|]. intros [_ (i' & e' & Heq & Hattr & _)].
      injection Heq as _ <-. contradiction.
Qed.

(** ** Statuses of [read] *)

(** X15: the refusals of [read].  It returns -1 exactly when the parent's
    slot 0 is not a subdirectory, 3 exactly when the parent is a folder
    none of whose slots carries the key, 1 exactly when the first slot
    that carries the key is a subdirectory, and 2 exactly when that slot
    is a file whose size exceeds the request's 32-bit [buffer_size].  A
    later slot with the same key is never looked at. *)
Theorem read_refusals (fuel : nat) (request : FAT32DriverRequest)
    (w : World) :
  let t := decode_table
             (read_clusters (disk w) (parent_cluster_number request) 1) in
  let present :=
    exists j, 0 <= j < directory_size /\
              is_match (table_get t j) (req_name request) (req_ext request)
              = true in
  let r := option_map fst (read_outcome (read fuel request w)) in
  (r = Some (-1) <-> parent_is_folder t = false) /\
  (r = Some 3 <-> parent_is_folder t = true /\ ~ present) /\
  (r = Some 1 <->
   parent_is_folder t = true /\
   exists i e, find_entry request t = Some (i, e) /\
               attribute e = ATTR_SUBDIRECTORY) /\
  (r = Some 2 <->
   parent_is_folder t = true /\
   exists i e, find_entry request t = Some (i, e) /\
               attribute e <> ATTR_SUBDIRECTORY /\
               to_uint32 (buffer_size request) < filesize e).
Proof.
  cbv zeta. unfold read, load_dir_table.
  pose proof (length_decode_table
                (read_clusters (disk w) (parent_cluster_number request) 1))
    as Hlen. revert Hlen.
  generalize
    (decode_table (read_clusters (disk w) (parent_cluster_number request) 1)).
  intros t Hlen. unfold read_in, with_dir_table.
  cbn [disk state dir_table_buf fat_table cluster_buf].
  pose proof (find_entry_present request t Hlen) as Hp.
  destruct (parent_is_folder t); cbn [negb read_outcome option_map fst snd].
  2:{ split; [split; reflexivity|].
      repeat split; try discriminate; intros [? _]; discriminate. }
  destruct (find_entry request t) as [[i e]|] eqn:Hfind.
  2:{ cbn [read_outcome option_map fst snd].
      split; [split; discriminate|].
      split.
      - split; [|reflexivity]. intros _. split; [reflexivity|].
        intros Hpres. apply Hp in Hpres. destruct Hpres as (? & ? & ?).
        discriminate.
      - split; (split; [discriminate|]);
          intros [_ (? & ? & ? & _)]; discriminate. }
  assert (Hpres : exists j, 0 <= j < directory_size /\
                    is_match (table_get t j) (req_name request)
                             (req_ext request) = true)
    by (apply Hp; eauto).
  destruct (attribute e =? ATTR_SUBDIRECTORY) eqn:Edir; cbn [negb].
  - apply Z.eqb_eq in Edir. cbn [read_outcome option_map fst snd].
    split; [split; discriminate|].
    split; [split; [discriminate | intros [_ Hn]; contradiction]|].
    split.
    + split; [|reflexivity]. intros _. split; [reflexivity|].
      exists i, e. split; [reflexivity | exact Edir].
    + split; [discriminate|]. intros [_ (i' & e' & Heq & Hattr & _)].
      injection Heq as _ <-. contradiction.
  - apply Z.eqb_neq in Edir.
    destruct (filesize e <=? to_uint32 (buffer_size request)) eqn:Esize;
      cbn [negb].
    + apply Z.leb_le in Esize.
      destruct (read_chain _ _ _ _ _ _);
        cbn [read_outcome option_map fst snd];
        (split; [split; discriminate|]);
        (split; [split; [discriminate | intros [_ Hn]; contradiction]|]);
        (split;
         [split; [discriminate|]; intros [_ (i' & e' & Heq & Hattr)];
          injection Heq as _ <-; contradiction
         |split; [discriminate|];
          intros [_ (i' & e' & Heq & Hattr & Hlt)];
          injection Heq as _ <-; lia]).
    + apply Z.leb_gt in Esize. cbn [read_outcome option_map fst snd].
      split; [split; discriminate|].
      split; [split; [discriminate | intros [_ Hn]; contradiction]|].
      split.
      * split; [discriminate|]. intros [_ (i' & e' & Heq & Hattr)].
        injection Heq as _ <-. contradiction.
      * split; [|reflexivity]. intros _. split; [reflexivity|].
        exists i, e. split; [reflexivity|]. split; assumption.
Qed.

(** ** A new directory *)

Lemma mkdir_disk (request : FAT32DriverRequest) (w w' : World)
    (c : Z) (rest : list Z) :
  buffer_size request = 0 ->
  free_clusters 2 (fat_table (state w)) = c :: rest ->
  write request w = (0, w') ->
  exists m' t,
    disk w'
    = write_clusters (encode_fat m') FAT_CLUSTER_NUMBER 1
        (write_clusters (encode_table t) (parent_cluster_number request) 1
           (write_clusters
              (encode_table
                 (init_directory_table zero_table (req_name request)
                                       (parent_cluster_number request)))
              c 1 (disk w))).
Proof.
  unfold write, load_dir_table.
  generalize
    (decode_table (read_clusters (disk w) (parent_cluster_number request) 1)).
  intros t Hsize Hfree. unfold write_in, with_dir_table.
  cbn [disk state dir_table_buf fat_table cluster_buf].
  destruct (negb _); [discriminate|].
  destruct (find_entry _ _); [discriminate|].
  rewrite Hsize, Hfree. change (to_uint32 0 =? 0) with true.
  cbv iota. destruct (_ <? _); [discriminate|].
  cbn [hd]. intros Hw. injection Hw as <-. cbn [disk].
  eexists _, _. reflexivity.
Qed.

(** X16: the directory that a successful [write] with size 0 creates,
    when some cluster [c] from 2 on is free and [c] is not mapped to the
    blocks of the parent cluster: the table on the device at [c] is a
    zeroed table after [init_directory_table], that is a folder whose slot
    0 carries the new name and the cluster number of the parent, not [c],
    and whose other slots are empty, so that [delete] counts it as
    empty. *)
Theorem new_directory_is_empty_folder (request : FAT32DriverRequest)
    (w w' : World) (c : Z) (rest : list Z) :
  buffer_size request = 0 ->
  0 <= parent_cluster_number request < 2 ^ 32 ->
  free_clusters 2 (fat_table (state w)) = c :: rest ->
  write request w = (0, w') ->
  cluster_to_lba c <> cluster_to_lba (parent_cluster_number request) ->
  let t := decode_table (read_clusters (disk w') c 1) in
  t = init_directory_table zero_table (req_name request)
                           (parent_cluster_number request) /\
  parent_is_folder t = true /\
  name (table_get t 0) = bytes_n 8 (req_name request) /\
  entry_cluster (table_get t 0) = parent_cluster_number request /\
  (forall j, 0 < j -> table_get t j = zero_entry) /\
  has_occupied_slot t = false.
Proof.
  intros Hsize Hparent Hfree Hw Hne. cbv zeta.
  destruct (mkdir_disk request w w' c rest Hsize Hfree Hw)
    as (m' & t0 & Hdisk).
  destruct (hd_free_clusters 2 _ c rest ltac:(unfold CLUSTER_MAP_SIZE; lia)
              Hfree) as (Hc & _).
  assert (Ht : decode_table (read_clusters (disk w') c 1)
               = init_directory_table zero_table (req_name request)
                                      (parent_cluster_number request)).
  { rewrite Hdisk. rewrite read_other_clusters.
    2:{ intros Heq. apply cluster_to_lba_inj in Heq;
          unfold CLUSTER_MAP_SIZE, FAT_CLUSTER_NUMBER in *; lia. }
    rewrite read_other_clusters by exact Hne.
    rewrite read_write_clusters.
    apply decode_table_encode_table, wf_init_directory_table, wf_zero_table. }
  rewrite Ht. split; [reflexivity|]. split; [reflexivity|].
  split; [reflexivity|].
  split.
  { unfold init_directory_table, zero_table, table_get.
    change (Z.to_nat directory_size) with 64%nat. cbn [repeat].
    change (Z.to_nat 0) with 0%nat.
    cbn [list_insert insert nth cluster_low cluster_high].
    unfold entry_cluster. cbn [cluster_low cluster_high].
    apply cluster_halves. exact Hparent. }
  split; [|reflexivity].
  intros j Hj. unfold init_directory_table. cbv zeta.
  rewrite (table_get_insert_ne zero_table 0 j) by lia.
  unfold table_get, zero_table. rewrite nth_repeat. reflexivity.
Qed.

Lemma new_directory_is_empty_folder_witness :
  let w' := snd (write dir_request formatted_world) in
  has_occupied_slot (decode_table (read_clusters (disk w') 3 1)) = false.
Proof.
  intros w'.
  assert (Hs : fst (write dir_request formatted_world) = 0)
    by (vm_compute; reflexivity).
  assert (Hw : write dir_request formatted_world = (0, w')).
  { unfold w'. destruct (write dir_request formatted_world) as [s w1].
    cbn [fst snd] in *. rewrite Hs. reflexivity. }
  assert (Hfree : free_clusters 2 (fat_table (state formatted_world))
                  = 3 :: tl (free_clusters 2
                               (fat_table (state formatted_world))))
    by (vm_compute; reflexivity).
  assert (Hp : 0 <= parent_cluster_number dir_request < 2 ^ 32)
    by (vm_compute; split; [discriminate | reflexivity]).
  assert (Hne : cluster_to_lba 3
                <> cluster_to_lba (parent_cluster_number dir_request))
    by (vm_compute; discriminate).
  pose proof (new_directory_is_empty_folder dir_request formatted_world w'
                3 _ eq_refl Hp Hfree Hw Hne) as H.
  cbv zeta in H. destruct H as (_ & _ & _ & _ & _ & H). exact H.
Defined.

(** ** What an update leaves alone *)

Lemma cluster_to_lba_small_ne (c c' : Z) :
  0 <= c < CLUSTER_MAP_SIZE -> 0 <= c' < CLUSTER_MAP_SIZE -> c <> c' ->
  cluster_to_lba c <> cluster_to_lba c'.
Proof.
  unfold CLUSTER_MAP_SIZE. intros Hc Hc' Hne Heq. apply Hne.
  apply cluster_to_lba_inj; [lia | lia | exact Heq].
Qed.

(** X22: [create_fat32] rewrites block 0, the FAT cluster and the root
    cluster and nothing else: every cluster whose number is not 0, 1 or 2
    modulo [2 ^ 30] holds what it held, and so do the three blocks of
    cluster 0 behind the boot sector. *)
Theorem create_fat32_spares_data (w : World) (c : Z) :
  (c mod 2 ^ 30 <> 0 /\ c mod 2 ^ 30 <> 1 /\ c mod 2 ^ 30 <> 2 ->
   read_clusters (disk (create_fat32 w)) c 1 = read_clusters (disk w) c 1) /\
  read_blocks (disk (create_fat32 w)) 1 3 = read_blocks (disk w) 1 3.
Proof.
  unfold create_fat32. cbn [disk]. split.
  - intros (H0 & H1 & H2).
    assert (Hlba : forall c', 0 <= c' < 2 ^ 30 -> c mod 2 ^ 30 <> c' ->
              cluster_to_lba c <> cluster_to_lba c').
    { intros c' Hc' Hne. rewrite !cluster_to_lba_eq.
      rewrite (Z.mod_small c') by lia. unfold CLUSTER_BLOCK_COUNT. lia. }
    rewrite !read_other_clusters
      by (apply Hlba; [unfold ROOT_CLUSTER_NUMBER, FAT_CLUSTER_NUMBER; lia
                      | assumption]).
    unfold read_clusters. apply read_other_blocks.
    rewrite cluster_to_lba_eq.
    pose proof (Z.mod_pos_bound c (2 ^ 30) ltac:(lia)).
    unfold BOOT_SECTOR, CLUSTER_BLOCK_COUNT. right. lia.
  - unfold write_clusters.
    change (cluster_to_lba ROOT_CLUSTER_NUMBER) with 8.
    change (cluster_to_lba FAT_CLUSTER_NUMBER) with 4.
    change (to_uint8 (1 * CLUSTER_BLOCK_COUNT)) with 4.
    rewrite !read_other_blocks by lia.
    apply read_other_blocks. unfold BOOT_SECTOR. right. lia.
Qed.

Lemma create_fat32_spares_data_witness :
  read_clusters (disk (create_fat32 sample_world)) 3 1
  = read_clusters (disk sample_world) 3 1.
Proof.
  apply (proj1 (create_fat32_spares_data sample_world 3)).
  vm_compute. repeat split; discriminate.
Defined.

(** X23: a successful [delete] writes the parent cluster and the FAT
    cluster and nothing else: every cluster that is mapped to other blocks
    holds what it held.  The clusters of the deleted chain are released in
    the FAT only; their contents stay on the device. *)
Theorem delete_leaves_data_on_device (fuel : nat)
    (request : FAT32DriverRequest) (w w' : World) (c : Z) :
  delete fuel request w = Some (0, w') ->
  cluster_to_lba c <> cluster_to_lba (parent_cluster_number request) ->
  cluster_to_lba c <> cluster_to_lba FAT_CLUSTER_NUMBER ->
  read_clusters (disk w') c 1 = read_clusters (disk w) c 1.
Proof.
  unfold delete, load_dir_table.
  generalize
    (decode_table (read_clusters (disk w) (parent_cluster_number request) 1)).
  intros t H Hparent Hfat. apply delete_in_success in H.
  destruct H as (_ & i & e & m' & _ & _ & _ & Hdisk).
  unfold with_dir_table in Hdisk. cbn [disk state dir_table_buf] in Hdisk.
  rewrite Hdisk, !read_other_clusters by assumption. reflexivity.
Qed.

Lemma delete_leaves_data_on_device_witness :
  let w' := world_after (delete 2 (file1_request [] 0) sample_world)
                        sample_world in
  read_clusters (disk w') 3 1 = read_clusters (disk sample_world) 3 1.
Proof.
  intros w'.
  assert (Hs : delete_status (delete 2 (file1_request [] 0) sample_world)
               = Some 0) by (vm_compute; reflexivity).
  assert (Hdel : delete 2 (file1_request [] 0) sample_world = Some (0, w')).
  { unfold w'.
    destruct (delete 2 (file1_request [] 0) sample_world) as [[s w1]|];
      [|discriminate Hs].
    injection Hs as ->. reflexivity. }
  apply (delete_leaves_data_on_device 2 (file1_request [] 0) sample_world w'
           3 Hdel); vm_compute; discriminate.
Defined.

(** X24: a successful [write] spares what is in use: a cluster other than
    cluster 0 whose FAT entry is not empty, apart from the parent cluster
    and the FAT cluster, keeps its contents on the device and its FAT
    entry, whatever the size of the request. *)
Theorem write_spares_used_clusters (request : FAT32DriverRequest)
    (w w' : World) (c : Z) :
  length (fat_table (state w)) = Z.to_nat CLUSTER_MAP_SIZE ->
  write request w = (0, w') ->
  0 < c < CLUSTER_MAP_SIZE ->
  cluster_map_at (fat_table (state w)) c <> FAT32_FAT_EMPTY_ENTRY ->
  cluster_to_lba c <> cluster_to_lba (parent_cluster_number request) ->
  c <> FAT_CLUSTER_NUMBER ->
  read_clusters (disk w') c 1 = read_clusters (disk w) c 1 /\
  cluster_map_at (fat_table (state w')) c
  = cluster_map_at (fat_table (state w)) c.
Proof.
  unfold write, load_dir_table.
  generalize
    (decode_table (read_clusters (disk w) (parent_cluster_number request) 1)).
  intros t Hlen. unfold write_in, with_dir_table.
  cbn [disk state dir_table_buf fat_table cluster_buf].
  destruct (negb _); [discriminate|].
  destruct (find_entry _ _); [discriminate|].
  set (kz := to_uint32 (ceil_div _ _)).
  assert (Hk0 : 0 <= kz) by (apply Z.mod_pos_bound; lia).
  destruct (_ <? kz) eqn:Havail; [discriminate|].
  apply Z.ltb_ge in Havail.
  set (m := fat_table (state w)) in *.
  intros Hw Hc Hused Hparent Hfat.
  assert (Hfatlba : cluster_to_lba c <> cluster_to_lba FAT_CLUSTER_NUMBER).
  { apply cluster_to_lba_small_ne;
      [lia | unfold CLUSTER_MAP_SIZE, FAT_CLUSTER_NUMBER; lia | exact Hfat]. }
  assert (Hgoal : forall (e : FAT32DirectoryEntry) (m' : list Z) (d' : Disk),
            read_clusters d' c 1 = read_clusters (disk w) c 1 ->
            m' !! Z.to_nat c = m !! Z.to_nat c ->
            (0, mkWorld
                  (write_clusters
                     (encode_fat
                        (fat_table
                           (table_store directory_size e
                              (mkState m' t (cluster_buf (state w))))))
                     FAT_CLUSTER_NUMBER 1
                     (write_clusters
                        (encode_table
                           (dir_table_buf
                              (table_store directory_size e
                                 (mkState m' t (cluster_buf (state w))))))
                        (parent_cluster_number request) 1 d'))
                  (table_store directory_size e
                     (mkState m' t (cluster_buf (state w)))))
            = (0, w') ->
            read_clusters (disk w') c 1 = read_clusters (disk w) c 1 /\
            cluster_map_at (fat_table (state w')) c = cluster_map_at m c).
  { intros e m' d' Hd Hm H. injection H as <-. cbn [disk state].
    rewrite table_store_fat. cbn [fat_table].
    rewrite !read_other_clusters by assumption.
    split; [exact Hd|]. unfold cluster_map_at. rewrite !nth_lookup, Hm.
    reflexivity. }
  destruct (to_uint32 (buffer_size request) =? 0).
  - revert Hw. apply Hgoal.
    + apply read_other_clusters.
      destruct (free_clusters 2 m) as [|x rest] eqn:Hfree; cbn [hd].
      * apply cluster_to_lba_small_ne; unfold CLUSTER_MAP_SIZE in *; lia.
      * destruct (hd_free_clusters 2 m x rest
                    ltac:(unfold CLUSTER_MAP_SIZE; lia) Hfree)
          as (Hx & Hxfree & _).
        apply cluster_to_lba_small_ne; [lia | lia | congruence].
    + apply list_lookup_insert_ne.
      destruct (free_clusters 2 m) as [|x rest] eqn:Hfree; cbn [hd]; [lia|].
      destruct (hd_free_clusters 2 m x rest
                  ltac:(unfold CLUSTER_MAP_SIZE; lia) Hfree)
        as (Hx & Hxfree & _).
      assert (x <> c) by congruence. lia.
  - set (E := free_clusters 0 m) in *.
    pose proof (free_clusters_count m) as Hcount. fold E in Hcount.
    assert (HkE : (Z.to_nat kz <= length E)%nat) by lia.
    pose proof (free_clusters_sorted 0 m) as Hsorted. fold E in Hsorted.
    assert (HE : forall x, In x E ->
               0 <= x < CLUSTER_MAP_SIZE /\
               cluster_map_at m x = FAT32_FAT_EMPTY_ENTRY).
    { intros x Hx. apply free_clusters_In in Hx;
        [exact Hx | unfold CLUSTER_MAP_SIZE; lia]. }
    assert (HEnd : List.NoDup E) by exact (StronglySorted_lt_NoDup _ Hsorted).
    assert (HcE : forall j x, E !! j = Some x -> x <> c).
    { intros j x Hx ->. apply Hused, HE.
      apply list_elem_of_In, list_elem_of_lookup. eauto. }
    destruct (write_chain_disk E (buf request) (Z.to_nat kz) HEnd
                (fun x Hx => ltac:(pose proof (HE x Hx);
                                   unfold CLUSTER_MAP_SIZE in *; lia))
                (Z.to_nat kz) 0%nat (m, disk w))
      as (_ & Hdisk); [lia | exact HkE |].
    destruct (write_chain_links E (buf request) (Z.to_nat kz) HEnd
                (fun x Hx => proj1 (proj1 (HE x Hx)))
                (Z.to_nat kz) 0%nat (m, disk w))
      as (_ & Hmap);
      [lia | exact HkE
       | intros x Hx; cbn [fst]; rewrite Hlen;
         pose proof (HE x Hx); lia |].
    change (Z.of_nat 0) with 0 in *.
    rewrite Z2Nat.id in * by lia.
    destruct (write_chain _ _ _ _ _ _) as [m' d'].
    cbn [fst snd] in *.
    revert Hw. apply Hgoal.
    + apply Hdisk. intros j x _ Hx.
      assert (Hx_E : In x E)
        by (apply list_elem_of_In, list_elem_of_lookup; eauto).
      apply cluster_to_lba_small_ne;
        [lia | apply HE; exact Hx_E|].
      intros Heq. apply (HcE j x Hx). congruence.
    + apply Hmap. intros j x _ Hx Heq.
      assert (Hx_E : In x E)
        by (apply list_elem_of_In, list_elem_of_lookup; eauto).
      pose proof (proj1 (HE x Hx_E)).
      apply (HcE j x Hx). lia.
Qed.

Lemma write_spares_used_clusters_witness :
  let w' := snd (write dir_request sample_world) in
  read_clusters (disk w') 3 1 = read_clusters (disk sample_world) 3 1 /\
  cluster_map_at (fat_table (state w')) 3
  = cluster_map_at (fat_table (state sample_world)) 3.
Proof.
  intros w'.
  assert (Hs : fst (write dir_request sample_world) = 0)
    by (vm_compute; reflexivity).
  assert (Hw : write dir_request sample_world = (0, w')).
  { unfold w'. destruct (write dir_request sample_world) as [s w1].
    cbn [fst snd] in *. rewrite Hs. reflexivity. }
  apply (write_spares_used_clusters dir_request sample_world w' 3
           (proj1 sample_world_fat) Hw).
  - vm_compute. split; reflexivity.
  - vm_compute. discriminate.
  - vm_compute. discriminate.
  - discriminate.
Defined.

(** ** Walks that leave the FAT *)

(** From a cluster whose FAT entry is empty the walk goes to cluster 0 and
    from there to the reserved value of cluster 0, which is no index of
    the FAT. *)
Lemma walks_leave_fat (m : list Z) (c : Z) :
  cluster_map_get m c = Some FAT32_FAT_EMPTY_ENTRY ->
  c <> 0 ->
  cluster_map_get m 0 = Some CLUSTER_0_VALUE ->
  (forall fuel, free_chain fuel m c = None) /\
  (forall fuel d b offset, read_chain fuel d m b c offset = None).
Proof.
  intros Hc Hne H0.
  assert (Hout : forall m0, cluster_map_get m0 CLUSTER_0_VALUE = None)
    by (intros m0; reflexivity).
  assert (Hne0 : (FAT32_FAT_EMPTY_ENTRY =? FAT32_FAT_END_OF_FILE) = false)
    by reflexivity.
  assert (Hne1 : (CLUSTER_0_VALUE =? FAT32_FAT_END_OF_FILE) = false)
    by reflexivity.
  split.
  - intros fuel. destruct fuel as [|fuel]; [reflexivity|].
    cbn [free_chain]. rewrite Hc, Hne0.
    destruct fuel as [|fuel]; [reflexivity|].
    cbn [free_chain].
    assert (H0' : cluster_map_get
                    (<[Z.to_nat c := FAT32_FAT_EMPTY_ENTRY]> m)
                    FAT32_FAT_EMPTY_ENTRY = Some CLUSTER_0_VALUE).
    { pose proof (cluster_map_get_bounds m c _ Hc) as Hb.
      apply cluster_map_get_bounds in H0. destruct H0 as [_ H0].
      unfold cluster_map_get, FAT32_FAT_EMPTY_ENTRY.
      change ((0 <=? 0) && (0 <? CLUSTER_MAP_SIZE)) with true. cbv iota.
      rewrite list_lookup_insert_ne by lia. exact H0. }
    rewrite H0', Hne1.
    destruct fuel as [|fuel]; [reflexivity|].
    cbn [free_chain]. rewrite Hout. reflexivity.
  - intros fuel d b offset. destruct fuel as [|fuel]; [reflexivity|].
    cbn [read_chain]. rewrite Hc, Hne0.
    destruct fuel as [|fuel]; [reflexivity|].
    cbn [read_chain]. change FAT32_FAT_EMPTY_ENTRY with 0.
    rewrite H0, Hne1.
    destruct fuel as [|fuel]; [reflexivity|].
    cbn [read_chain]. rewrite Hout. reflexivity.
Qed.

(** X25: a walk that starts at a free cluster leaves the FAT.  When the
    first slot that carries the key names a cluster other than 0 whose FAT
    entry is empty, as the tombstone of a deleted file does for a key of
    zero bytes, and cluster 0 holds its reserved value, the loops of
    [read] and [delete] step to cluster 0 and from there to the reserved
    value, which is no index of the FAT: where the checks before the loop
    let the call through, it has no result, however many steps it is
    given. *)
Theorem walk_from_free_cluster_leaves_fat (fuel : nat)
    (request : FAT32DriverRequest) (w : World) (i : Z)
    (e : FAT32DirectoryEntry) :
  let t := decode_table
             (read_clusters (disk w) (parent_cluster_number request) 1) in
  parent_is_folder t = true ->
  find_entry request t = Some (i, e) ->
  cluster_map_get (fat_table (state w)) (entry_cluster e)
  = Some FAT32_FAT_EMPTY_ENTRY ->
  entry_cluster e <> 0 ->
  cluster_map_get (fat_table (state w)) 0 = Some CLUSTER_0_VALUE ->
  (attribute e <> ATTR_SUBDIRECTORY ->
   filesize e <= to_uint32 (buffer_size request) ->
   read fuel request w = None) /\
  (attribute e <> ATTR_SUBDIRECTORY \/
   has_occupied_slot
     (decode_table (read_clusters (disk w) (entry_cluster e) 1)) = false ->
   delete fuel request w = None).
Proof.
  cbv zeta. unfold read, delete, load_dir_table.
  generalize
    (decode_table (read_clusters (disk w) (parent_cluster_number request) 1)).
  intros t Hparent Hfind Hfree Hne H0.
  destruct (walks_leave_fat _ _ Hfree Hne H0) as [Hdel Hread].
  unfold read_in, delete_in, with_dir_table.
  cbn [disk state dir_table_buf fat_table cluster_buf].
  rewrite Hparent, Hfind. cbn [negb]. split.
  - intros Hfile Hsize. apply Z.eqb_neq in Hfile. rewrite Hfile.
    cbn [negb]. apply Z.leb_le in Hsize. rewrite Hsize. cbn [negb].
    rewrite Hread. reflexivity.
  - intros Hkind.
    replace ((attribute e =? ATTR_SUBDIRECTORY)
             && has_occupied_slot
                  (decode_table
                     (read_clusters (disk w) (entry_cluster e) 1)))
      with false.
    + rewrite Hdel. reflexivity.
    + symmetry. apply andb_false_iff.
      destruct Hkind as [Hk|Hk];
        [left; apply Z.eqb_neq; exact Hk | right; exact Hk].
Qed.

Lemma walk_from_free_cluster_leaves_fat_witness :
  let w' := world_after (delete 2 (file1_request [] 0) sample_world)
                        sample_world in
  delete 5 zero_key_request w' = None.
Proof.
  intros w'.
  assert (Hfind : find_entry zero_key_request
                    (decode_table
                       (read_clusters (disk w')
                          (parent_cluster_number zero_key_request) 1))
                  = Some (1, tombstone file1_entry))
    by (vm_compute; reflexivity).
  refine (proj2 (walk_from_free_cluster_leaves_fat 5 zero_key_request w' 1
                   (tombstone file1_entry) _ Hfind _ _ _) _).
  - vm_compute. reflexivity.
  - vm_compute. reflexivity.
  - vm_compute. discriminate.
  - vm_compute. reflexivity.
  - left. vm_compute. discriminate.
Defined.

(** ** A directory on a full device *)

Lemma nth_read_blocks (d : Disk) (k : nat) :
  (k < Z.to_nat BLOCK_SIZE)%nat ->
  nth k (read_blocks d BOOT_SECTOR 1) x00 = d (Z.of_nat k).
Proof.
  intros Hk. unfold read_blocks.
  rewrite (nth_indep _ x00 (d (BOOT_SECTOR * BLOCK_SIZE + Z.of_nat 0)))
    by (rewrite length_map, length_seq; exact Hk).
  rewrite (map_nth (fun k => d (BOOT_SECTOR * BLOCK_SIZE + Z.of_nat k))).
  rewrite seq_nth by exact Hk. reflexivity.
Qed.

Lemma is_empty_storage_iff (w : World) :
  is_empty_storage w = true
  <-> read_blocks (disk w) BOOT_SECTOR 1 <> fs_signature.
Proof.
  pose proof (is_formatted_iff w) as H. unfold is_formatted in H.
  destruct (is_empty_storage w); cbn [negb] in H; split.
  - intros _ Heq. apply H in Heq. discriminate.
  - reflexivity.
  - discriminate.
  - intros Hne. exfalso. apply Hne, H. reflexivity.
Qed.

(** A directory table written to cluster 0 puts the attribute byte of its
    slot 0 where the signature has a blank. *)
Lemma boot_sector_overwritten (d : Disk) (src1 src2 nm : list byte)
    (p q : Z) :
  cluster_to_lba q <> 0 ->
  read_blocks
    (write_clusters src1 FAT_CLUSTER_NUMBER 1
       (write_clusters src2 q 1
          (write_clusters
             (encode_table (init_directory_table zero_table nm p)) 0 1 d)))
    BOOT_SECTOR 1
  <> fs_signature.
Proof.
  intros Hq Heq.
  assert (Hnth : nth 11 (read_blocks
                           (write_clusters src1 FAT_CLUSTER_NUMBER 1
                              (write_clusters src2 q 1
                                 (write_clusters
                                    (encode_table
                                       (init_directory_table zero_table
                                          nm p)) 0 1 d)))
                           BOOT_SECTOR 1) x00
                 = nth 11 fs_signature x00) by (rewrite Heq; reflexivity).
  rewrite nth_read_blocks in Hnth by (vm_compute; lia).
  unfold write_clusters, write_blocks in Hnth.
  change (cluster_to_lba FAT_CLUSTER_NUMBER) with 4 in Hnth.
  change (cluster_to_lba 0) with 0 in Hnth.
  change (to_uint8 (1 * CLUSTER_BLOCK_COUNT)) with 4 in Hnth.
  change (Z.of_nat 11) with 11 in Hnth. cbv zeta in Hnth.
  change ((0 <=? 11 - 4 * BLOCK_SIZE)
          && (11 - 4 * BLOCK_SIZE <? 4 * BLOCK_SIZE))
    with false in Hnth.
  cbv iota in Hnth.
  assert (Hlba : 4 <= cluster_to_lba q).
  { rewrite cluster_to_lba_eq in *.
    pose proof (Z.mod_pos_bound q (2 ^ 30) ltac:(lia)).
    unfold CLUSTER_BLOCK_COUNT in *. lia. }
  replace (0 <=? 11 - cluster_to_lba q * BLOCK_SIZE) with false in Hnth
    by (symmetry; apply Z.leb_gt; unfold BLOCK_SIZE; lia).
  cbn [andb] in Hnth. cbv iota in Hnth.
  change ((0 <=? 11 - 0 * BLOCK_SIZE)
          && (11 - 0 * BLOCK_SIZE <? 4 * BLOCK_SIZE))
    with true in Hnth.
  cbv iota in Hnth.
  change (Z.to_nat (11 - 0 * BLOCK_SIZE)) with 11%nat in Hnth.
  assert (Hbyte : nth 11 (encode_table (init_directory_table zero_table nm p))
                      x00 = x10).
  { unfold init_directory_table, zero_table. cbv zeta.
    change (Z.to_nat directory_size) with 64%nat. cbn [repeat].
    change (<[0%nat := ?e]> (zero_entry :: ?l)) with (e :: l).
    unfold encode_table. cbn [flat_map]. unfold encode_entry at 1.
    cbn [name ext attribute].
    rewrite <- !app_assoc.
    rewrite app_nth2 by (rewrite length_bytes_n; lia).
    rewrite length_bytes_n.
    rewrite app_nth2 by (rewrite length_bytes_n; lia).
    rewrite length_bytes_n. reflexivity. }
  rewrite Hbyte in Hnth. vm_compute in Hnth. discriminate Hnth.
Qed.

(** X26: a directory created on a device without a free cluster from 2 on
    costs the device its signature.  The space check lets size 0 pass, the
    cluster chosen is the initial value 0 of [empty_cluster], so FAT entry
    0 becomes end-of-chain and the new directory table is written over
    cluster 0, whose first block is the boot sector: when the parent
    cluster is not mapped to block 0, [is_empty_storage] holds again
    afterwards and the next [initialize_filesystem_fat32] formats the
    device anew. *)
Theorem mkdir_without_space_erases_signature (request : FAT32DriverRequest)
    (w w' : World) :
  buffer_size request = 0 ->
  free_clusters 2 (fat_table (state w)) = [] ->
  write request w = (0, w') ->
  fat_table (state w')
  = <[0%nat := FAT32_FAT_END_OF_FILE]> (fat_table (state w)) /\
  (cluster_to_lba (parent_cluster_number request) <> 0 ->
   is_empty_storage w' = true /\
   initialize_filesystem_fat32 w' = create_fat32 w').
Proof.
  unfold write, load_dir_table.
  generalize
    (decode_table (read_clusters (disk w) (parent_cluster_number request) 1)).
  intros t Hsize Hfree. unfold write_in, with_dir_table.
  cbn [disk state dir_table_buf fat_table cluster_buf].
  destruct (negb _); [discriminate|].
  destruct (find_entry _ _); [discriminate|].
  rewrite Hsize, Hfree. change (to_uint32 0 =? 0) with true.
  cbv iota. destruct (_ <? _); [discriminate|].
  cbn [hd]. intros Hw.
  assert (Hempty : cluster_to_lba (parent_cluster_number request) <> 0 ->
                   is_empty_storage w' = true).
  { intros Hparent. apply is_empty_storage_iff.
    injection Hw as <-. cbn [disk]. apply boot_sector_overwritten.
    exact Hparent. }
  split.
  - injection Hw as <-. cbn [state]. rewrite table_store_fat. reflexivity.
  - intros Hparent. split; [exact (Hempty Hparent)|].
    unfold initialize_filesystem_fat32. rewrite (Hempty Hparent).
    reflexivity.
Qed.

Lemma mkdir_without_space_erases_signature_witness :
  is_empty_storage (snd (write dir_request full_world)) = true.
Proof.
  assert (Hs : fst (write dir_request full_world) = 0)
    by (vm_compute; reflexivity).
  assert (Hfree : free_clusters 2 (fat_table (state full_world)) = [])
    by (vm_compute; reflexivity).
  assert (Hw : write dir_request full_world
               = (0, snd (write dir_request full_world))).
  { destruct (write dir_request full_world) as [s w1].
    cbn [fst snd] in *. rewrite Hs. reflexivity. }
  apply (mkdir_without_space_erases_signature dir_request full_world _
           eq_refl Hfree Hw).
  vm_compute. discriminate.
Defined.
